(** * A shallow embedding of the ML-chatbot query engine

    The development follows the three stages of the engine:
    [query_parser.py] (text to a parsed dict), [query_planner.py] (parsed
    dict to a plan) and [query_executor.py] (plan to answer data), together
    with the parts of [data_store.py] and [data_fetcher.py] they call.

    Modelling conventions.
    - Python values that travel through dicts (steps, plans, payloads) are
      terms of [pyval]; a dict is an association list in insertion order.
    - A pandas DataFrame is a list of column names and a list of rows, each
      row an association list from column name to [cell].
    - Numbers are exact rationals: rounding and infinities of binary floating
      point are not modelled.  Text is ASCII.
    - Exceptions are values of [exn]; code that can raise lives in [Exc], code
      that also reads or writes the data store in [M].
    - What the Python and pandas runtimes do to turn text into numbers and
      numbers into text is a parameter, [Runtime].
    - Network answers are fixed for the duration of one request and given by
      the environment [Env]. *)

From Stdlib Require Import List String Ascii Bool ZArith QArith Lia.
From Stdlib Require Import Sorting.Sorted Sorting.Permutation.
Import ListNotations.

Close Scope Q_scope.
Open Scope string_scope.
Open Scope list_scope.

(** ** Text *)

Definition ascii_code (c : ascii) : N := N_of_ascii c.

Definition between (lo hi : N) (c : ascii) : bool :=
  (N.leb lo (ascii_code c) && N.leb (ascii_code c) hi)%bool.

Definition is_upper (c : ascii) : bool := between 65 90 c.
Definition is_lower (c : ascii) : bool := between 97 122 c.
Definition is_alpha (c : ascii) : bool := is_upper c || is_lower c.
Definition is_digit (c : ascii) : bool := between 48 57 c.

(** [str.isspace] on ASCII: tab to carriage return, the four separators
    28 to 31, and the blank. *)
Definition is_space (c : ascii) : bool :=
  between 9 13 c || between 28 32 c.

(** [\w] of [re] on ASCII. *)
Definition is_word (c : ascii) : bool :=
  is_alpha c || is_digit c || Ascii.eqb c "_".

Definition lower_char (c : ascii) : ascii :=
  if is_upper c then ascii_of_N (ascii_code c + 32) else c.

Definition upper_char (c : ascii) : ascii :=
  if is_lower c then ascii_of_N (ascii_code c - 32) else c.

(** [str.lower]. *)
Fixpoint lower (s : string) : string :=
  match s with
  | EmptyString => EmptyString
  | String c t => String (lower_char c) (lower t)
  end.

Fixpoint lstrip (s : string) : string :=
  match s with
  | String c t => if is_space c then lstrip t else s
  | EmptyString => EmptyString
  end.

Fixpoint rstrip (s : string) : string :=
  match s with
  | EmptyString => EmptyString
  | String c t =>
      match rstrip t with
      | EmptyString => if is_space c then EmptyString else String c EmptyString
      | t' => String c t'
      end
  end.

(** [str.strip]. *)
Definition strip (s : string) : string := rstrip (lstrip s).

(** [str.startswith]. *)
Definition startswith (s p : string) : bool := String.prefix p s.

(** Position of the first occurrence of [sub] in [s] ([str.find]). *)
Fixpoint find_sub (sub s : string) : option nat :=
  if String.prefix sub s then Some 0
  else match s with
       | EmptyString => None
       | String _ t => option_map S (find_sub sub t)
       end.

(** [sub in s]. *)
Definition str_in (sub s : string) : bool :=
  match find_sub sub s with Some _ => true | None => false end.

(** [str.endswith]. *)
Fixpoint endswith (s p : string) : bool :=
  String.eqb s p ||
  match s with
  | EmptyString => false
  | String _ t => endswith t p
  end.

(** [str.title] on ASCII: a letter that follows a non-letter is upper-cased,
    every other letter lower-cased. *)
Fixpoint title_from (prev_alpha : bool) (s : string) : string :=
  match s with
  | EmptyString => EmptyString
  | String c t =>
      String (if prev_alpha then lower_char c else upper_char c)
             (title_from (is_alpha c) t)
  end.

Definition title (s : string) : string := title_from false s.

(** Characters that [re] reads as operators. *)
Definition is_regex_special (c : ascii) : bool :=
  existsb (Ascii.eqb c)
    (list_ascii_of_string ".^$*+?{}[]\|()").

(** A pattern that [re] reads literally. *)
Definition regex_literal (s : string) : bool :=
  forallb (fun c => negb (is_regex_special c)) (list_ascii_of_string s).

(** [Series.str.contains(pat, case=False)] on one string.  pandas hands [pat]
    to [re]; on a pattern that is [regex_literal] (every state and crop name
    the parser produces is one) that is a search for [pat] as a substring,
    letter case ignored, which is what this function computes. *)
Definition contains_ci (pat s : string) : bool := str_in (lower pat) (lower s).

(** Decimal digits of a natural number, and [str] of a Python [int]. *)
Definition digit_char (n : nat) : ascii := ascii_of_nat (48 + n).

Fixpoint digits_fuel (fuel n : nat) (acc : string) : string :=
  match fuel with
  | O => acc
  | S f =>
      let acc' := String (digit_char (n mod 10)) acc in
      if Nat.ltb n 10 then acc' else digits_fuel f (n / 10) acc'
  end.

Definition nat_str (n : nat) : string := digits_fuel (S n) n EmptyString.

Definition int_str (z : Z) : string :=
  if (z <? 0)%Z then "-" ++ nat_str (Z.to_nat (- z)) else nat_str (Z.to_nat z).

(** [int(s)] for a run of decimal digits. *)
Definition digit_val (c : ascii) : Z := Z.of_N (ascii_code c) - 48.

Definition int_of_digits (s : string) : Z :=
  fold_left (fun acc c => (acc * 10 + digit_val c)%Z) (list_ascii_of_string s) 0%Z.

(** ** Python values *)

(** A Python float: not-a-number or a finite value. *)
Inductive fl : Type :=
| NaN
| Fin (q : Q).

#[warnings="-register-all"]
Inductive pyval : Type :=
| PNone
| PBool (b : bool)
| PInt (z : Z)
| PFloat (x : fl)
| PStr (s : string)
| PList (l : list pyval)
| PDict (d : list (string * pyval)).

Definition pydict : Type := list (string * pyval).

Inductive exn : Type :=
| KeyError (key : string)
| AttributeError (what : string)
| TypeError (what : string)
| ValueError (what : string)
| IndexError (what : string)
| NameError (name : string)
| RuntimeError (what : string)
| RequestError (what : string)
| Exception_ (what : string).

Inductive Exc (A : Type) : Type :=
| Ok (a : A)
| Raise (e : exn).

Arguments Ok {A} a.
Arguments Raise {A} e.

Definition ebind {A B} (m : Exc A) (f : A -> Exc B) : Exc B :=
  match m with
  | Ok a => f a
  | Raise e => Raise e
  end.

(** Dict operations: [d.get(k)], [d[k]], [d[k] = v]. *)
Fixpoint dict_get {V} (k : string) (d : list (string * V)) : option V :=
  match d with
  | [] => None
  | (k', v) :: t => if String.eqb k k' then Some v else dict_get k t
  end.

Fixpoint dict_set {V} (k : string) (v : V) (d : list (string * V)) : list (string * V) :=
  match d with
  | [] => [(k, v)]
  | (k', v') :: t =>
      if String.eqb k k' then (k, v) :: t else (k', v') :: dict_set k v t
  end.

Definition dict_item (k : string) (d : pydict) : Exc pyval :=
  match dict_get k d with
  | Some v => Ok v
  | None => Raise (KeyError k)
  end.

Definition dict_keys {V} (d : list (string * V)) : list string := map fst d.

(** [{**d1, **d2}]. *)
Definition dict_merge (d1 d2 : pydict) : pydict :=
  fold_left (fun acc kv => dict_set (fst kv) (snd kv) acc) d2 d1.

(** Truth value of a Python object. *)
Definition truthy (v : pyval) : bool :=
  match v with
  | PNone => false
  | PBool b => b
  | PInt z => negb (z =? 0)%Z
  | PFloat NaN => true
  | PFloat (Fin q) => negb (Qeq_bool q 0%Q)
  | PStr s => negb (String.eqb s "")
  | PList l => match l with [] => false | _ => true end
  | PDict d => match d with [] => false | _ => true end
  end.

Definition truthy_str (o : option string) : bool :=
  match o with
  | Some s => negb (String.eqb s "")
  | None => false
  end.

(** [o == "literal"] for an attribute that is [None] or a string. *)
Definition truthy_str_is (o : option string) (s : string) : bool :=
  match o with
  | Some s' => String.eqb s' s
  | None => false
  end.

(** [x == "literal"]. *)
Definition py_eq_str (v : option pyval) (s : string) : bool :=
  match v with
  | Some (PStr s') => String.eqb s' s
  | _ => false
  end.

(** Integer part of a rational, towards zero ([int] on a float). *)
Definition Qtrunc (q : Q) : Z := Z.quot (Qnum q) (Zpos (Qden q)).

(** Python slices [l[start:]] and [l[:stop]]. *)
Definition slice_from {A} (start : Z) (l : list A) : list A :=
  let len := Z.of_nat (List.length l) in
  let s := if (start <? 0)%Z then Z.max 0 (start + len) else Z.min start len in
  skipn (Z.to_nat s) l.

Definition slice_to {A} (stop : Z) (l : list A) : list A :=
  let len := Z.of_nat (List.length l) in
  let s := if (stop <? 0)%Z then Z.max 0 (stop + len) else Z.min stop len in
  firstn (Z.to_nat s) l.

(** ** Sorting *)

Section Sort.
Context {A : Type} (le : A -> A -> bool).

Fixpoint insert_sorted (x : A) (l : list A) : list A :=
  match l with
  | [] => [x]
  | y :: t => if le x y then x :: l else y :: insert_sorted x t
  end.

(** A stable sort: equal elements keep their order. *)
Definition sort_by (l : list A) : list A := fold_right insert_sorted [] l.

Fixpoint dedup_by (eq : A -> A -> bool) (l : list A) : list A :=
  match l with
  | [] => []
  | x :: t => x :: filter (fun y => negb (eq x y)) (dedup_by eq t)
  end.
End Sort.

(** ** Tables *)

(** A cell of a DataFrame: text, a number, Python's [None], or the float
    not-a-number that pandas uses for a missing value. *)
Inductive cell : Type :=
| CStr (s : string)
| CNum (q : Q)
| CNone
| CNaN.

Definition row : Type := list (string * cell).

Record DataFrame : Type := mkFrame {
  columns : list string;
  rows : list row
}.

(** [pd.DataFrame()]. *)
Definition empty_frame : DataFrame := mkFrame [] [].

(** [df.empty]: no column or no row. *)
Definition df_empty (df : DataFrame) : bool :=
  match columns df, rows df with
  | [], _ => true
  | _, [] => true
  | _, _ => false
  end.

(** A field absent from a record reads as not-a-number. *)
Definition row_get (c : string) (r : row) : cell :=
  match dict_get c r with
  | Some v => v
  | None => CNaN
  end.

(** [c in df.columns]. *)
Definition has_col (c : string) (df : DataFrame) : bool :=
  existsb (String.eqb c) (columns df).

(** [df[c]] as the list of its cells. *)
Definition col (c : string) (df : DataFrame) : list cell :=
  map (row_get c) (rows df).

(** [df[c] = f(row)], row by row; a new name is appended to the columns. *)
Definition df_assign (c : string) (f : row -> cell) (df : DataFrame) : DataFrame :=
  mkFrame (if has_col c df then columns df else columns df ++ [c])
          (map (fun r => dict_set c (f r) r) (rows df)).

(** [df[mask]]. *)
Definition df_filter (p : row -> bool) (df : DataFrame) : DataFrame :=
  mkFrame (columns df) (filter p (rows df)).

Definition is_null (c : cell) : bool :=
  match c with
  | CNone | CNaN => true
  | _ => false
  end.

Definition is_num (c : cell) : bool :=
  match c with CNum _ => true | _ => false end.

Definition is_none (c : cell) : bool :=
  match c with CNone => true | _ => false end.

(** dtype inference, read off the cells: a column is numeric when it holds
    numbers and missing values only and is not made of [None] alone;
    otherwise it has dtype object. *)
Definition numeric_column (cs : list cell) : bool :=
  forallb (fun c => is_num c || is_null c) cs && negb (forallb is_none cs).

Definition cell_eqb (a b : cell) : bool :=
  match a, b with
  | CStr s, CStr t => String.eqb s t
  | CNum p, CNum q => Qeq_bool p q
  | CNone, CNone => true
  | CNaN, CNaN => true
  | _, _ => false
  end.

(** Order of group keys: numbers before text, numbers by value, text by
    code point. *)
Definition cell_leb (a b : cell) : bool :=
  match a, b with
  | CNum p, CNum q => Qle_bool p q
  | CNum _, _ => true
  | CStr _, CNum _ => false
  | CStr s, CStr t => String.leb s t
  | CStr _, _ => true
  | _, _ => is_null b
  end.

Definition cell_val (c : cell) : pyval :=
  match c with
  | CStr s => PStr s
  | CNum q => PFloat (Fin q)
  | CNone => PNone
  | CNaN => PFloat NaN
  end.

(** Values of the numeric cells of a column ([dropna] on a coerced column). *)
Definition nums (cs : list cell) : list Q :=
  flat_map (fun c => match c with CNum q => [q] | _ => [] end) cs.

Definition qsum (l : list Q) : Q := fold_right Qplus 0%Q l.

(** [Series.sum()] of a numeric column: missing values are skipped. *)
Definition series_sum (cs : list cell) : Q := Qred (qsum (nums cs)).

(** [Series.mean()] of a numeric column: missing values are skipped, and the
    mean of nothing is not-a-number. *)
Definition series_mean (cs : list cell) : fl :=
  match nums cs with
  | [] => NaN
  | l => Fin (Qred (qsum l / inject_Z (Z.of_nat (List.length l))))
  end.

(** [sorted(series.dropna().unique())] of a numeric column. *)
Definition unique_nums (cs : list cell) : list Q := dedup_by Qeq_bool (nums cs).

Definition sorted_unique (cs : list cell) : list Q :=
  sort_by Qle_bool (unique_nums cs).

(** [series.isin(values)] on one cell. *)
Definition isin (c : cell) (values : list Q) : bool :=
  match c with
  | CNum q => existsb (Qeq_bool q) values
  | _ => false
  end.

(** [series == value] on one cell of a coerced column. *)
Definition num_eq (c : cell) (q : Q) : bool :=
  match c with
  | CNum p => Qeq_bool p q
  | _ => false
  end.

(** ** The Python and pandas runtime *)

Record Runtime : Type := mkRuntime {
  (** [pd.to_numeric] on one string; [None] when it is coerced to NaN *)
  to_num : string -> option Q;
  (** [float(s)]; [None] when it raises [ValueError] *)
  py_float : string -> option Q;
  (** [str(x)] of a number held in a table *)
  num_str : Q -> string;
  (** [str(x)] of a float, list or dict passed as an argument *)
  repr_other : pyval -> string
}.

Section Pandas.
Variable rt : Runtime.

(** [pd.to_numeric(series, errors="coerce")] on one cell. *)
Definition to_numeric (c : cell) : cell :=
  match c with
  | CStr s => match to_num rt s with Some q => CNum q | None => CNaN end
  | CNum q => CNum q
  | _ => CNaN
  end.

Definition coerce_col (c : string) (df : DataFrame) : DataFrame :=
  df_assign c (fun r => to_numeric (row_get c r)) df.

(** [series.astype(str)] on one cell, also [str(cell)]. *)
Definition astype_str (c : cell) : string :=
  match c with
  | CStr s => s
  | CNum q => num_str rt q
  | CNone => "None"
  | CNaN => "nan"
  end.

(** [str(x)] and the [{x}] of an f-string. *)
Definition py_str (v : pyval) : string :=
  match v with
  | PStr s => s
  | PInt z => int_str z
  | PNone => "None"
  | PBool true => "True"
  | PBool false => "False"
  | _ => repr_other rt v
  end.

(** [df[c].astype(str).str.contains(pat, case=False, na=False)] on a row. *)
Definition row_contains (c pat : string) (r : row) : bool :=
  contains_ci pat (astype_str (row_get c r)).
End Pandas.

(** [series.str.contains(pat, case=False, na=False)] on one cell, without
    [astype]: a cell that is not text does not match. *)
Definition raw_contains (pat : string) (c : cell) : bool :=
  match c with
  | CStr s => contains_ci pat s
  | _ => false
  end.

(** ** Grouping *)

Section GroupBy.
Context {K : Type} (keqb kleb : K -> K -> bool) (knull : K -> bool).

(** The keys of [groupby]: missing keys dropped, distinct, ascending. *)
Definition group_keys (ks : list K) : list K :=
  sort_by kleb (dedup_by keqb (filter (fun k => negb (knull k)) ks)).

(** [groupby(key, as_index=False)[val].sum()]. *)
Definition groupby_sum (key : row -> K) (val : row -> cell) (rs : list row)
  : list (K * Q) :=
  map (fun k => (k, series_sum (map val (filter (fun r => keqb k (key r)) rs))))
      (group_keys (map key rs)).
End GroupBy.

Definition pair_eqb (a b : cell * cell) : bool :=
  cell_eqb (fst a) (fst b) && cell_eqb (snd a) (snd b).

Definition cell_ltb (a b : cell) : bool := cell_leb a b && negb (cell_eqb a b).

Definition pair_leb (a b : cell * cell) : bool :=
  cell_ltb (fst a) (fst b) || (cell_eqb (fst a) (fst b) && cell_leb (snd a) (snd b)).

Definition pair_null (a : cell * cell) : bool := is_null (fst a) || is_null (snd a).

(** [sort_values(col, ascending=False)] and [ascending=True] on grouped sums.
    Rows with equal sums keep their order. *)
Definition sort_desc {K} (l : list (K * Q)) : list (K * Q) :=
  sort_by (fun a b => Qle_bool (snd b) (snd a)) l.

Definition sort_asc {K} (l : list (K * Q)) : list (K * Q) :=
  sort_by (fun a b => Qle_bool (snd a) (snd b)) l.

(** [to_dict(orient="records")] of a frame of group sums. *)
Definition records (key_col val_col : string) (l : list (cell * Q)) : pyval :=
  PList (map (fun kv =>
                PDict (dict_set val_col (PFloat (Fin (snd kv)))
                                (dict_set key_col (cell_val (fst kv)) [])))
             l).

Definition columns_list (df : DataFrame) : pyval := PList (map PStr (columns df)).

Definition opt_str (o : option string) : pyval :=
  match o with
  | Some s => PStr s
  | None => PNone
  end.

Definition years_list (l : list Q) : pyval := PList (map (fun y => PFloat (Fin y)) l).

(** [[int(y) for y in years]]. *)
Definition int_years (l : list Q) : pyval := PList (map (fun y => PInt (Qtrunc y)) l).


(** ** Column-role resolution *)

(** [{c.lower(): c for c in columns}.get(lc)]: a later column replaces an
    earlier one with the same lower-case form. *)
Definition lower_map_get (lc : string) (cols : list string) : option string :=
  fold_left (fun acc c => if String.eqb (lower c) lc then Some c else acc) cols None.

Fixpoint first_lower_match (candidates cols : list string) : option string :=
  match candidates with
  | [] => None
  | c :: t =>
      match lower_map_get (lower c) cols with
      | Some x => Some x
      | None => first_lower_match t cols
      end
  end.

(** [find_col(candidates)], the helper every computation defines over the
    columns of its table: a pass for an exact name, then a pass that ignores
    letter case. *)
Definition find_col (candidates cols : list string) : option string :=
  match find (fun c => existsb (String.eqb c) cols) candidates with
  | Some c => Some c
  | None => first_lower_match candidates cols
  end.

(** [pick(cols)] of [_compute_rainfall_compare] has the same body. *)
Definition pick (candidates cols : list string) : option string :=
  find_col candidates cols.

(** ** Data store ([data_store.py]) *)

Record Store : Type := mkStore {
  agriculture_data : list (string * DataFrame);
  climate_data : list (string * DataFrame);
  metadata : list (string * pydict)
}.

Definition get_dataset (name : string) (st : Store) : option DataFrame :=
  match dict_get name (agriculture_data st) with
  | Some df => Some df
  | None => dict_get name (climate_data st)
  end.

Definition add_dataset (category name : string) (df : DataFrame) (meta : pydict)
  (st : Store) : Store :=
  mkStore
    (if String.eqb category "agriculture"
     then dict_set name df (agriculture_data st) else agriculture_data st)
    (if String.eqb category "agriculture" then climate_data st
     else if String.eqb category "climate"
          then dict_set name df (climate_data st) else climate_data st)
    (dict_set name meta (metadata st)).

(** The frame [get_dataset] returns is the stored object itself: a column
    assignment on it changes the store.  [replace_dataset] writes the changed
    frame back to the slot [get_dataset] read it from. *)
Definition replace_dataset (name : string) (df : DataFrame) (st : Store) : Store :=
  match dict_get name (agriculture_data st) with
  | Some _ => mkStore (dict_set name df (agriculture_data st)) (climate_data st) (metadata st)
  | None =>
      match dict_get name (climate_data st) with
      | Some _ => mkStore (agriculture_data st) (dict_set name df (climate_data st)) (metadata st)
      | None => st
      end
  end.

(** Where a frame lives: in the store under a name, or nowhere else than in
    the local variable. *)
Inductive origin : Type :=
| Stored (name : string)
| Fresh.

(** ** State and exceptions *)

Definition M (A : Type) : Type := Store -> Exc A * Store.

Definition ret {A} (a : A) : M A := fun st => (Ok a, st).

Definition bind {A B} (m : M A) (f : A -> M B) : M B :=
  fun st =>
    match m st with
    | (Ok a, st') => f a st'
    | (Raise e, st') => (Raise e, st')
    end.

Definition lift {A} (x : Exc A) : M A := fun st => (x, st).

(** [try: m except Exception: h]. *)
Definition try_except {A} (m : M A) (h : M A) : M A :=
  fun st =>
    match m st with
    | (Ok a, st') => (Ok a, st')
    | (Raise _, st') => h st'
    end.

Definition read_dataset (name : string) : M (option DataFrame) :=
  fun st => (Ok (get_dataset name st), st).

Definition commit (o : origin) (df : DataFrame) : M unit :=
  fun st =>
    match o with
    | Stored name => (Ok tt, replace_dataset name df st)
    | Fresh => (Ok tt, st)
    end.

Declare Scope m_scope.
Delimit Scope m_scope with m.
Notation "x <- m ;; k" := (bind m (fun x => k))
  (at level 61, m at next level, right associativity) : m_scope.
Notation "' p <- m ;; k" := (bind m (fun x => match x with p => k end))
  (at level 61, p pattern, m at next level, right associativity) : m_scope.
Notation "m ;;; k" := (bind m (fun _ => k))
  (at level 61, right associativity) : m_scope.

Declare Scope exc_scope.
Delimit Scope exc_scope with exc.
Notation "x <- m ;; k" := (ebind m (fun x => k))
  (at level 61, m at next level, right associativity) : exc_scope.
Notation "m ;;; k" := (ebind m (fun _ => k))
  (at level 61, right associativity) : exc_scope.

(** ** Configuration and network *)

(** The attributes of [config.get_config()] the engine reads.  An attribute is
    [None] or a string. *)
Record Config : Type := mkConfig {
  data_gov_in_api_key : option string;
  rainfall_resource_id : option string;
  crop_production_resource_id : option string;
  district_crop_production_resource_id : option string
}.

(** What the outside world answers during one request: the frame or the
    exception of the CKAN [datastore_search] call and of the data.gov.in
    call for a resource id, and the id that
    [DataGovInClient().discover_district_crop_production_resource_id()]
    finds ([None] when it finds none or raises). *)
Record Env : Type := mkEnv {
  config : Config;
  ckan_datastore : string -> Exc DataFrame;
  data_gov_in : string -> Exc DataFrame;
  discovered_district_id : option string
}.

(** ** Argument coercions

    A step dict can hold any value under any key.  A computation raises
    [TypeError] at the first operation that needs a value of another type. *)

Definition as_str (v : pyval) : Exc string :=
  match v with
  | PStr s => Ok s
  | _ => Raise (TypeError "first argument must be string or compiled pattern")
  end.

(** A value used as a slice bound after unary minus. *)
Definition as_index (v : pyval) : Exc Z :=
  match v with
  | PInt z => Ok z
  | PBool b => Ok (if b then 1 else 0)%Z
  | _ => Raise (TypeError "slice indices must be integers")
  end.

(** The argument of [head]: [None] keeps every row. *)
Definition head_arg (v : pyval) : Exc (option Z) :=
  match v with
  | PNone => Ok None
  | PInt z => Ok (Some z)
  | PBool b => Ok (Some (if b then 1 else 0)%Z)
  | _ => Raise (TypeError "cannot do positional indexing")
  end.

Definition head {A} (n : option Z) (l : list A) : list A :=
  match n with
  | None => l
  | Some z => slice_to z l
  end.

(** [int(v)] where the code applies it; a string never reaches it. *)
Definition py_int (v : pyval) : Exc Z :=
  match v with
  | PInt z => Ok z
  | PBool b => Ok (if b then 1 else 0)%Z
  | PFloat (Fin q) => Ok (Qtrunc q)
  | PFloat NaN => Raise (ValueError "cannot convert float NaN to integer")
  | _ => Raise (TypeError "int() argument must be a string or a real number")
  end.

(** [n >= v] and [n < v] for the length [n] of a list. *)
Definition len_ge (n : nat) (v : pyval) : Exc bool :=
  match v with
  | PInt z => Ok (z <=? Z.of_nat n)%Z
  | PBool b => Ok ((if b then 1 else 0) <=? Z.of_nat n)%Z
  | PFloat (Fin q) => Ok (Qle_bool q (inject_Z (Z.of_nat n)))
  | PFloat NaN => Ok false
  | _ => Raise (TypeError ">= not supported")
  end.

Definition len_lt (n : nat) (v : pyval) : Exc bool :=
  match v with
  | PInt z => Ok (Z.of_nat n <? z)%Z
  | PBool b => Ok (Z.of_nat n <? (if b then 1 else 0))%Z
  | PFloat (Fin q) => Ok (negb (Qle_bool q (inject_Z (Z.of_nat n))))
  | PFloat NaN => Ok false
  | _ => Raise (TypeError "< not supported")
  end.

(** [series == v] on one cell, for any Python value [v]. *)
Definition cell_eq_py (c : cell) (v : pyval) : bool :=
  match c, v with
  | CNum p, PInt z => Qeq_bool p (inject_Z z)
  | CNum p, PBool b => Qeq_bool p (inject_Z (if b then 1 else 0))
  | CNum p, PFloat (Fin q) => Qeq_bool p q
  | CStr s, PStr t => String.eqb s t
  | _, _ => false
  end.

(** The [.str] accessor exists on a column of dtype object only.  A frame
    cut out of another one keeps the dtypes of its columns, so the test is
    made on the column of the frame as loaded. *)
Definition str_accessor (cs : list cell) : Exc unit :=
  if numeric_column cs
  then Raise (AttributeError "Can only use .str accessor with string values!")
  else Ok tt.

(** The name held by a role that tested true. *)
Definition the_col (o : option string) : string :=
  match o with
  | Some s => s
  | None => ""
  end.

(** ** [data_fetcher.py] and [query_executor.py] *)

Section Executor.
Variable rt : Runtime.
Variable env : Env.

Local Open Scope m_scope.

(** [DataFetcher._fetch_from_ckan_datastore]: any failure of the CKAN call
    falls back to the data.gov.in call. *)
Definition _fetch_from_ckan_datastore (resource_id : string) : Exc DataFrame :=
  match ckan_datastore env resource_id with
  | Ok df => Ok df
  | Raise _ => data_gov_in env resource_id
  end.

(** [DataFetcher.fetch_dataset]. *)
Definition fetch_dataset (resource_id : option string) (use_ckan : bool) : Exc DataFrame :=
  match resource_id with
  | None => Raise (AttributeError "'NoneType' object has no attribute 'startswith'")
  | Some rid =>
      if startswith rid "sample_" then Ok empty_frame
      else
        let api_key := data_gov_in_api_key (config env) in
        if negb (truthy_str api_key) || truthy_str_is api_key "YOUR_KEY_HERE"
        then Raise (RuntimeError "DATA_GOV_IN_API_KEY not set or is placeholder. Create .env with DATA_GOV_IN_API_KEY=<your_key>.")
        else if use_ckan then _fetch_from_ckan_datastore rid
        else data_gov_in env rid
  end.

Definition _load_crop_production : Exc DataFrame :=
  fetch_dataset (crop_production_resource_id (config env)) false.

Definition _load_rainfall : Exc DataFrame :=
  let rid := rainfall_resource_id (config env) in
  if negb (truthy_str rid) then Ok empty_frame
  else fetch_dataset rid false.

Definition state_candidates : list string :=
  ["State_Name"; "STATE"; "State"; "STATE/UT"; "STATE_UT_NAME"; "State Name"].
Definition district_candidates : list string :=
  ["District_Name"; "District"; "DISTRICT"; "District Name"].
Definition crop_candidates : list string :=
  ["Crop"; "CROP"; "Crop_Name"; "Commodity"; "CROP_NAME"].
Definition production_candidates : list string :=
  ["Production"; "PRODUCTION"; "Prodn"; "PROD"; "production_tonnes"].
Definition production_candidates_prod : list string :=
  ["Production"; "PRODUCTION"; "Prodn"; "PROD"; "production_tonnes"; "Prod"].
Definition year_candidates : list string := ["Year"; "YEAR"; "year"].

Definition _validate_crop_production_schema (df : DataFrame) : bool :=
  if df_empty df then false
  else
    let state_col := find_col (state_candidates ++ ["state"]) (columns df) in
    let district_col := find_col (district_candidates ++ ["district"]) (columns df) in
    let crop_col := find_col (crop_candidates ++ ["crop"]) (columns df) in
    let prod_col := find_col (production_candidates_prod ++ ["production"]) (columns df) in
    truthy_str state_col && truthy_str district_col && truthy_str crop_col
    && truthy_str prod_col.

Definition district_dataset : string := "crop_production_district_season".

Definition cache_district (resource_id : string) (df : DataFrame) : M unit :=
  fun st =>
    (Ok tt,
     add_dataset "agriculture" district_dataset df
       [("id", PStr resource_id);
        ("name", PStr "District-wise Season-wise Crop Production")] st).

(** The loop over [resource_ids_to_try]: CKAN first, then data.gov.in; the
    first fetched frame that validates is cached and returned. *)
Fixpoint try_resource_ids (ids : list string) : M (DataFrame * origin) :=
  match ids with
  | [] => ret (empty_frame, Fresh)
  | resource_id :: rest =>
      let second :=
        match fetch_dataset (Some resource_id) false with
        | Ok df_fetched =>
            if _validate_crop_production_schema df_fetched
            then cache_district resource_id df_fetched ;;;
                 ret (df_fetched, Stored district_dataset)
            else try_resource_ids rest
        | Raise _ => try_resource_ids rest
        end in
      match fetch_dataset (Some resource_id) true with
      | Ok df_fetched =>
          if _validate_crop_production_schema df_fetched
          then cache_district resource_id df_fetched ;;;
               ret (df_fetched, Stored district_dataset)
          else second
      | Raise _ => second
      end
  end.

Definition resource_ids_to_try : list string :=
  let configured :=
    match district_crop_production_resource_id (config env) with
    | Some rid => if truthy_str (Some rid) then [rid] else []
    | None => []
    end in
  match discovered_district_id env with
  | Some discovered_id =>
      if truthy_str (Some discovered_id)
         && negb (existsb (String.eqb discovered_id) configured)
      then configured ++ [discovered_id] else configured
  | None => configured
  end.

Definition _load_district_crop_production : M (DataFrame * origin) :=
  stored <- read_dataset district_dataset ;;
  match stored with
  | Some df =>
      if negb (df_empty df) && _validate_crop_production_schema df
      then ret (df, Stored district_dataset)
      else try_resource_ids resource_ids_to_try
  | None => try_resource_ids resource_ids_to_try
  end.

(** *** [_compute_rainfall_compare] *)

Definition state_col_candidates : list string :=
  ["STATE"; "STATE_UT_NAME"; "SUBDIVISION"; "State"; "STATE/UT"; "subdivision"].
Definition year_col_candidates : list string :=
  ["YEAR"; "Year"; "year"; "Year"; "YEAR"].
Definition annual_col_candidates : list string :=
  ["ANNUAL"; "Annual"; "ANN"; "Rainfall"; "annual"].

(** The rows of [sub] whose state cell contains [s]. *)
Definition state_rows (sc s : string) (sub : DataFrame) : DataFrame :=
  df_filter (fun r => raw_contains s (row_get sc r)) sub.

(** The value stored under [out[s]]. *)
Definition rainfall_entry (sc ac : string) (recent_years : list Q)
  (sub : DataFrame) (s : string) : pyval :=
  let s_sub := state_rows sc s sub in
  PDict [("years", years_list recent_years);
         ("avg_annual_mm",
          if negb (df_empty s_sub) then PFloat (series_mean (col ac s_sub)) else PNone)].

Definition _compute_rainfall_compare (state1 state2 years : pyval) : M pyval :=
  df <- lift _load_rainfall ;;
  if df_empty df then ret (PDict [("note", PStr "No rainfall dataset configured")])
  else
    let sc := pick state_col_candidates (columns df) in
    let yc := pick year_col_candidates (columns df) in
    let ac := pick annual_col_candidates (columns df) in
    if negb (truthy_str sc && truthy_str yc && truthy_str ac)
    then ret (PDict [("error", PStr "Rainfall dataset has unexpected schema");
                     ("columns", columns_list df)])
    else
      let sc := the_col sc in
      let yc := the_col yc in
      let ac := the_col ac in
      let df := coerce_col rt yc df in
      let df := coerce_col rt ac df in
      n <- lift (as_index years) ;;
      let recent_years := slice_from (- n) (sorted_unique (col yc df)) in
      let sub := df_filter (fun r => isin (row_get yc r) recent_years) df in
      lift (str_accessor (col sc df)) ;;;
      s1 <- lift (as_str state1) ;;
      let out := dict_set s1 (rainfall_entry sc ac recent_years sub s1) [] in
      lift (str_accessor (col sc df)) ;;;
      s2 <- lift (as_str state2) ;;
      let out := dict_set s2 (rainfall_entry sc ac recent_years sub s2) out in
      ret (PDict out).

(** *** [_compute_top_crops] *)

Definition or_default (o : option string) (d : string) : string :=
  match o with
  | Some s => if truthy_str (Some s) then s else d
  | None => d
  end.

Definition coerce_if_present (c : string) (df : DataFrame) : DataFrame :=
  if has_col c df then coerce_col rt c df else df.

(** One turn of the loop over the two states of [_compute_top_crops]. *)
Definition top_crops_entry (df : DataFrame) (state_col crop_col prod_col : string)
  (s top_m crop_type : pyval) : Exc (string * pyval) :=
  (name <- as_str s ;;
   let s_df := df_filter (row_contains rt state_col name) df in
   s_df <- (if truthy crop_type
            then (ct <- as_str crop_type ;;
                  Ok (df_filter (row_contains rt crop_col ct) s_df))
            else Ok s_df) ;;
   m <- head_arg top_m ;;
   let top :=
     head m (sort_desc (groupby_sum cell_eqb cell_leb is_null
                          (row_get crop_col) (row_get prod_col) (rows s_df))) in
   Ok (name, records crop_col prod_col top))%exc.

Definition _compute_top_crops (state1 state2 top_m crop_type : pyval) : M pyval :=
  df <- lift _load_crop_production ;;
  if df_empty df then ret (PDict [("note", PStr "Crop production dataset empty")])
  else
    let state_col := find_col state_candidates (columns df) in
    let crop_col := find_col crop_candidates (columns df) in
    let prod_col := or_default (find_col production_candidates (columns df)) "Production" in
    let df := coerce_if_present prod_col df in
    let df := coerce_if_present "Area" df in
    if negb (truthy_str state_col) || negb (truthy_str crop_col)
       || negb (has_col prod_col df)
    then ret (PDict [("error", PStr "Crop dataset schema unexpected");
                     ("columns", columns_list df)])
    else
      let state_col := the_col state_col in
      let crop_col := the_col crop_col in
      e1 <- lift (top_crops_entry df state_col crop_col prod_col state1 top_m crop_type) ;;
      let out := dict_set (fst e1) (snd e1) [] in
      e2 <- lift (top_crops_entry df state_col crop_col prod_col state2 top_m crop_type) ;;
      let out := dict_set (fst e2) (snd e2) out in
      ret (PDict out).

(** *** [_compute_district_crop_extrema] *)

Definition resource_id_or_default : string :=
  or_default (district_crop_production_resource_id (config env)) "not configured".

Definition dataset_unavailable_message : string :=
  "District crop production dataset not available. Resource ID: " ++ resource_id_or_default.

Definition dataset_unavailable_hint : string :=
  "The district crop production resource ID may be incorrect or the dataset may not be accessible.".

(** The five roles of a district table, resolved or not. *)
Record DistrictCols : Type := mkDistrictCols {
  dc_state : option string;
  dc_district : option string;
  dc_crop : option string;
  dc_prod : option string;
  dc_year : option string
}.

Definition district_cols (df : DataFrame) : DistrictCols :=
  mkDistrictCols
    (find_col state_candidates (columns df))
    (find_col district_candidates (columns df))
    (find_col crop_candidates (columns df))
    (find_col production_candidates_prod (columns df))
    (find_col year_candidates (columns df)).

(** [all([state_col, district_col, crop_col, prod_col, year_col])]. *)
Definition all_cols (c : DistrictCols) : bool :=
  truthy_str (dc_state c) && truthy_str (dc_district c) && truthy_str (dc_crop c)
  && truthy_str (dc_prod c) && truthy_str (dc_year c).

Definition last_opt {A} (l : list A) : option A :=
  match rev l with
  | [] => None
  | x :: _ => Some x
  end.

(** [extrema_for(state, crop, mode)]; [minimum] is [mode == "min"]. *)
Definition extrema_for (df : DataFrame) (state_col district_col crop_col prod_col year_col : string)
  (state crop : pyval) (minimum : bool) : Exc pyval :=
  (s <- as_str state ;;
   c <- as_str crop ;;
   let sub := df_filter (fun r => row_contains rt state_col s r
                                  && row_contains rt crop_col c r) df in
   if df_empty sub then Ok PNone
   else
     let years := sorted_unique (col year_col sub) in
     match last_opt years with
     | None => Ok PNone
     | Some recent =>
         let sub_recent := df_filter (fun r => num_eq (row_get year_col r) recent) sub in
         let sums := groupby_sum cell_eqb cell_leb is_null
                       (row_get district_col) (row_get prod_col) (rows sub_recent) in
         let grouped := if minimum then sort_asc sums else sort_desc sums in
         match grouped with
         | [] => Raise (IndexError "single positional indexer is out-of-bounds")
         | row0 :: _ =>
             Ok (PDict [("state", state); ("crop", crop);
                        ("district", PStr (astype_str rt (fst row0)));
                        ("year", PInt (Qtrunc recent));
                        ("production", PFloat (Fin (snd row0)))])
         end
     end)%exc.

Definition _compute_district_crop_extrema (state_max crop_max state_min crop_min : pyval)
  : M pyval :=
  '(df, o) <- _load_district_crop_production ;;
  if df_empty df
  then ret (PDict [("error", PStr dataset_unavailable_message);
                   ("hint", PStr dataset_unavailable_hint)])
  else
    let c := district_cols df in
    if negb (all_cols c)
    then ret (PDict [("error", PStr "District dataset schema unexpected");
                     ("columns", columns_list df)])
    else
      let state_col := the_col (dc_state c) in
      let district_col := the_col (dc_district c) in
      let crop_col := the_col (dc_crop c) in
      let prod_col := the_col (dc_prod c) in
      let year_col := the_col (dc_year c) in
      let df := coerce_col rt prod_col df in
      let df := coerce_col rt year_col df in
      commit o df ;;;
      hi <- lift (extrema_for df state_col district_col crop_col prod_col year_col
                    state_max crop_max false) ;;
      lo <- lift (extrema_for df state_col district_col crop_col prod_col year_col
                    state_min crop_min true) ;;
      ret (PDict [("max", hi); ("min", lo)]).

(** *** [_compute_top_crops_state] *)

Definition major_dataset : string := "crop_production_major_crops".

(** [usable d] is the negation of [df is None or df.empty]. *)
Definition usable (d : option DataFrame) : option DataFrame :=
  match d with
  | Some df => if df_empty df then None else Some df
  | None => None
  end.

(** The preference chain: the district table of the store, then the
    major-crops table, then a direct fetch. *)
Definition top_crops_state_table : M (DataFrame * origin) :=
  d1 <- read_dataset district_dataset ;;
  match usable d1 with
  | Some df => ret (df, Stored district_dataset)
  | None =>
      d2 <- read_dataset major_dataset ;;
      match usable d2 with
      | Some df => ret (df, Stored major_dataset)
      | None => df <- lift _load_crop_production ;; ret (df, Fresh)
      end
  end.

(** [dropna(subset=[a, b])]. *)
Definition dropna2 (a b : string) (df : DataFrame) : DataFrame :=
  df_filter (fun r => negb (is_null (row_get a r)) && negb (is_null (row_get b r))) df.

Definition len_val {A} (l : list A) : pyval := PInt (Z.of_nat (List.length l)).

(** [filtered[[a, b, c]].head(20).to_dict(orient="records")]. *)
Definition sample_records (a b c : string) (df : DataFrame) : pyval :=
  PList (map (fun r =>
                PDict (dict_set c (cell_val (row_get c r))
                         (dict_set b (cell_val (row_get b r))
                            (dict_set a (cell_val (row_get a r)) []))))
             (firstn 20 (rows df))).

(** The long-format branch: one row per state, crop and year. *)
Definition top_crops_state_long (df : DataFrame) (o : origin)
  (state_col crop_col prod_col year_col : string) (state top_n years : pyval) : M pyval :=
  if negb (has_col prod_col df) then lift (Raise (KeyError prod_col))
  else
    let df := coerce_col rt prod_col df in
    let df := coerce_col rt year_col df in
    commit o df ;;;
    s <- lift (as_str state) ;;
    let filtered := df_filter (row_contains rt state_col s) df in
    if df_empty filtered
    then ret (PDict
           [("error", PStr ("No data found for " ++ py_str rt state));
            ("state", state);
            ("debug", PDict
               [("total_rows", len_val (rows df));
                ("sample_state_values",
                 if has_col state_col df
                 then PList (map PStr (firstn 5 (dedup_by String.eqb
                                (map (astype_str rt) (col state_col df)))))
                 else PList [])])])
    else
      let all_years := sorted_unique (col year_col filtered) in
      enough <- lift (len_ge (List.length all_years) years) ;;
      recent_years <- (if enough
                       then n <- lift (as_index years) ;; ret (slice_from (- n) all_years)
                       else ret all_years) ;;
      let filtered := df_filter (fun r => isin (row_get year_col r) recent_years) filtered in
      if df_empty filtered
      then ret (PDict
             [("error", PStr ("No data found for " ++ py_str rt state ++ " in recent "
                              ++ py_str rt years ++ " years"));
              ("state", state);
              ("debug", PDict [("available_years", years_list all_years);
                               ("requested_years", years_list recent_years)])])
      else
        let filtered := dropna2 crop_col prod_col filtered in
        let filtered :=
          df_assign crop_col (fun r => CStr (strip (astype_str rt (row_get crop_col r))))
                    filtered in
        let filtered :=
          df_filter (fun r => negb (cell_eqb (row_get crop_col r) (CStr ""))) filtered in
        if df_empty filtered
        then ret (PDict
               [("error", PStr ("No valid crop data found for " ++ py_str rt state
                                ++ " in recent " ++ py_str rt years ++ " years"));
                ("state", state)])
        else
          n <- lift (head_arg top_n) ;;
          let top :=
            head n (sort_desc (groupby_sum cell_eqb cell_leb is_null
                                 (row_get crop_col) (row_get prod_col) (rows filtered))) in
          let unique_crops := dedup_by cell_eqb (filter (fun c => negb (is_null c))
                                                        (col crop_col filtered)) in
          y <- lift (py_int years) ;;
          let result :=
            [("state", state); ("top_n", top_n); ("years", PInt y);
             ("crops", records crop_col prod_col top);
             ("year_range", int_years recent_years)] in
          fewer <- lift (len_lt (List.length top) top_n) ;;
          if fewer
          then ret (PDict (dict_set "debug_info"
                  (PDict
                     [("total_rows_after_filter", len_val (rows filtered));
                      ("unique_crops_found",
                       if has_col crop_col filtered then len_val unique_crops else PInt 0);
                      ("crops_returned", len_val top);
                      ("sample_crops",
                       if has_col crop_col filtered
                       then PList (map cell_val (firstn 20 (dedup_by cell_eqb
                                                   (col crop_col filtered))))
                       else PList []);
                      ("sample_data",
                       if has_col crop_col filtered && has_col prod_col filtered
                          && has_col year_col filtered
                       then sample_records crop_col prod_col year_col filtered
                       else PList [])])
                  result))
          else ret (PDict result).

(** [re.search(r'(\d{4})', s)]: the first four digits in a row, as a number. *)
Fixpoint first_four_digits (s : string) : option Z :=
  match s with
  | EmptyString => None
  | String c t =>
      match s with
      | String a (String b (String c' (String d _))) =>
          if is_digit a && is_digit b && is_digit c' && is_digit d
          then Some (int_of_digits (String a (String b (String c' (String d EmptyString)))))
          else first_four_digits t
      | _ => None
      end
  end.

(** The body of the loop that fills [years_numeric], for one raw value. *)
Definition year_of_raw (y : cell) : list Z :=
  match y with
  | CNum q => [Qtrunc q]
  | CStr s =>
      match py_float rt s with
      | Some q => [Qtrunc q]
      | None => match first_four_digits s with Some z => [z] | None => [] end
      end
  | _ => match first_four_digits (astype_str rt y) with Some z => [z] | None => [] end
  end.

(** [extract_year(val)]. *)
Definition extract_year (val : cell) : option Z :=
  match val with
  | CNum q => Some (Qtrunc q)
  | CStr s => first_four_digits s
  | _ => None
  end.

(** One row of [df_recent.melt(id_vars=id_cols, value_vars=crop_cols,
    var_name="Crop", value_name="Production")], for the crop column [c]. *)
Definition melt_row (id_cols : list string) (c : string) (r : row) : row :=
  dict_set "Production" (row_get c r)
    (dict_set "Crop" (CStr c) (map (fun i => (i, row_get i r)) id_cols)).

Definition opt_list (o : option string) : list string :=
  match o with
  | Some s => if truthy_str o then [s] else []
  | None => []
  end.

(** The wide-format branch proper, entered once the year column is known. *)
Definition top_crops_state_wide (df0 df : DataFrame) (state_col : option string)
  (year_col : string) (state top_n years : pyval) : M pyval :=
  let years_raw := dedup_by cell_eqb (filter (fun c => negb (is_null c)) (col year_col df)) in
  let years_numeric := flat_map year_of_raw years_raw in
  match years_numeric with
  | [] => ret (PDict [("error", PStr "Could not parse years from dataset");
                      ("year_column", PStr year_col);
                      ("sample_values", PList (map cell_val (firstn 5 years_raw)))])
  | _ =>
      n <- lift (as_index years) ;;
      let recent_years := slice_from (- n) (sort_by Z.leb years_numeric) in
      let keep (r : row) :=
        match extract_year (row_get year_col r) with
        | Some y => existsb (Z.eqb y) recent_years
        | None => false
        end in
      let df_recent :=
        df_filter keep
          (df_assign "_year_numeric"
             (fun r => match extract_year (row_get year_col r) with
                       | Some y => CNum (inject_Z y)
                       | None => CNone
                       end) df) in
      let id_cols :=
        [year_col] ++ filter (fun c => has_col c df_recent) (opt_list state_col) in
      let excluded := [year_col; "_year_numeric"] ++ opt_list state_col in
      let crop_cols :=
        filter (fun c => negb (existsb (String.eqb c) excluded)
                         && numeric_column (col c df0))
               (columns df_recent) in
      match crop_cols with
      | [] => ret (PDict [("error", PStr "No crop production columns found in wide format dataset");
                          ("columns", columns_list df)])
      | _ =>
          let df_long :=
            mkFrame (id_cols ++ ["Crop"; "Production"])
                    (flat_map (fun c => map (melt_row id_cols c) (rows df_recent))
                              crop_cols) in
          let df_long := coerce_col rt "Production" df_long in
          m <- lift (head_arg top_n) ;;
          let top :=
            head m (sort_desc (groupby_sum cell_eqb cell_leb is_null
                                 (row_get "Crop") (row_get "Production") (rows df_long))) in
          y <- lift (py_int years) ;;
          ret (PDict [("state", state); ("top_n", top_n); ("years", PInt y);
                      ("crops", records "Crop" "Production" top);
                      ("year_range", PList (map PInt (sort_by Z.leb recent_years)))])
      end
  end.

Definition _compute_top_crops_state (state top_n years : pyval) : M pyval :=
  '(df, o) <- top_crops_state_table ;;
  if df_empty df
  then ret (PDict [("error", PStr "Crop production dataset empty"); ("state", state)])
  else
    let state_col := find_col state_candidates (columns df) in
    let crop_col := find_col crop_candidates (columns df) in
    let prod_col := or_default (find_col production_candidates (columns df)) "Production" in
    let year_col := find_col (year_candidates ++ ["_year"]) (columns df) in
    if truthy_str state_col && truthy_str crop_col && truthy_str year_col
       && truthy_str (Some prod_col)
    then top_crops_state_long df o (the_col state_col) (the_col crop_col) prod_col
           (the_col year_col) state top_n years
    else if truthy_str state_col && truthy_str crop_col && truthy_str (Some prod_col)
    then ret (PDict
           [("error", PStr ("Could not process dataset for " ++ py_str rt state
                            ++ ". Dataset format may be unexpected."));
            ("state", state);
            ("available_columns", columns_list df);
            ("found_columns",
             PDict [("state", opt_str state_col); ("crop", opt_str crop_col);
                    ("production", PStr prod_col); ("year", opt_str year_col)])])
    else
      let wide (filtered : DataFrame) : M pyval :=
        if has_col "_year" filtered
           || (truthy_str year_col && startswith (the_col year_col) "_")
        then
          let year_col' :=
            if has_col "_year" filtered then Some "_year"
            else find_col ["_year"; "Year"; "YEAR"; "year"] (columns filtered) in
          if truthy_str year_col' && has_col (the_col year_col') filtered
          then top_crops_state_wide df filtered state_col (the_col year_col')
                 state top_n years
          else ret PNone
        else ret PNone in
      if truthy_str state_col
      then
        s <- lift (as_str state) ;;
        let filtered := df_filter (row_contains rt (the_col state_col) s) df in
        if df_empty filtered
        then ret (PDict [("error", PStr ("No data found for " ++ py_str rt state
                                         ++ " in wide format dataset"));
                         ("state", state)])
        else wide filtered
      else wide df.

(** *** [_try_state_level_fallback] *)

(** [series.sum()] on cells that were not coerced: numbers add up with
    missing values skipped; strings alone are concatenated; a mixture
    fails on [+]. *)
Definition raw_sum (cs : list cell) : Exc pyval :=
  if forallb (fun c => is_num c || is_null c) cs
  then Ok (PFloat (Fin (series_sum cs)))
  else if forallb (fun c => match c with CStr _ => true | _ => false end) cs
  then Ok (PStr (String.concat "" (map (astype_str rt) cs)))
  else Raise (TypeError "unsupported operand type(s) for +").

(** [float(x)] on the result of a sum. *)
Definition float_of (v : pyval) : Exc fl :=
  match v with
  | PFloat x => Ok x
  | PStr s =>
      match py_float rt s with
      | Some q => Ok (Fin q)
      | None => Raise (ValueError "could not convert string to float")
      end
  | _ => Raise (TypeError "float() argument must be a string or a real number")
  end.

Definition fallback_note : string := "State-level data (district-level not available)".

Definition _try_state_level_fallback (state crop year : pyval) : M (option pydict) :=
  try_except
    (d <- read_dataset major_dataset ;;
     '(df, o) <- match usable d with
                 | Some df => ret (df, Stored major_dataset)
                 | None => df <- lift _load_crop_production ;; ret (df, Fresh)
                 end ;;
     if df_empty df then ret None
     else
       let state_col := find_col state_candidates (columns df) in
       let crop_col := find_col crop_candidates (columns df) in
       let prod_col := find_col production_candidates (columns df) in
       let year_col := find_col year_candidates (columns df) in
       if negb (truthy_str state_col && truthy_str crop_col && truthy_str prod_col)
       then ret None
       else
         s <- lift (as_str state) ;;
         c <- lift (as_str crop) ;;
         let filtered :=
           df_filter (fun r => row_contains rt (the_col state_col) s r
                               && row_contains rt (the_col crop_col) c r) df in
         '(df, filtered) <-
           (if truthy_str year_col && truthy year
            then
              let df := coerce_col rt (the_col year_col) df in
              commit o df ;;;
              ret (df, df_filter (fun r => cell_eq_py (row_get (the_col year_col) r) year)
                                 filtered)
            else ret (df, filtered)) ;;
         if df_empty filtered then ret None
         else
           let df := coerce_col rt (the_col prod_col) df in
           commit o df ;;;
           total_production <- lift (raw_sum (col (the_col prod_col) filtered)) ;;
           total <- lift (float_of total_production) ;;
           ret (Some [("state", state); ("crop", crop); ("year", year);
                      ("total_production", PFloat total);
                      ("note", PStr fallback_note)]))
    (ret None).

(** *** [_compute_district_highest_crop_year] *)

(** [state.title()]. *)
Definition py_title (v : pyval) : Exc string :=
  match v with
  | PStr s => Ok (title s)
  | _ => Raise (AttributeError "object has no attribute 'title'")
  end.

Definition required_columns : pyval :=
  PList [PStr "State"; PStr "District"; PStr "Crop"; PStr "Production"; PStr "Year"].

Definition district_unavailable_error (state_title : string) (crop : pyval) : pyval :=
  PDict
    [("error", PStr dataset_unavailable_message);
     ("hint", PStr dataset_unavailable_hint);
     ("required_columns", required_columns);
     ("suggestion",
      PStr ("Try a state-level query instead, such as 'List the top crops produced in "
            ++ state_title
            ++ "' or check your DISTRICT_CROP_PRODUCTION_RESOURCE_ID configuration."));
     ("alternative_queries",
      PList [PStr ("List the top 10 crops produced in " ++ state_title
                   ++ " during the last 5 years");
             PStr ("Compare " ++ py_str rt crop ++ " production across all districts in "
                   ++ state_title ++ " for the last 5 years")])].

Definition degraded_extras : pydict :=
  [("warning", PStr "District-level data not available. Showing state-level summary instead.");
   ("note", PStr "For specific district information, please ensure DISTRICT_CROP_PRODUCTION_RESOURCE_ID is correctly configured.");
   ("suggestion", PStr "To get district-level data, try configuring a valid resource ID for district crop production.")].

(** [grouped.loc[grouped[prod_col].idxmax()]]: the first row that attains the
    maximum. *)
Fixpoint idxmax {K} (l : list (K * Q)) : option (K * Q) :=
  match l with
  | [] => None
  | x :: t =>
      match idxmax t with
      | Some y => if Qle_bool (snd y) (snd x) then Some x else Some y
      | None => Some x
      end
  end.

Definition schema_error_highest (df : DataFrame) (c : DistrictCols) : pyval :=
  PDict
    [("error", PStr "District dataset schema unexpected - dataset does not contain required crop production columns");
     ("columns", columns_list df);
     ("required_columns",
      PDict [("state", PStr "State_Name/STATE/State");
             ("district", PStr "District_Name/District/DISTRICT");
             ("crop", PStr "Crop/CROP/Crop_Name");
             ("production", PStr "Production/PRODUCTION/Prodn");
             ("year", PStr "Year/YEAR/year")]);
     ("found_columns",
      PDict [("state", opt_str (dc_state c));
             ("district", opt_str (dc_district c));
             ("crop", opt_str (dc_crop c));
             ("production", opt_str (dc_prod c));
             ("year", opt_str (dc_year c))])].

Definition _compute_district_highest_crop_year (state crop year : pyval) : M pyval :=
  '(df, o) <- _load_district_crop_production ;;
  if df_empty df
  then
    fallback_result <- _try_state_level_fallback state crop year ;;
    match fallback_result with
    | Some fb =>
        if truthy (PDict fb)
        then ret (PDict (dict_merge fb degraded_extras))
        else t <- lift (py_title state) ;; ret (district_unavailable_error t crop)
    | None => t <- lift (py_title state) ;; ret (district_unavailable_error t crop)
    end
  else
    let c := district_cols df in
    if negb (all_cols c) then ret (schema_error_highest df c)
    else
      let state_col := the_col (dc_state c) in
      let district_col := the_col (dc_district c) in
      let crop_col := the_col (dc_crop c) in
      let prod_col := the_col (dc_prod c) in
      let year_col := the_col (dc_year c) in
      let df := coerce_col rt prod_col df in
      let df := coerce_col rt year_col df in
      commit o df ;;;
      s <- lift (as_str state) ;;
      cr <- lift (as_str crop) ;;
      let filtered :=
        df_filter (fun r => row_contains rt state_col s r
                            && row_contains rt crop_col cr r
                            && cell_eq_py (row_get year_col r) year) df in
      if df_empty filtered
      then ret (PDict [("error", PStr ("No data found for " ++ py_str rt state ++ ", "
                                       ++ py_str rt crop ++ ", year " ++ py_str rt year));
                       ("state", state); ("crop", crop); ("year", year)])
      else
        let grouped := groupby_sum cell_eqb cell_leb is_null
                         (row_get district_col) (row_get prod_col) (rows filtered) in
        match idxmax grouped with
        | None => lift (Raise (ValueError "attempt to get argmax of an empty sequence"))
        | Some max_row =>
            y <- lift (py_int year) ;;
            ret (PDict [("state", state); ("crop", crop); ("year", PInt y);
                        ("district", PStr (astype_str rt (fst max_row)));
                        ("production", PFloat (Fin (snd max_row)))])
        end.

(** *** [_compute_district_crop_comparison] *)

(** [all_years[-years:] if len(all_years) >= years else all_years]. *)
Definition recent_window (all_years : list Q) (years : pyval) : Exc (list Q) :=
  (enough <- len_ge (List.length all_years) years ;;
   if enough
   then n <- as_index years ;; Ok (slice_from (- n) all_years)
   else Ok all_years)%exc.

(** [to_dict(orient="records")] of the per-district-per-year sums. *)
Definition records_by_year (district_col year_col prod_col : string)
  (l : list ((cell * cell) * Q)) : pyval :=
  PList (map (fun kv =>
                PDict (dict_set prod_col (PFloat (Fin (snd kv)))
                         (dict_set year_col (cell_val (snd (fst kv)))
                            (dict_set district_col (cell_val (fst (fst kv))) []))))
             l).

Definition district_totals (district_col prod_col : string) (filtered : DataFrame)
  : list (cell * Q) :=
  sort_desc (groupby_sum cell_eqb cell_leb is_null
               (row_get district_col) (row_get prod_col) (rows filtered)).

Definition district_by_year (district_col year_col prod_col : string) (filtered : DataFrame)
  : list ((cell * cell) * Q) :=
  sort_by (fun a b => pair_leb (fst a) (fst b))
    (groupby_sum pair_eqb pair_leb pair_null
       (fun r => (row_get district_col r, row_get year_col r))
       (row_get prod_col) (rows filtered)).

Definition _compute_district_crop_comparison (state crop years : pyval) : M pyval :=
  '(df, o) <- _load_district_crop_production ;;
  if df_empty df
  then ret (PDict [("error", PStr dataset_unavailable_message);
                   ("hint", PStr dataset_unavailable_hint)])
  else
    let c := district_cols df in
    if negb (all_cols c)
    then ret (PDict [("error", PStr "District dataset schema unexpected");
                     ("columns", columns_list df)])
    else
      let state_col := the_col (dc_state c) in
      let district_col := the_col (dc_district c) in
      let crop_col := the_col (dc_crop c) in
      let prod_col := the_col (dc_prod c) in
      let year_col := the_col (dc_year c) in
      let df := coerce_col rt prod_col df in
      let df := coerce_col rt year_col df in
      commit o df ;;;
      let all_years := sorted_unique (col year_col df) in
      recent_years <- lift (recent_window all_years years) ;;
      s <- lift (as_str state) ;;
      cr <- lift (as_str crop) ;;
      let filtered :=
        df_filter (fun r => row_contains rt state_col s r
                            && row_contains rt crop_col cr r
                            && isin (row_get year_col r) recent_years) df in
      if df_empty filtered
      then ret (PDict [("error", PStr ("No data found for " ++ py_str rt state ++ ", "
                                       ++ py_str rt crop));
                       ("state", state); ("crop", crop); ("years", years)])
      else
        y <- lift (py_int years) ;;
        ret (PDict
               [("state", state); ("crop", crop); ("years", PInt y);
                ("year_range", int_years recent_years);
                ("districts",
                 records district_col prod_col (district_totals district_col prod_col filtered));
                ("district_by_year",
                 records_by_year district_col year_col prod_col
                   (district_by_year district_col year_col prod_col filtered))]).

(** *** [execute] *)

(** [step.get("type")] on a step that is not a string. *)
Definition step_type (step : pyval) : Exc (option pyval) :=
  match step with
  | PDict d => Ok (dict_get "type" d)
  | _ => Raise (AttributeError "object has no attribute 'get'")
  end.

(** [step[key]]. *)
Definition step_item (step : pyval) (key : string) : Exc pyval :=
  match step with
  | PDict d => dict_item key d
  | _ => Raise (TypeError "object is not subscriptable")
  end.

(** One [if step.get("type") == name: results[key] = compute(args)]. *)
Definition run_if (step : pyval) (name key : string) (args : list string)
  (compute : list pyval -> M pyval) (results : pydict) : M pydict :=
  t <- lift (step_type step) ;;
  if py_eq_str t name
  then
    vals <- lift (fold_right (fun k acc => (v <- step_item step k ;; vs <- acc ;; Ok (v :: vs))%exc)
                             (Ok []) args) ;;
    payload <- compute vals ;;
    ret (dict_set key payload results)
  else ret results.

Definition arg (n : nat) (vals : list pyval) : pyval := nth n vals PNone.

(** The body of the loop of [execute] for one step. *)
Definition execute_step (step : pyval) (results : pydict) : M pydict :=
  match step with
  | PStr _ => ret results
  | _ =>
      results <- run_if step "compute_rainfall_compare" "rainfall_compare"
                   ["state1"; "state2"; "years"]
                   (fun a => _compute_rainfall_compare (arg 0 a) (arg 1 a) (arg 2 a))
                   results ;;
      results <- run_if step "compute_top_crops" "top_crops"
                   ["state1"; "state2"; "top_m"; "crop_type"]
                   (fun a => _compute_top_crops (arg 0 a) (arg 1 a) (arg 2 a) (arg 3 a))
                   results ;;
      results <- run_if step "compute_district_crop_extrema" "district_crop_extrema"
                   ["state_max"; "crop_max"; "state_min"; "crop_min"]
                   (fun a => _compute_district_crop_extrema (arg 0 a) (arg 1 a) (arg 2 a) (arg 3 a))
                   results ;;
      results <- run_if step "compute_top_crops_state" "top_crops_state"
                   ["state"; "top_n"; "years"]
                   (fun a => _compute_top_crops_state (arg 0 a) (arg 1 a) (arg 2 a))
                   results ;;
      results <- run_if step "compute_district_highest_crop_year" "district_highest_crop_year"
                   ["state"; "crop"; "year"]
                   (fun a => _compute_district_highest_crop_year (arg 0 a) (arg 1 a) (arg 2 a))
                   results ;;
      run_if step "compute_district_crop_comparison" "district_crop_comparison"
        ["state"; "crop"; "years"]
        (fun a => _compute_district_crop_comparison (arg 0 a) (arg 1 a) (arg 2 a))
        results
  end.

Fixpoint execute_steps (steps : list pyval) (results : pydict) : M pydict :=
  match steps with
  | [] => ret results
  | step :: rest =>
      results <- execute_step step results ;;
      execute_steps rest results
  end.

(** What [for step in x] iterates over. *)
Definition iterate (x : pyval) : Exc (list pyval) :=
  match x with
  | PList l => Ok l
  | PStr s => Ok (map (fun c => PStr (String c EmptyString)) (list_ascii_of_string s))
  | PDict d => Ok (map PStr (dict_keys d))
  | _ => Raise (TypeError "object is not iterable")
  end.

(** [plan.get("steps", [])]. *)
Definition plan_steps (plan : pyval) : Exc pyval :=
  match plan with
  | PDict d => Ok (match dict_get "steps" d with Some v => v | None => PList [] end)
  | _ => Raise (AttributeError "object has no attribute 'get'")
  end.

Definition execute (plan : pyval) : M pyval :=
  steps <- lift (x <- plan_steps plan ;; iterate x)%exc ;;
  results <- execute_steps steps [] ;;
  ret (PDict [("plan", plan); ("answer_data", PDict results)]).

(** ** [query_planner.py] *)

(** A step dict: its type, then the listed entries copied from [parsed]. *)
Definition make_step (parsed : pydict) (type : string) (keys : list string) : Exc pyval :=
  (fields <- fold_right (fun k acc => (v <- dict_item k parsed ;; vs <- acc ;; Ok ((k, v) :: vs)))
                        (Ok []) keys ;;
   Ok (PDict (("type", PStr type) :: fields)))%exc.

Definition get_or_none (k : string) (d : pydict) : pyval :=
  match dict_get k d with
  | Some v => v
  | None => PNone
  end.

Definition make_plan (intent : pyval) (steps : list pyval) : pyval :=
  PDict [("intent", intent); ("steps", PList steps)].

(** The plan [plan_and_execute] builds before it calls the executor. *)
Definition plan_of (parsed : pydict) : Exc pyval :=
  let intent := dict_get "intent" parsed in
  let intent_val := get_or_none "intent" parsed in
  (if py_eq_str intent "rainfall_vs_top_crops" then
     s1 <- make_step parsed "compute_rainfall_compare" ["state1"; "state2"; "years"] ;;
     s2 <- make_step parsed "compute_top_crops" ["state1"; "state2"; "top_m"; "crop_type"] ;;
     Ok (make_plan intent_val [s1; s2])
   else if py_eq_str intent "rainfall_compare" then
     s1 <- make_step parsed "compute_rainfall_compare" ["state1"; "state2"; "years"] ;;
     Ok (make_plan intent_val [s1])
   else if py_eq_str intent "district_crop_extrema_compare" then
     s1 <- make_step parsed "compute_district_crop_extrema"
             ["state_max"; "crop_max"; "state_min"; "crop_min"] ;;
     Ok (make_plan intent_val [s1])
   else if py_eq_str intent "top_crops_state" then
     s1 <- make_step parsed "compute_top_crops_state" ["state"; "top_n"; "years"] ;;
     Ok (make_plan intent_val [s1])
   else if py_eq_str intent "district_highest_crop_year" then
     s1 <- make_step parsed "compute_district_highest_crop_year" ["state"; "crop"; "year"] ;;
     Ok (make_plan intent_val [s1])
   else if py_eq_str intent "district_crop_comparison" then
     s1 <- make_step parsed "compute_district_crop_comparison" ["state"; "crop"; "years"] ;;
     Ok (make_plan intent_val [s1])
   else Ok (make_plan intent_val [PStr "demo-step"]))%exc.

Definition plan_and_execute (parsed : pydict) : M pyval :=
  plan <- lift (plan_of parsed) ;;
  execute plan.

End Executor.

(** ** Regular expressions

    The fragment of Python's [re] that [query_parser.py] uses, with the
    backtracking order of [re]: a greedy repetition tries the longest run
    first, a lazy one the shortest, an optional part is tried present before
    absent, alternatives from left to right, and [search] returns the first
    match at the leftmost position that has one. *)

Inductive regex : Type :=
| Chr (p : ascii -> bool)                 (* one character of a class *)
| Many (greedy : bool) (p : ascii -> bool)  (* [p*] and [p*?] *)
| Seq (a b : regex)
| Alt (a b : regex)
| Opt (a : regex)                         (* [(?:a)?] *)
| Group (name : string) (a : regex)       (* [(?P<name>a)] *)
| Bound                                   (* [\b] *)
| Eos                                     (* [$] *)
| Eps.

Definition captures : Type := list (string * string).

(** A continuation receives the character before the position, the rest of
    the text, and the groups captured so far. *)
Definition cont : Type := option ascii -> string -> captures -> option captures.

Fixpoint many_greedy (p : ascii -> bool) (k : cont) (prev : option ascii) (s : string)
  (cs : captures) : option captures :=
  match s with
  | String c t =>
      if p c
      then match many_greedy p k (Some c) t cs with
           | Some r => Some r
           | None => k prev s cs
           end
      else k prev s cs
  | EmptyString => k prev s cs
  end.

Fixpoint many_lazy (p : ascii -> bool) (k : cont) (prev : option ascii) (s : string)
  (cs : captures) : option captures :=
  match k prev s cs with
  | Some r => Some r
  | None =>
      match s with
      | String c t => if p c then many_lazy p k (Some c) t cs else None
      | EmptyString => None
      end
  end.

Definition word_before (prev : option ascii) : bool :=
  match prev with
  | Some c => is_word c
  | None => false
  end.

Definition word_after (s : string) : bool :=
  match s with
  | String c _ => is_word c
  | EmptyString => false
  end.

Definition newline : ascii := ascii_of_nat 10.

Fixpoint rmatch (r : regex) (k : cont) : cont :=
  match r with
  | Chr p =>
      fun prev s cs =>
        match s with
        | String c t => if p c then k (Some c) t cs else None
        | EmptyString => None
        end
  | Many greedy p => if greedy then many_greedy p k else many_lazy p k
  | Seq a b => rmatch a (rmatch b k)
  | Alt a b =>
      fun prev s cs =>
        match rmatch a k prev s cs with
        | Some r => Some r
        | None => rmatch b k prev s cs
        end
  | Opt a =>
      fun prev s cs =>
        match rmatch a k prev s cs with
        | Some r => Some r
        | None => k prev s cs
        end
  | Group name a =>
      fun prev s cs =>
        rmatch a
          (fun prev' s' cs' =>
             k prev' s' (dict_set name (substring 0 (String.length s - String.length s') s) cs'))
          prev s cs
  | Bound =>
      fun prev s cs =>
        if xorb (word_before prev) (word_after s) then k prev s cs else None
  | Eos =>
      fun prev s cs =>
        match s with
        | EmptyString => k prev s cs
        | String c EmptyString => if Ascii.eqb c newline then k prev s cs else None
        | _ => None
        end
  | Eps => k
  end.

(** [re.search]: the start of the match and its groups. *)
Fixpoint search_from (r : regex) (prev : option ascii) (s : string) (pos : nat)
  : option (nat * captures) :=
  match rmatch r (fun _ _ cs => Some cs) prev s [] with
  | Some cs => Some (pos, cs)
  | None =>
      match s with
      | String c t => search_from r (Some c) t (S pos)
      | EmptyString => None
      end
  end.

Definition search (r : regex) (s : string) : option (nat * captures) :=
  search_from r None s 0.

(** [match.group(name)]. *)
Definition group (name : string) (m : nat * captures) : string :=
  match dict_get name (snd m) with
  | Some s => s
  | None => ""
  end.

(** Building blocks. *)
Fixpoint cat (l : list regex) : regex :=
  match l with
  | [] => Eps
  | [r] => r
  | r :: t => Seq r (cat t)
  end.

Definition plus (greedy : bool) (p : ascii -> bool) : regex := Seq (Chr p) (Many greedy p).

(** A literal under [re.IGNORECASE], and a literal read exactly. *)
Definition lit (w : string) : regex :=
  cat (map (fun c => Chr (fun x => Ascii.eqb (lower_char x) (lower_char c)))
           (list_ascii_of_string w)).

Definition lit_exact (w : string) : regex :=
  cat (map (fun c => Chr (Ascii.eqb c)) (list_ascii_of_string w)).

(** [\s+], [\s*], [\d+], [.], [.*], [.*?]. *)
Definition ws : regex := plus true is_space.
Definition ws0 : regex := Many true is_space.
Definition digits : regex := plus true is_digit.
Definition dot (c : ascii) : bool := negb (Ascii.eqb c newline).
Definition any_greedy : regex := Many true dot.
Definition any_lazy : regex := Many false dot.

(** Words separated by [\s+]. *)
Fixpoint words (l : list string) : regex :=
  match l with
  | [] => Eps
  | [w] => lit w
  | w :: t => Seq (lit w) (Seq ws (words t))
  end.

(** [[A-Za-z\s_]], [[A-Za-z]] and [[^,\.]]. *)
Definition name_char (c : ascii) : bool := is_alpha c || is_space c || Ascii.eqb c "_".
Definition not_comma_dot (c : ascii) : bool := negb (Ascii.eqb c "," || Ascii.eqb c ".").

(** [(?P<n>[A-Za-z\s_]+?)], [(?P<n>[A-Za-z\s_]+)] and [(?P<n>\d+)]. *)
Definition name_lazy (n : string) : regex := Group n (plus false name_char).
Definition name_greedy (n : string) : regex := Group n (plus true name_char).
Definition number (n : string) : regex := Group n digits.
Definition four_digits : regex :=
  cat [Chr is_digit; Chr is_digit; Chr is_digit; Chr is_digit].

(** ** [query_parser.py] *)

(** [normalize_state_name], the function [parse_query] defines in its own
    body. *)
Definition normalize_state_name (name : string) : string :=
  let n := strip name in
  let fixes := [("karnatak", "karnataka"); ("odisha", "odisha")] in
  let lowered := lower n in
  match dict_get lowered fixes with
  | Some fixed => fixed
  | None => if endswith lowered "karnatak" then "karnataka" else n
  end.

(** The patterns of [parse_query], in the order they are tried; all are
    compiled with [re.IGNORECASE]. *)
Definition pattern : regex :=
  cat [words ["compare"; "the"; "average"; "annual"; "rainfall"; "in"]; ws;
       name_lazy "s1"; ws; lit "and"; ws; name_lazy "s2"; ws;
       words ["for"; "the"; "last"]; ws; number "n"; ws; lit "years"; any_lazy;
       lit "top"; ws; number "m"; ws; words ["most"; "produced"; "crops"; "of"]; ws;
       Group "crop_type" (plus false not_comma_dot);
       Alt (cat [ws; words ["in"; "each"]]) Eos].

Definition pattern2 : regex :=
  cat [words ["average"; "annual"; "rainfall"]; any_greedy; Bound;
       name_greedy "s1"; Bound; any_greedy; Bound; name_greedy "s2"; Bound;
       any_greedy; lit "last"; ws; number "n"; ws; lit "years"].

Definition pattern3a : regex :=
  cat [words ["compare"; "rainfall"; "in"]; ws; name_lazy "s1"; ws; lit "and"; ws;
       name_lazy "s2"; ws; words ["for"; "the"; "last"]; ws; number "n"; ws; lit "years"].

Definition pattern3b : regex :=
  cat [words ["compare"; "rainfall"; "in"]; ws; name_lazy "s1"; ws; lit "and"; ws;
       name_lazy "s2"; ws; lit "for"; ws; number "n"; ws; lit "years"].

Definition pattern3 : regex :=
  cat [words ["compare"; "rainfall"; "in"]; ws; name_lazy "s1"; ws; lit "and"; ws;
       name_greedy "s2"; Bound].

Definition pattern4a : regex :=
  cat [words ["compare"; "rainfall"; "between"]; ws; name_lazy "s1"; ws; lit "and"; ws;
       name_lazy "s2"; ws; words ["for"; "the"; "last"]; ws; number "n"; ws; lit "years"].

Definition pattern4b : regex :=
  cat [words ["compare"; "rainfall"; "between"]; ws; name_lazy "s1"; ws; lit "and"; ws;
       name_lazy "s2"; ws; lit "for"; ws; number "n"; ws; lit "years"].

Definition pattern4 : regex :=
  cat [words ["compare"; "rainfall"; "between"]; ws; name_lazy "s1"; ws; lit "and"; ws;
       name_greedy "s2"; Bound].

Definition pattern5 : regex :=
  cat [words ["identify"; "the"; "district"; "in"]; ws; name_lazy "smax"; ws;
       words ["with"; "the"; "highest"; "production"; "of"]; ws; name_lazy "cmax"; ws;
       any_lazy;
       words ["compare"; "that"; "with"; "the"; "district"; "with"; "the"; "lowest";
              "production"; "of"]; ws;
       name_lazy "cmin"; ws; lit "in"; ws; name_greedy "smin"; Opt (lit "?")].

Definition pattern6 : regex :=
  cat [words ["list"; "the"; "top"]; ws; number "n"; ws; lit "crop"; Opt (lit "s"); ws;
       words ["produced"; "in"]; ws; name_lazy "state"; ws;
       words ["during"; "the"; "last"]; ws; number "years"; ws; lit "years"].

Definition pattern7 : regex :=
  cat [words ["which"; "district"]; ws; Opt (cat [lit "in"; ws]); name_lazy "state"; ws;
       Opt (cat [lit "had"; ws]); Opt (cat [lit "the"; ws]); lit "highest"; ws;
       name_lazy "crop"; Opt (cat [ws; lit "production"]); ws; Opt (cat [lit "in"; ws]);
       Group "year" four_digits; Opt (lit "?")].

Definition pattern7b : regex :=
  cat [words ["which"; "district"]; ws; Opt (cat [lit "had"; ws]); Opt (cat [lit "the"; ws]);
       lit "highest"; ws; Group "crop" (plus true is_alpha); ws; lit "in"; ws;
       name_lazy "state"; ws; lit "in"; ws; Group "year" four_digits; Opt (lit "?")].

Definition pattern8 : regex :=
  cat [lit "compare"; ws; name_lazy "crop"; ws;
       words ["production"; "across"; "all"; "districts"; "in"]; ws; name_lazy "state"; ws;
       words ["for"; "the"; "last"]; ws; number "years"; ws; lit "years"; Opt (lit ".")].

Definition int_group (name : string) (m : nat * captures) : pyval :=
  PInt (int_of_digits (group name m)).

Definition str_group (name : string) (m : nat * captures) : pyval :=
  PStr (strip (group name m)).

Definition state_group (name : string) (m : nat * captures) : pyval :=
  PStr (normalize_state_name (group name m)).

Definition rainfall_compare_intent (s1 s2 years : pyval) : pydict :=
  [("intent", PStr "rainfall_compare"); ("state1", s1); ("state2", s2); ("years", years)].

(** [s.split()[0] if s.split() else s]. *)
Fixpoint take_word (s : string) : string :=
  match s with
  | EmptyString => EmptyString
  | String c t => if is_space c then EmptyString else String c (take_word t)
  end.

Definition first_word (s : string) : string :=
  match lstrip s with
  | EmptyString => s
  | w => take_word w
  end.

(** The pattern rules of [parse_query]: the intent of the first pattern that
    matches, or [None] when none does. *)
Definition parse_with_patterns (question : string) : option pydict :=
  match search pattern question with
  | Some m =>
      Some [("intent", PStr "rainfall_vs_top_crops");
            ("state1", str_group "s1" m); ("state2", str_group "s2" m);
            ("years", int_group "n" m); ("top_m", int_group "m" m);
            ("crop_type", str_group "crop_type" m)]
  | None =>
  match search pattern2 question with
  | Some m => Some (rainfall_compare_intent (str_group "s1" m) (str_group "s2" m)
                      (int_group "n" m))
  | None =>
  match search pattern3a question with
  | Some m => Some (rainfall_compare_intent (state_group "s1" m) (state_group "s2" m)
                      (int_group "n" m))
  | None =>
  match search pattern3b question with
  | Some m => Some (rainfall_compare_intent (state_group "s1" m) (state_group "s2" m)
                      (int_group "n" m))
  | None =>
  match search pattern3 question with
  | Some m => Some (rainfall_compare_intent (state_group "s1" m) (state_group "s2" m) (PInt 5))
  | None =>
  match search pattern4a question with
  | Some m => Some (rainfall_compare_intent (state_group "s1" m) (state_group "s2" m)
                      (int_group "n" m))
  | None =>
  match search pattern4b question with
  | Some m => Some (rainfall_compare_intent (state_group "s1" m) (state_group "s2" m)
                      (int_group "n" m))
  | None =>
  match search pattern4 question with
  | Some m => Some (rainfall_compare_intent (state_group "s1" m) (state_group "s2" m) (PInt 5))
  | None =>
  match search pattern5 question with
  | Some m =>
      Some [("intent", PStr "district_crop_extrema_compare");
            ("state_max", state_group "smax" m); ("crop_max", str_group "cmax" m);
            ("state_min", state_group "smin" m); ("crop_min", str_group "cmin" m)]
  | None =>
  match search pattern6 question with
  | Some m =>
      Some [("intent", PStr "top_crops_state"); ("state", state_group "state" m);
            ("top_n", int_group "n" m); ("years", int_group "years" m)]
  | None =>
  match search pattern7 question with
  | Some m =>
      Some [("intent", PStr "district_highest_crop_year"); ("state", state_group "state" m);
            ("crop", str_group "crop" m); ("year", int_group "year" m)]
  | None =>
  match search pattern7b question with
  | Some m =>
      let crop := strip (group "crop" m) in
      let state := strip (group "state" m) in
      let crop := first_word crop in
      Some [("intent", PStr "district_highest_crop_year");
            ("state", PStr (normalize_state_name state));
            ("crop", PStr crop); ("year", int_group "year" m)]
  | None =>
  match search pattern8 question with
  | Some m =>
      Some [("intent", PStr "district_crop_comparison"); ("state", state_group "state" m);
            ("crop", str_group "crop" m); ("years", int_group "years" m)]
  | None => None
  end end end end end end end end end end end end end.

(** *** [_parse_with_keywords] *)

(** [(\d+)\s*years?], [top\s+(\d+)], [\b(20\d{2}|19\d{2})\b] and
    [r'\b' + re.escape(w) + r'\b']. *)
Definition years_pattern : regex :=
  cat [Group "1" digits; ws0; lit_exact "year"; Opt (lit_exact "s")].

Definition top_pattern : regex := cat [lit_exact "top"; ws; Group "1" digits].

Definition calendar_year_pattern : regex :=
  cat [Bound;
       Group "1" (Alt (cat [lit_exact "20"; Chr is_digit; Chr is_digit])
                      (cat [lit_exact "19"; Chr is_digit; Chr is_digit]));
       Bound].

Definition whole_word (w : string) : regex := cat [Bound; lit_exact w; Bound].

Definition rainfall_keywords : list string := ["rainfall"; "rain"; "precipitation"].

Definition rainfall_states : list string :=
  ["karnataka"; "tamil nadu"; "maharashtra"; "punjab"; "gujarat";
   "uttar pradesh"; "bihar"; "west bengal"; "odisha"; "rajasthan"].

Definition top_crops_states : list string :=
  ["karnataka"; "tamil nadu"; "maharashtra"; "punjab"; "gujarat"].

Definition district_states : list string :=
  ["karnataka"; "tamil nadu"; "maharashtra"; "punjab"; "gujarat";
   "uttar pradesh"; "bihar"; "west bengal"; "odisha"; "rajasthan";
   "andhra pradesh"; "telangana"; "kerala"; "haryana"; "himachal pradesh";
   "madhya pradesh"; "assam"; "jharkhand"; "chhattisgarh"].

Definition crops : list string :=
  ["rice"; "wheat"; "sugarcane"; "cotton"; "maize"; "jowar"; "bajra";
   "millet"; "pulses"; "oilseed"; "groundnut"; "soybean"; "barley"; "mustard";
   "ragi"; "tur"; "gram"; "moong"; "urad"; "arhar"].

(** [int(m.group(1)) if m else default]. *)
Definition int_or (m : option (nat * captures)) (default : Z) : Z :=
  match m with
  | Some x => int_of_digits (group "1" x)
  | None => default
  end.

(** [(match.start(), w)] for every listed word found as a whole word. *)
Definition positions (ws : list string) (text : string) : list (nat * string) :=
  flat_map (fun w => match search (whole_word w) text with
                     | Some m => [(fst m, w)]
                     | None => []
                     end) ws.

(** Order of Python tuples [(int, str)]. *)
Definition position_leb (a b : nat * string) : bool :=
  Nat.ltb (fst a) (fst b) || (Nat.eqb (fst a) (fst b) && String.leb (snd a) (snd b)).

Definition first_position (l : list (nat * string)) : option (nat * string) :=
  match sort_by position_leb l with
  | [] => None
  | x :: _ => Some x
  end.

(** The state the district branch settles on. *)
Definition district_state (state_positions crop_positions : list (nat * string))
  : option string :=
  match state_positions, first_position crop_positions with
  | _ :: _, Some (crop_start, _) =>
      match find (fun ps => Nat.ltb crop_start (fst ps)) state_positions with
      | Some (_, s) => if truthy_str (Some s) then Some s
                       else option_map snd (first_position state_positions)
      | None => option_map snd (first_position state_positions)
      end
  | _ :: _, None => option_map snd (first_position state_positions)
  | [], _ => None
  end.

(** The names bound at module level of [query_parser.py], and the local
    names of [_parse_with_keywords].  A name that is in neither list (and is
    no builtin) cannot be called from the body of [_parse_with_keywords]. *)
Definition module_names : list string := ["re"; "Dict"; "Optional"; "QueryParser"].

Definition keywords_locals : list string :=
  ["self"; "question"; "available"; "question_lower"; "rainfall_keywords"; "re";
   "states"; "years"; "common_states"; "state"; "year_match"; "top_match"; "top_n";
   "s"; "year"; "crops"; "crop"; "crop_positions"; "c"; "match"; "state_positions";
   "crop_start"; "pos"; "kw"].

(** The call [normalize_state_name(state)] from a body whose visible names
    are [scope]. *)
Definition call_normalize_state_name (scope : list string) (state : string) : Exc string :=
  if existsb (String.eqb "normalize_state_name") scope
  then Ok (normalize_state_name state)
  else Raise (NameError "name 'normalize_state_name' is not defined").

Definition _parse_with_keywords (question : string) (available : pyval) : Exc pydict :=
  let scope := keywords_locals ++ module_names in
  let question_lower := lower question in
  let rainfall :=
    if existsb (fun kw => str_in kw question_lower) rainfall_keywords
    then
      let states := filter (fun state => str_in state question_lower) rainfall_states in
      let year_match := search years_pattern question_lower in
      match states with
      | s1 :: s2 :: _ =>
          Some [("intent", PStr "rainfall_compare"); ("state1", PStr s1);
                ("state2", PStr s2); ("years", PInt (int_or year_match 5))]
      | _ => None
      end
    else None in
  match rainfall with
  | Some d => Ok d
  | None =>
  let top :=
    if str_in "top" question_lower && str_in "crop" question_lower
    then
      let top_n := int_or (search top_pattern question_lower) 10 in
      let years := int_or (search years_pattern question_lower) 5 in
      match find (fun s => str_in s question_lower) top_crops_states with
      | Some state =>
          if truthy_str (Some state)
          then Some [("intent", PStr "top_crops_state"); ("state", PStr state);
                     ("top_n", PInt top_n); ("years", PInt years)]
          else None
      | None => None
      end
    else None in
  match top with
  | Some d => Ok d
  | None =>
  if str_in "district" question_lower
     && (str_in "highest" question_lower || str_in "had" question_lower)
  then
    let year := option_map (fun m => int_of_digits (group "1" m))
                           (search calendar_year_pattern question) in
    let crop_positions := positions crops question_lower in
    let crop := option_map snd (first_position crop_positions) in
    let state_positions := positions district_states question_lower in
    let state := district_state state_positions crop_positions in
    match state, crop with
    | Some state, Some crop =>
        if truthy_str (Some state) && truthy_str (Some crop)
        then
          match year with
          | Some y =>
              if negb (y =? 0)%Z
              then (st <- call_normalize_state_name scope state ;;
                    Ok [("intent", PStr "district_highest_crop_year"); ("state", PStr st);
                        ("crop", PStr crop); ("year", PInt y)])%exc
              else
                let years := int_or (search years_pattern question_lower) 5 in
                (st <- call_normalize_state_name scope state ;;
                 Ok [("intent", PStr "district_crop_comparison"); ("state", PStr st);
                     ("crop", PStr crop); ("years", PInt years)])%exc
          | None =>
              let years := int_or (search years_pattern question_lower) 5 in
              (st <- call_normalize_state_name scope state ;;
               Ok [("intent", PStr "district_crop_comparison"); ("state", PStr st);
                   ("crop", PStr crop); ("years", PInt years)])%exc
          end
        else Raise (Exception_ "Could not parse query")
    | _, _ => Raise (Exception_ "Could not parse query")
    end
  else Raise (Exception_ "Could not parse query")
  end end.

Definition suggestions : pyval :=
  PList [PStr "Compare rainfall in [State1] and [State2] for the last N years";
         PStr "List the top N crops produced in [State] during the last M years";
         PStr "Which district in [State] had the highest [Crop] production in [Year]";
         PStr "Compare [Crop] production across all districts in [State] for the last N years"].

Definition unknown_intent (question : string) (available : pyval) : pydict :=
  [("intent", PStr "unknown"); ("question", PStr question);
   ("available_datasets", available);
   ("error", PStr "Query not recognized. Please use one of the supported query formats.");
   ("suggestions", suggestions)].

Definition parse_query (question : string) (available : pyval) : pydict :=
  match parse_with_patterns question with
  | Some parsed => parsed
  | None =>
      match _parse_with_keywords question available with
      | Ok parsed => parsed
      | Raise _ => unknown_intent question available
      end
  end.

(** * Vocabulary of the properties *)

(** The first candidate that names a column exactly, and the first candidate
    that names one when letter case is ignored. *)
Definition exact_candidate (candidates cols : list string) : option string :=
  find (fun c => existsb (String.eqb c) cols) candidates.

Definition ci_candidate (candidates cols : list string) : option string :=
  find (fun c => existsb (fun x => String.eqb (lower x) (lower c)) cols) candidates.

(** [x] is the last column whose lower-case form is that of [c]. *)
Definition last_ci_column (c x : string) (cols : list string) : Prop :=
  exists before after,
    cols = before ++ x :: after /\ lower x = lower c /\
    forall y, In y after -> lower y <> lower c.

Definition step_types : list string :=
  ["compute_rainfall_compare"; "compute_top_crops"; "compute_district_crop_extrema";
   "compute_top_crops_state"; "compute_district_highest_crop_year";
   "compute_district_crop_comparison"].

(** A step that [execute] passes over: a bare string, or a dict whose type is
    none of the six. *)
Definition skipped (step : pyval) : bool :=
  match step with
  | PStr _ => true
  | PDict d => negb (existsb (py_eq_str (dict_get "type" d)) step_types)
  | _ => false
  end.


(** The key under which [execute] stores the payload of a step of type [t]:
    the type without its prefix [compute_]. *)
Definition step_key (t : string) : string := substring 8 (String.length t - 8) t.

(** The entries of a step dict that [execute] reads for a step of type [t]. *)
Definition step_args (t : string) : list string :=
  if String.eqb t "compute_rainfall_compare" then ["state1"; "state2"; "years"]
  else if String.eqb t "compute_top_crops" then ["state1"; "state2"; "top_m"; "crop_type"]
  else if String.eqb t "compute_district_crop_extrema"
       then ["state_max"; "crop_max"; "state_min"; "crop_min"]
  else if String.eqb t "compute_top_crops_state" then ["state"; "top_n"; "years"]
  else if String.eqb t "compute_district_highest_crop_year" then ["state"; "crop"; "year"]
  else if String.eqb t "compute_district_crop_comparison" then ["state"; "crop"; "years"]
  else [].

(** The computation [execute] calls for a step dict [d] of type [t]. *)
Definition computation (rt : Runtime) (env : Env) (t : string) (d : pydict) : M pyval :=
  let a k := get_or_none k d in
  if String.eqb t "compute_rainfall_compare"
  then _compute_rainfall_compare rt env (a "state1") (a "state2") (a "years")
  else if String.eqb t "compute_top_crops"
  then _compute_top_crops rt env (a "state1") (a "state2") (a "top_m") (a "crop_type")
  else if String.eqb t "compute_district_crop_extrema"
  then _compute_district_crop_extrema rt env (a "state_max") (a "crop_max")
         (a "state_min") (a "crop_min")
  else if String.eqb t "compute_top_crops_state"
  then _compute_top_crops_state rt env (a "state") (a "top_n") (a "years")
  else if String.eqb t "compute_district_highest_crop_year"
  then _compute_district_highest_crop_year rt env (a "state") (a "crop") (a "year")
  else _compute_district_crop_comparison rt env (a "state") (a "crop") (a "years").

(** The response of [execute] for a plan and the answer data it gathered. *)
Definition response (plan : pyval) (answer_data : pydict) : pyval :=
  PDict [("plan", plan); ("answer_data", PDict answer_data)].

(** ** Data of the examples *)

Definition all_digits (s : string) : bool :=
  negb (String.eqb s "") && forallb is_digit (list_ascii_of_string s).

(** A runtime for the examples.  It reads a run of decimal digits as Python
    and pandas do and takes no other text for a number, so the examples hold
    no other text in a numeric column; what it prints is not used. *)
Definition digits_runtime : Runtime :=
  mkRuntime
    (fun s => if all_digits s then Some (inject_Z (int_of_digits s)) else None)
    (fun s => if all_digits s then Some (inject_Z (int_of_digits s)) else None)
    (fun q => int_str (Qtrunc q))
    (fun _ => "").

Definition unreachable : string -> Exc DataFrame :=
  fun _ => Raise (RequestError "connection refused").

(** An environment without network, for a given configuration. *)
Definition offline (cfg : Config) : Env := mkEnv cfg unreachable unreachable None.

Definition no_config : Config := mkConfig None None None None.

Definition empty_store : Store := mkStore [] [] [].

(** A district table without a production column. *)
Definition no_production_table : DataFrame :=
  mkFrame ["State"; "Crop"; "Year"; "Area"]
    [[("State", CStr "Punjab"); ("Crop", CStr "Wheat"); ("Year", CNum (inject_Z 2020));
      ("Area", CNum (inject_Z 35))]].

Definition no_production_store : Store :=
  mkStore [(district_dataset, no_production_table)] [] [].

Definition top_crops_state_step : pydict :=
  [("type", PStr "compute_top_crops_state"); ("state", PStr "punjab");
   ("top_n", PInt 5); ("years", PInt 5)].

(** A configuration with a rainfall resource and no API key. *)
Definition keyless_config : Config := mkConfig None (Some "rainfall-resource") None None.

Definition rainfall_step : pydict :=
  [("type", PStr "compute_rainfall_compare"); ("state1", PStr "Punjab");
   ("state2", PStr "Kerala"); ("years", PInt 3)].

(** The intent a parsed dict carries, as text. *)
Definition intent_name (parsed : pydict) : string :=
  match dict_get "intent" parsed with
  | Some (PStr s) => s
  | _ => ""
  end.

(** The seven intents of the parser. *)
Definition intents : list string :=
  ["rainfall_vs_top_crops"; "rainfall_compare"; "district_crop_extrema_compare";
   "top_crops_state"; "district_highest_crop_year"; "district_crop_comparison";
   "unknown"].

(** What the planner and the executor do with a parsed dict: the plan is
    built, it carries the intent, and its steps are two step dicts (rainfall
    compare, then top crops) for [rainfall_vs_top_crops], one step dict for
    the five other recognized intents, and the single bare string
    [demo-step] for [unknown], which the executor runs to an empty answer. *)
Definition planned (rt : Runtime) (env : Env) (parsed : pydict) : Prop :=
  exists steps,
    plan_of parsed = Ok (make_plan (PStr (intent_name parsed)) steps)
    /\ In (intent_name parsed) intents
    /\ (intent_name parsed = "rainfall_vs_top_crops" ->
        exists s1 s2,
          steps = [PDict s1; PDict s2]
          /\ dict_get "type" s1 = Some (PStr "compute_rainfall_compare")
          /\ dict_get "type" s2 = Some (PStr "compute_top_crops"))
    /\ (intent_name parsed <> "rainfall_vs_top_crops" ->
        intent_name parsed <> "unknown" ->
        exists s1, steps = [PDict s1] /\ In (dict_get "type" s1) (map (fun t => Some (PStr t)) step_types))
    /\ (intent_name parsed = "unknown" ->
        steps = [PStr "demo-step"]
        /\ forall st,
            execute rt env (make_plan (PStr "unknown") steps) st
            = (Ok (response (make_plan (PStr "unknown") steps) []), st)).

(** A configuration with an API key and the three resources. *)
Definition full_config : Config :=
  mkConfig (Some "key") (Some "rainfall-resource") (Some "crop-resource") None.

Definition num (z : Z) : cell := CNum (inject_Z z).

(** Annual rainfall of two states over 2018 to 2022. *)
Definition rainfall_row (state : string) (year mm : Z) : row :=
  [("STATE", CStr state); ("YEAR", num year); ("ANNUAL", num mm)].

Definition rainfall_table : DataFrame :=
  mkFrame ["STATE"; "YEAR"; "ANNUAL"]
    [rainfall_row "Karnataka" 2018 1000; rainfall_row "Kerala" 2018 3000;
     rainfall_row "Karnataka" 2019 1100; rainfall_row "Kerala" 2019 3100;
     rainfall_row "Karnataka" 2020 1200; rainfall_row "Kerala" 2020 2900;
     rainfall_row "Karnataka" 2021 1300; rainfall_row "Kerala" 2021 3200;
     rainfall_row "Karnataka" 2022 1400; rainfall_row "Kerala" 2022 3500].

(** An environment whose data.gov.in call answers with the rainfall table. *)
Definition rainfall_env : Env :=
  mkEnv full_config unreachable
        (fun rid => if String.eqb rid "rainfall-resource" then Ok rainfall_table
                    else Raise (RequestError "404"))
        None.

(** Two years of crop production of Punjab, in long format. *)
Definition crop_row (state crop : string) (year production : Z) : row :=
  [("State", CStr state); ("Crop", CStr crop); ("Year", num year);
   ("Production", num production)].

Definition punjab_table : DataFrame :=
  mkFrame ["State"; "Crop"; "Year"; "Production"]
    [crop_row "Punjab" "Wheat" 2019 100; crop_row "Punjab" "Rice" 2019 50;
     crop_row "Punjab" "Wheat" 2020 120; crop_row "Punjab" "Rice" 2020 40].

Definition punjab_store : Store := mkStore [(major_dataset, punjab_table)] [] [].

(** A district table: wheat of two districts of Punjab in 2019 and 2020, and
    of one district of Haryana in 2021. *)
Definition district_row (state district crop : string) (year production : Z) : row :=
  [("State_Name", CStr state); ("District_Name", CStr district); ("Crop", CStr crop);
   ("Year", num year); ("Production", num production)].

Definition district_table : DataFrame :=
  mkFrame ["State_Name"; "District_Name"; "Crop"; "Year"; "Production"]
    [district_row "Punjab" "Ludhiana" "Wheat" 2019 100;
     district_row "Punjab" "Amritsar" "Wheat" 2019 80;
     district_row "Punjab" "Ludhiana" "Wheat" 2020 120;
     district_row "Punjab" "Amritsar" "Wheat" 2020 90;
     district_row "Haryana" "Hisar" "Wheat" 2021 70].

Definition district_store : Store := mkStore [(district_dataset, district_table)] [] [].

(** A major-crops table as the JSON of the portal gives it, every value a
    string, and a store that holds it and no district table. *)
Definition text_row (state crop year production : string) : row :=
  [("State", CStr state); ("Crop", CStr crop); ("Year", CStr year);
   ("Production", CStr production)].

Definition text_table : DataFrame :=
  mkFrame ["State"; "Crop"; "Year"; "Production"]
    [text_row "Punjab" "Wheat" "2020" "100"; text_row "Punjab" "Wheat" "2020" "200"].

Definition text_store : Store := mkStore [(major_dataset, text_table)] [] [].

Definition district_question : string :=
  "Tell me the district of Punjab that had highest wheat output in 2020".

Definition district_question_no_year : string :=
  "In Punjab, the district that had most wheat".

Definition fnum (z : Z) : pyval := PFloat (Fin (inject_Z z)).

(** The answer of the rainfall comparison for two states: the years of the
    window and the mean of each state. *)
Definition rainfall_answer (s1 s2 : string) (years : list Z) (mean1 mean2 : Z) : pyval :=
  PDict [(s1, PDict [("years", PList (map fnum years)); ("avg_annual_mm", fnum mean1)]);
         (s2, PDict [("years", PList (map fnum years)); ("avg_annual_mm", fnum mean2)])].

(** Records of grouped sums, as [to_dict(orient="records")] gives them. *)
Definition crop_record (crop : string) (production : Z) : pyval :=
  PDict [("Crop", PStr crop); ("Production", fnum production)].

Definition district_record (district : string) (production : Z) : pyval :=
  PDict [("District_Name", PStr district); ("Production", fnum production)].

Definition district_year_record (district : string) (year production : Z) : pyval :=
  PDict [("District_Name", PStr district); ("Year", fnum year); ("Production", fnum production)].

(** The field of a payload, [None] when the payload is no dict or lacks it. *)
Definition field (k : string) (payload : Exc pyval) : option pyval :=
  match payload with
  | Ok (PDict d) => dict_get k d
  | _ => None
  end.

Definition zero_years_question : string :=
  "Compare rainfall in Karnataka and Kerala for the last 0 years".

(** The first entry a step of type [t] needs and the dict [d] lacks. *)
Definition first_missing (args : list string) (d : pydict) : option string :=
  find (fun k => match dict_get k d with Some _ => false | None => true end) args.

(** The payload of the two computations that answer an empty table with a
    note. *)
Definition note_payload (t : string) (m : pydict) : Prop :=
  (t = "compute_rainfall_compare" /\ m = [("note", PStr "No rainfall dataset configured")])
  \/ (t = "compute_top_crops" /\ m = [("note", PStr "Crop production dataset empty")]).

(** The fields of the success payload of a step of type [t] with entries [d]:
    one entry per state for the two comparisons of states, fixed fields for
    the others. *)
Definition success_payload (t : string) (d : pydict) (m : pydict) : Prop :=
  ((t = "compute_rainfall_compare" \/ t = "compute_top_crops")
   /\ exists s1 s2 e1 e2,
        get_or_none "state1" d = PStr s1 /\ get_or_none "state2" d = PStr s2
        /\ m = dict_set s2 e2 [(s1, e1)])
  \/ (t = "compute_district_crop_extrema" /\ dict_keys m = ["max"; "min"])
  \/ (t = "compute_top_crops_state"
      /\ (dict_keys m = ["state"; "top_n"; "years"; "crops"; "year_range"]
          \/ dict_keys m = ["state"; "top_n"; "years"; "crops"; "year_range"; "debug_info"]))
  \/ (t = "compute_district_highest_crop_year"
      /\ (dict_keys m = ["state"; "crop"; "year"; "district"; "production"]
          \/ dict_keys m = ["state"; "crop"; "year"; "total_production"; "note"; "warning";
                            "suggestion"]))
  \/ (t = "compute_district_crop_comparison"
      /\ dict_keys m = ["state"; "crop"; "years"; "year_range"; "districts";
                        "district_by_year"]).

(** A table of one state with a column per crop and no year column: neither
    the long nor the wide layout. *)
Definition layoutless_table : DataFrame :=
  mkFrame ["State"; "Rice"] [[("State", CStr "Punjab"); ("Rice", num 10)]].

Definition layoutless_store : Store := mkStore [(district_dataset, layoutless_table)] [] [].

(** The step and the answer of the example of the specification: the top 2
    crops of Punjab over 2 years. *)
Definition punjab_step : pydict :=
  [("type", PStr "compute_top_crops_state"); ("state", PStr "punjab");
   ("top_n", PInt 2); ("years", PInt 2)].

Definition punjab_answer : pyval :=
  PDict [("state", PStr "punjab"); ("top_n", PInt 2); ("years", PInt 2);
         ("crops", PList [crop_record "Wheat" 220; crop_record "Rice" 90]);
         ("year_range", PList [PInt 2019; PInt 2020])].

(** [window] holds the [n] most recent of the year [values]: it is ascending
    without repetition, made of values that are present, of length [n] or,
    when fewer distinct values exist, holding them all, and every value that
    is left out lies below every value of the window.  Two years are the same
    year when they are equal as rationals. *)
Definition most_recent (n : nat) (values window : list Q) : Prop :=
  StronglySorted Qlt window
  /\ (forall w, In w window -> In w values)
  /\ (List.length window = n
      \/ (List.length window < n
          /\ forall v, In v values -> exists w, In w window /\ Qeq v w))
  /\ (forall v w, In v values -> In w window ->
                  (forall w', In w' window -> ~ Qeq v w') -> Qlt v w).

(** The arithmetic mean of a list of numbers. *)
Definition arithmetic_mean (l : list Q) : Q := qsum l / inject_Z (Z.of_nat (List.length l)).

(** [x] reports the mean of [values]: a float equal to their arithmetic mean,
    or not-a-number when there is no value. *)
Definition reports_mean (values : list Q) (x : pyval) : Prop :=
  match values with
  | [] => x = PFloat NaN
  | _ => exists m, x = PFloat (Fin m) /\ Qeq m (arithmetic_mean values)
  end.

(** The rows of the rainfall table whose state cell is text that contains
    [s], letter case ignored, and whose year is in [window]. *)
Definition rainfall_rows (sc yc s : string) (window : list Q) (table : DataFrame) : list row :=
  filter (fun r => raw_contains s (row_get sc r) && isin (row_get yc r) window) (rows table).

(** The entry the rainfall comparison reports for the state [s]: the window,
    and the mean of the annual rainfall over the rows of the state in the
    window, [None] when there is no such row. *)
Definition reports_rainfall (sc yc ac s : string) (window : list Q) (table : DataFrame)
  (entry : pyval) : Prop :=
  exists avg,
    entry = PDict [("years", years_list window); ("avg_annual_mm", avg)]
    /\ match rainfall_rows sc yc s window table with
       | [] => avg = PNone
       | rs => reports_mean (nums (map (row_get ac) rs)) avg
       end.

(** A degraded answer: the state-level total for the request, with the
    warning that district-level data is not available, and no error. *)
Definition degraded_answer (state crop year : pyval) (summary : pydict)
  (answer : Exc pyval) : Prop :=
  (exists total, dict_get "total_production" summary = Some (PFloat total)
                 /\ field "total_production" answer = Some (PFloat total))
  /\ field "state" answer = Some state
  /\ field "crop" answer = Some crop
  /\ field "year" answer = Some year
  /\ field "warning" answer
     = Some (PStr "District-level data not available. Showing state-level summary instead.")
  /\ field "error" answer = None.

(** The error payload of an unavailable district table: an error message,
    the five required columns and two alternative queries. *)
Definition unavailable_answer (answer : Exc pyval) : Prop :=
  (exists message, field "error" answer = Some (PStr message))
  /\ field "required_columns" answer
     = Some (PList [PStr "State"; PStr "District"; PStr "Crop"; PStr "Production"; PStr "Year"])
  /\ exists q1 q2, field "alternative_queries" answer = Some (PList [PStr q1; PStr q2]).








(** * Further parts of the engine *)

(** ** [data_store.py], continued *)

(** [DataStore.list_datasets]. *)
Definition list_datasets (st : Store) : pydict :=
  [("agriculture", PList (map PStr (dict_keys (agriculture_data st))));
   ("climate", PList (map PStr (dict_keys (climate_data st))))].

(** The store a fresh [DataStore()] holds. *)
Definition new_store : Store := mkStore [] [] [].

(** [name] is listed under [category] by [list_datasets]. *)
Definition listed (category name : string) (st : Store) : Prop :=
  exists names, dict_get category (list_datasets st) = Some (PList names)
                /\ In (PStr name) names.

(** No name is listed twice within a category. *)
Definition no_repeats (st : Store) : Prop :=
  NoDup (dict_keys (agriculture_data st)) /\ NoDup (dict_keys (climate_data st)).

(** An environment whose CKAN call answers with the district table for the
    configured district resource. *)
Definition district_env : Env :=
  mkEnv (mkConfig (Some "key") None None (Some "district-resource"))
        (fun rid => if String.eqb rid "district-resource" then Ok district_table
                    else Raise (RequestError "404"))
        unreachable None.

(** The store after the district table was fetched from [district_env]. *)
Definition cached_store : Store :=
  add_dataset "agriculture" district_dataset district_table
    [("id", PStr "district-resource");
     ("name", PStr "District-wise Season-wise Crop Production")] empty_store.

(** A district table without a year column, and a store that holds it. *)
Definition yearless_table : DataFrame :=
  mkFrame ["State_Name"; "District_Name"; "Crop"; "Production"]
    [[("State_Name", CStr "Punjab"); ("District_Name", CStr "Ludhiana");
      ("Crop", CStr "Wheat"); ("Production", num 100)]].

Definition yearless_store : Store := mkStore [(district_dataset, yearless_table)] [] [].






(** ** Planning and execution together *)

(** The six intents the planner knows. *)
Definition recognized_intents : list string :=
  ["rainfall_vs_top_crops"; "rainfall_compare"; "district_crop_extrema_compare";
   "top_crops_state"; "district_highest_crop_year"; "district_crop_comparison"].

(** The types of the steps the planner builds for an intent, in order. *)
Definition intent_step_types (intent : string) : list string :=
  if String.eqb intent "rainfall_vs_top_crops"
  then ["compute_rainfall_compare"; "compute_top_crops"]
  else if String.eqb intent "rainfall_compare" then ["compute_rainfall_compare"]
  else if String.eqb intent "district_crop_extrema_compare"
  then ["compute_district_crop_extrema"]
  else if String.eqb intent "top_crops_state" then ["compute_top_crops_state"]
  else if String.eqb intent "district_highest_crop_year"
  then ["compute_district_highest_crop_year"]
  else if String.eqb intent "district_crop_comparison"
  then ["compute_district_crop_comparison"]
  else [].

(** The entries of the parsed dict the planner reads for an intent, in the
    order it reads them. *)
Definition intent_keys (intent : string) : list string :=
  flat_map step_args (intent_step_types intent).

(** The step dict of type [t] built from [parsed]. *)
Definition step_of (parsed : pydict) (t : string) : pyval :=
  PDict (("type", PStr t) :: map (fun k => (k, get_or_none k parsed)) (step_args t)).

(** The computations of the listed step types, run in order on the entries
    of [parsed], each payload stored under the key of its step. *)
Fixpoint run_computations (rt : Runtime) (env : Env) (types : list string)
  (parsed results : pydict) : M pydict :=
  match types with
  | [] => ret results
  | t :: rest =>
      bind (computation rt env t parsed)
           (fun payload =>
              run_computations rt env rest parsed (dict_set (step_key t) payload results))
  end.



(** ** [ckan_client.py] *)

(** Python on JSON values: [v.get(k, default)], [a or b], [v.lower()]. *)
Definition py_get (v : pyval) (k : string) (default : pyval) : Exc pyval :=
  match v with
  | PDict d => Ok (match dict_get k d with Some x => x | None => default end)
  | _ => Raise (AttributeError "object has no attribute 'get'")
  end.

Definition py_or (a b : pyval) : pyval := if truthy a then a else b.

Definition py_lower (v : pyval) : Exc string :=
  match v with
  | PStr s => Ok (lower s)
  | _ => Raise (AttributeError "object has no attribute 'lower'")
  end.

(** A loop whose body returns from the function at the first value it
    finds: the elements after that one are not looked at. *)
Fixpoint first_in {A} (f : A -> Exc (option pyval)) (l : list A) : Exc (option pyval) :=
  match l with
  | [] => Ok None
  | x :: t =>
      match f x with
      | Ok (Some v) => Ok (Some v)
      | Ok None => first_in f t
      | Raise e => Raise e
      end
  end.

(** [DataGovInClient.list_sample_resources] and
    [list_curated_real_resources]. *)
Definition resource_catalog (entries : list pyval) : pyval :=
  PDict [("agriculture",
          PDict [("crop_production", PDict [("resource_ids", PList entries)])]);
         ("climate", PDict [("rainfall", PDict [("resource_ids", PList [])])])].

Definition list_sample_resources : pyval :=
  resource_catalog [PDict [("id", PStr "sample_agri_1");
                           ("name", PStr "Crop Production (sample)")]].

Definition list_curated_real_resources : pyval :=
  resource_catalog [PDict [("id", PStr "9ef84268-d588-465a-a308-a864a43d0070");
                           ("name", PStr "Crop Production in India (All-India)")]].

Section Discovery.
(** [_ckan_action(action, params)]: the JSON the portal answers with, [None]
    when the request fails in any way. *)
Variable _ckan_action : string -> pydict -> option pyval.

(** [if not data or not data.get("success"): ...]: the data when the test
    lets it through. *)
Definition succeeded (data : option pyval) : Exc (option pyval) :=
  match data with
  | None => Ok None
  | Some d =>
      if negb (truthy d) then Ok None
      else (s <- py_get d "success" PNone ;;
            Ok (if truthy s then Some d else None))%exc
  end.

(** [data.get("result", {}).get("results", [])]. *)
Definition search_results (data : pyval) : Exc pyval :=
  (r <- py_get data "result" (PDict []) ;; py_get r "results" (PList []))%exc.

Definition data_formats : list string := ["json"; "csv"].

(** The body of the loop over resources: the id of a JSON or CSV resource. *)
Definition usable_id (res : pyval) : Exc (option pyval) :=
  (f <- py_get res "format" PNone ;;
   fmt <- py_lower (py_or f (PStr "")) ;;
   if existsb (String.eqb fmt) data_formats
   then
     a <- py_get res "id" PNone ;;
     b <- py_get res "resource_id" PNone ;;
     let rid := py_or a b in
     Ok (if truthy rid then Some rid else None)
   else Ok None)%exc.

(** The loop over the resources of one package. *)
Definition package_resource (pkg : pyval) : Exc (option pyval) :=
  (rs <- py_get pkg "resources" (PList []) ;;
   l <- iterate rs ;;
   first_in usable_id l)%exc.

(** The loop over the packages of a search result. *)
Definition first_resource (results : pyval) : Exc (option pyval) :=
  (l <- iterate results ;; first_in package_resource l)%exc.

(** The body shared by [discover_rainfall_resource_id] and
    [discover_crop_production_resource_id]. *)
Definition discover (params : pydict) : Exc (option pyval) :=
  (d <- succeeded (_ckan_action "package_search" params) ;;
   match d with
   | None => Ok None
   | Some data => rs <- search_results data ;; first_resource rs
   end)%exc.

Definition rainfall_search : pydict :=
  [("q", PStr "rainfall");
   ("fq", PStr "organization:india-meteorological-department");
   ("rows", PInt 20)].

Definition crop_search : pydict :=
  [("q", PStr "crop production");
   ("fq", PStr "organization:department-of-agriculture-and-farmers-welfare");
   ("rows", PInt 20)].

Definition discover_rainfall_resource_id : Exc (option pyval) := discover rainfall_search.

Definition discover_crop_production_resource_id : Exc (option pyval) := discover crop_search.

(** [discover_district_crop_production_resource_id]. *)
Definition search_terms : list (string * option string) :=
  [("district crop production",
    Some "organization:department-of-agriculture-and-farmers-welfare");
   ("district wise crop",
    Some "organization:department-of-agriculture-and-farmers-welfare");
   ("season wise crop production",
    Some "organization:department-of-agriculture-and-farmers-welfare");
   ("district crop production", None)].

Definition district_search (term : string * option string) : pydict :=
  [("q", PStr (fst term)); ("rows", PInt 30)]
  ++ match snd term with
     | Some org_filter => if truthy (PStr org_filter) then [("fq", PStr org_filter)] else []
     | None => []
     end.

(** The first loop over packages: the resources of the packages that have
    [district] in their title or name. *)
Definition district_package_resource (pkg : pyval) : Exc (option pyval) :=
  (t <- py_get pkg "title" PNone ;;
   pkg_title <- py_lower (py_or t (PStr "")) ;;
   n <- py_get pkg "name" PNone ;;
   pkg_name <- py_lower (py_or n (PStr "")) ;;
   if str_in "district" pkg_title || str_in "district" pkg_name
   then
     rs <- py_get pkg "resources" (PList []) ;;
     l <- iterate rs ;;
     first_in (fun res =>
                 rn <- py_get res "name" PNone ;;
                 py_lower (py_or rn (PStr "")) ;;;
                 r <- usable_id res ;;
                 match r with
                 | Some rid =>
                     if negb (str_in "pollutant" pkg_title) && negb (str_in "air" pkg_title)
                     then Ok (Some rid) else Ok None
                 | None => Ok None
                 end) l
   else Ok None)%exc.

(** One turn of the loop over the search terms, on the data of a search
    that succeeded. *)
Definition district_resource (data : pyval) : Exc (option pyval) :=
  (rs <- search_results data ;;
   l <- iterate rs ;;
   r <- first_in district_package_resource l ;;
   match r with
   | Some rid => Ok (Some rid)
   | None => rs <- search_results data ;; first_resource rs
   end)%exc.

Fixpoint discover_district_in (terms : list (string * option string)) : Exc (option pyval) :=
  match terms with
  | [] => Ok None
  | term :: rest =>
      (d <- succeeded (_ckan_action "package_search" (district_search term)) ;;
       match d with
       | None => discover_district_in rest
       | Some data =>
           r <- district_resource data ;;
           match r with
           | Some rid => Ok (Some rid)
           | None => discover_district_in rest
           end
       end)%exc
  end.

Definition discover_district_crop_production_resource_id : Exc (option pyval) :=
  discover_district_in search_terms.

(** ** [dataset_catalog.py] *)

(** A resource id of the configuration, as a Python value. *)
Definition configured (o : option string) : pyval :=
  match o with
  | Some s => PStr s
  | None => PNone
  end.

(** [[{"id": rid, "name": name}] if rid else []]. *)
Definition resource_ids (rid : pyval) (name : string) : pyval :=
  PDict [("resource_ids",
          if truthy rid then PList [PDict [("id", rid); ("name", PStr name)]]
          else PList [])].

(** [DatasetCatalog.discover_datasets]: the value it assigns to
    [self.datasets]. *)
Definition discover_datasets (cfg : Config) : Exc pyval :=
  (rainfall_id <- discover_rainfall_resource_id ;;
   crop_id <- discover_crop_production_resource_id ;;
   district_crop_id <- discover_district_crop_production_resource_id ;;
   let as_value (o : option pyval) := match o with Some v => v | None => PNone end in
   let rainfall_id := py_or (as_value rainfall_id) (configured (rainfall_resource_id cfg)) in
   let crop_id := py_or (as_value crop_id) (configured (crop_production_resource_id cfg)) in
   let district_crop_id :=
     py_or (as_value district_crop_id)
           (configured (district_crop_production_resource_id cfg)) in
   Ok (PDict
         [("agriculture",
           PDict [("crop_production", resource_ids crop_id "Crop Production");
                  ("district_crop_production",
                   resource_ids district_crop_id "District Crop Production")]);
          ("climate",
           PDict [("rainfall", resource_ids rainfall_id "Rainfall")])]))%exc.

End Discovery.

(** [rid] is the id of the resource [res], which is in JSON or CSV. *)
Definition data_resource (res rid : pyval) : Prop :=
  exists d f,
    res = PDict d
    /\ dict_get "format" d = Some (PStr f)
    /\ In (lower f) data_formats
    /\ truthy rid = true
    /\ (dict_get "id" d = Some rid \/ dict_get "resource_id" d = Some rid).

(** [rid] is the id of a JSON or CSV resource of a package of the search
    result [data]. *)
Definition listed_resource (data rid : pyval) : Prop :=
  exists rs pkgs pkg ress l res,
    search_results data = Ok rs /\ iterate rs = Ok pkgs /\ In pkg pkgs
    /\ py_get pkg "resources" (PList []) = Ok ress /\ iterate ress = Ok l /\ In res l
    /\ data_resource res rid.

(** A portal whose every search answers with one package, on district air
    quality, that holds one CSV resource. *)
Definition air_package : pyval :=
  PDict [("title", PStr "District wise Air Quality");
         ("name", PStr "district-air-quality");
         ("resources",
          PList [PDict [("name", PStr "Air quality 2020"); ("format", PStr "CSV");
                        ("id", PStr "air-1")]])].

Definition air_portal : string -> pydict -> option pyval :=
  fun _ _ => Some (PDict [("success", PBool true);
                          ("result", PDict [("results", PList [air_package])])]).

(** The entry of the catalog for one kind of dataset: the discovered
    resource when there is one, else the configured one when it is set,
    else no resource. *)
Definition catalog_entry (discovered : option pyval) (configured_id : option string)
  (name : string) : pyval :=
  PDict [("resource_ids",
          match discovered with
          | Some rid => PList [PDict [("id", rid); ("name", PStr name)]]
          | None =>
              match configured_id with
              | Some s => if String.eqb s "" then PList []
                          else PList [PDict [("id", PStr s); ("name", PStr name)]]
              | None => PList []
              end
          end)].

(** ** [llm_client.py] *)

(** [k in v] for a string [k]: a key of a dict, a part of a string, an
    element of a list. *)
Definition py_in (k : string) (v : pyval) : Exc bool :=
  match v with
  | PDict d => Ok (match dict_get k d with Some _ => true | None => false end)
  | PStr s => Ok (str_in k s)
  | PList l => Ok (existsb (fun x => match x with
                                     | PStr s => String.eqb s k
                                     | _ => false
                                     end) l)
  | _ => Raise (TypeError "argument is not iterable")
  end.

(** [v[k]] for a string [k]. *)
Definition py_item (v : pyval) (k : string) : Exc pyval :=
  match v with
  | PDict d => dict_item k d
  | PStr _ => Raise (TypeError "string indices must be integers")
  | PList _ => Raise (TypeError "list indices must be integers or slices")
  | _ => Raise (TypeError "object is not subscriptable")
  end.

(** The first of two blocks that returns from the function. *)
Definition or_else (a b : Exc (option string)) : Exc (option string) :=
  match a with
  | Ok None => b
  | _ => a
  end.

Definition schema_error_answer : string :=
  "⚠️ **Error**: The district crop production dataset has an incorrect schema. The resource ID `DISTRICT_CROP_PRODUCTION_RESOURCE_ID` appears to be pointing to a different dataset type (possibly air pollution data). Please update your `.env` file with the correct resource ID for district crop production data from data.gov.in.".

Definition rainfall_available_answer : string :=
  "✓ Rainfall comparison data is available. See the visualization above for details.".

Definition generic_answer : string :=
  "✓ Query executed successfully. See the detailed results and visualizations above.".

Definition error_answer (message : string) : string := ("⚠️ **Error**: " ++ message)%string.

Section Answers.
Variable rt : Runtime.
(** [format(x, ",.0f")] of a finite number. *)
Variable thousands : Q -> string.

(** [f"{v:,.0f}"]. *)
Definition format_thousands (v : pyval) : Exc string :=
  match v with
  | PInt z => Ok (thousands (inject_Z z))
  | PBool b => Ok (thousands (inject_Z (if b then 1 else 0)))
  | PFloat (Fin q) => Ok (thousands q)
  | PFloat NaN => Ok "nan"
  | PStr _ => Raise (ValueError "Unknown format code 'f' for object of type 'str'")
  | _ => Raise (TypeError "unsupported format string passed to __format__")
  end.

(** The block on [district_highest_crop_year]. *)
Definition highest_answer (dhc : pyval) : Exc (option string) :=
  (has_error <- py_in "error" dhc ;;
   if has_error
   then
     error_msg <- py_get dhc "error" (PStr "Unknown error") ;;
     has_total <- py_in "total_production" dhc ;;
     degraded <- (if has_total
                  then w <- py_get dhc "warning" PNone ;; Ok (truthy w)
                  else Ok false) ;;
     if degraded
     then
       s <- py_get dhc "state" (PStr "") ;;
       state <- py_title s ;;
       c <- py_get dhc "crop" (PStr "") ;;
       crop <- py_title c ;;
       year <- py_get dhc "year" (PStr "") ;;
       total_prod <- py_get dhc "total_production" (PInt 0) ;;
       total <- format_thousands total_prod ;;
       Ok (Some ("⚠️ **Note**: District-level data is not available. However, "
                 ++ state ++ " had a total " ++ crop ++ " production of " ++ total
                 ++ " tonnes in " ++ py_str rt year
                 ++ ". For district-specific information, please ensure a valid DISTRICT_CROP_PRODUCTION_RESOURCE_ID is configured.")%string)
     else
       lowered <- py_lower error_msg ;;
       if str_in "schema unexpected" lowered then Ok (Some schema_error_answer)
       else Ok (Some (error_answer (py_str rt error_msg)))
   else
     has_district <- py_in "district" dhc ;;
     has_both <- (if has_district then py_in "production" dhc else Ok false) ;;
     if has_both
     then
       s <- py_get dhc "state" (PStr "") ;;
       state <- py_title s ;;
       district <- py_get dhc "district" (PStr "") ;;
       c <- py_get dhc "crop" (PStr "") ;;
       crop <- py_title c ;;
       year <- py_get dhc "year" (PStr "") ;;
       production <- py_get dhc "production" (PInt 0) ;;
       amount <- format_thousands production ;;
       Ok (Some ("**Answer**: " ++ py_str rt district ++ " district in " ++ state
                 ++ " had the highest " ++ crop ++ " production in " ++ py_str rt year
                 ++ ", with " ++ amount ++ " tonnes.")%string)
     else Ok None)%exc.

(** The block on [district_crop_comparison]. *)
Definition comparison_answer (dcc : pyval) : Exc (option string) :=
  (has_error <- py_in "error" dcc ;;
   if has_error
   then e <- py_get dcc "error" (PStr "Unknown error") ;;
        Ok (Some (error_answer (py_str rt e)))
   else Ok None)%exc.

(** The block on [rainfall_compare]. *)
Definition rainfall_answer_text (rc : pyval) : Exc (option string) :=
  match rc with
  | PDict _ => Ok None
  | _ => Ok (Some rainfall_available_answer)
  end.

(** The block on [top_crops_state]. *)
Definition top_crops_answer (tcs : pyval) : Exc (option string) :=
  (has_error <- py_in "error" tcs ;;
   has_crops <- (if negb has_error then py_in "crops" tcs else Ok false) ;;
   if has_crops
   then
     s <- py_get tcs "state" (PStr "") ;;
     state <- py_title s ;;
     top_n <- py_get tcs "top_n" (PInt 0) ;;
     Ok (Some ("✓ Top " ++ py_str rt top_n ++ " crops for " ++ state
               ++ " are shown in the table above.")%string)
   else Ok None)%exc.

(** [if key in answer_data: block(answer_data[key])]. *)
Definition on_key (answer_data : pyval) (key : string)
  (block : pyval -> Exc (option string)) : Exc (option string) :=
  (present <- py_in key answer_data ;;
   if present then v <- py_item answer_data key ;; block v else Ok None)%exc.

(** [LLMClient._format_answer_from_results]. *)
Definition _format_answer_from_results (results : pyval) : Exc string :=
  (a <- py_get results "answer_data" (PDict []) ;;
   let answer_data := py_or a (PDict []) in
   r <- or_else (on_key answer_data "district_highest_crop_year" highest_answer)
          (or_else (on_key answer_data "district_crop_comparison" comparison_answer)
             (or_else (on_key answer_data "rainfall_compare" rainfall_answer_text)
                (on_key answer_data "top_crops_state" top_crops_answer))) ;;
   Ok match r with
      | Some answer => answer
      | None => generic_answer
      end)%exc.

End Answers.

(** The column [c] of a frame is settled: every row holds a number or
    not-a-number under [c], so that coercing the column changes nothing. *)
Definition settled (c : string) (df : DataFrame) : Prop :=
  has_col c df = true
  /\ forall r, In r (rows df) ->
       exists v, dict_get c r = Some v /\ (is_num v = true \/ v = CNaN).

(** The entries of a parsed dict that hold a state name, and those that hold
    other text taken from the question. *)
Definition state_keys : list string := ["state"; "state1"; "state2"; "state_max"; "state_min"].

Definition text_keys : list string :=
  state_keys ++ ["crop"; "crop_max"; "crop_min"; "crop_type"].

Definition highest_question : string :=
  "Which district in Punjab had the highest wheat production in 2020?".

Definition highest_parsed : pydict :=
  [("intent", PStr "district_highest_crop_year"); ("state", PStr "Punjab");
   ("crop", PStr "wheat"); ("year", PInt 2020)].

(** [a] and [b] are, in this order, the first two elements of [l] that
    satisfy [p]. *)
Definition first_two_of {A} (l : list A) (p : A -> bool) (a b : A) : Prop :=
  exists before between after,
    l = before ++ a :: between ++ b :: after
    /\ p a = true /\ p b = true
    /\ forallb (fun x => negb (p x)) (before ++ between) = true.

Definition rainfall_order_question : string :=
  "How does rain in Punjab differ from Karnataka".




(** A wide table with its years as seasons under the name [_year]. *)
Definition season_table : DataFrame :=
  mkFrame ["State"; "_year"; "Rice"; "Wheat"]
    [[("State", CStr "Punjab"); ("_year", CStr "2018-19"); ("Rice", num 30); ("Wheat", num 90)];
     [("State", CStr "Punjab"); ("_year", CStr "2019-20"); ("Rice", num 50); ("Wheat", num 100)];
     [("State", CStr "Punjab"); ("_year", CStr "2020-21"); ("Rice", num 40); ("Wheat", num 120)];
     [("State", CStr "Kerala"); ("_year", CStr "2020-21"); ("Rice", num 70); ("Wheat", num 1)]].

Definition season_store : Store := mkStore [(major_dataset, season_table)] [] [].
(** * Properties *)

(** ** Column-role resolution *)

Lemma find_app_last {A} (p : A -> bool) (l : list A) (x : A) :
  find p (l ++ [x]) =
  match find p l with
  | Some y => Some y
  | None => if p x then Some x else None
  end.
Proof.
  induction l as [|a l IH]; simpl.
  - reflexivity.
  - destruct (p a); [reflexivity | exact IH].
Qed.

Lemma lower_map_get_rev (lc : string) (cols : list string) :
  lower_map_get lc cols = find (fun c => String.eqb (lower c) lc) (rev cols).
Proof.
  unfold lower_map_get.
  assert (G : forall acc,
             fold_left (fun acc c => if String.eqb (lower c) lc then Some c else acc) cols acc
             = match find (fun c => String.eqb (lower c) lc) (rev cols) with
               | Some x => Some x
               | None => acc
               end).
  { induction cols as [|c t IH]; intro acc; simpl.
    - reflexivity.
    - rewrite IH, find_app_last.
      destruct (find _ (rev t)); [reflexivity|].
      destruct (String.eqb (lower c) lc); reflexivity. }
  rewrite G. destruct (find _ (rev cols)); reflexivity.
Qed.

Lemma find_rev_last {A} (p : A -> bool) (l : list A) (x : A) :
  find p (rev l) = Some x ->
  exists before after, l = before ++ x :: after /\ p x = true /\
                       forall y, In y after -> p y = false.
Proof.
  induction l as [|a l IH]; simpl; intro H.
  - discriminate.
  - rewrite find_app_last in H.
    destruct (find p (rev l)) as [y|] eqn:E.
    + inversion H; subst y.
      destruct (IH eq_refl) as (b & af & -> & Hp & Hl).
      exists (a :: b), af. repeat split; auto.
    + destruct (p a) eqn:Ea; [|discriminate].
      inversion H; subst a.
      exists [], l. repeat split; auto.
      intros y Hy. apply find_none with (x := y) in E; auto.
      now apply in_rev in Hy.
Qed.

Lemma lower_map_get_some (lc : string) (cols : list string) (x : string) :
  lower_map_get lc cols = Some x ->
  exists before after, cols = before ++ x :: after /\ lower x = lc /\
                       forall y, In y after -> lower y <> lc.
Proof.
  rewrite lower_map_get_rev. intro H.
  destruct (find_rev_last _ _ _ H) as (b & a & Hc & Hx & Ha).
  exists b, a. split; [exact Hc|]. split.
  - now apply String.eqb_eq.
  - intros y Hy. apply String.eqb_neq. now apply Ha.
Qed.

Lemma lower_map_get_none (lc : string) (cols : list string) :
  lower_map_get lc cols = None ->
  existsb (fun x => String.eqb (lower x) lc) cols = false.
Proof.
  rewrite lower_map_get_rev. intro H.
  destruct (existsb _ cols) eqn:E; [|reflexivity].
  apply existsb_exists in E. destruct E as (x & Hin & Hx).
  apply find_none with (x := x) in H; [congruence|].
  now apply -> in_rev.
Qed.

Lemma first_lower_match_spec (candidates cols : list string) :
  match ci_candidate candidates cols with
  | Some c => exists x, first_lower_match candidates cols = Some x /\ last_ci_column c x cols
  | None => first_lower_match candidates cols = None
  end.
Proof.
  unfold ci_candidate.
  induction candidates as [|c t IH]; simpl.
  - reflexivity.
  - destruct (lower_map_get (lower c) cols) as [x|] eqn:E.
    + destruct (lower_map_get_some _ _ _ E) as (b & a & Hc & Hx & Ha).
      assert (Hex : existsb (fun x0 => String.eqb (lower x0) (lower c)) cols = true).
      { apply existsb_exists. exists x. split.
        - subst cols. apply in_or_app. right. now left.
        - now apply String.eqb_eq. }
      rewrite Hex. exists x. split; [reflexivity|]. now exists b, a.
    + rewrite (lower_map_get_none _ _ E). exact IH.
Qed.

Lemma exists_exact_ci (c : string) (cols : list string) :
  existsb (String.eqb c) cols = true ->
  existsb (fun x => String.eqb (lower x) (lower c)) cols = true.
Proof.
  intro H. apply existsb_exists in H. destruct H as (x & Hin & Hx).
  apply String.eqb_eq in Hx. subst x.
  apply existsb_exists. exists c. split; [exact Hin | apply String.eqb_refl].
Qed.

Lemma find_col_in (candidates cols : list string) (r : string) :
  find_col candidates cols = Some r -> In r cols.
Proof.
  unfold find_col.
  destruct (find _ candidates) as [c|] eqn:E.
  - intro H. inversion H; subst r.
    apply find_some in E. destruct E as [_ E].
    apply existsb_exists in E. destruct E as (x & Hin & Hx).
    apply String.eqb_eq in Hx. now subst x.
  - intro H.
    pose proof (first_lower_match_spec candidates cols) as S.
    destruct (ci_candidate candidates cols) as [c|].
    + destruct S as (x & Hx & b & a & Hc & _).
      rewrite Hx in H. inversion H; subst r cols.
      apply in_or_app. right. now left.
    + congruence.
Qed.

Lemma find_col_cases (candidates cols : list string) :
  match exact_candidate candidates cols with
  | Some c => find_col candidates cols = Some c
  | None =>
      match ci_candidate candidates cols with
      | Some c => exists x, find_col candidates cols = Some x /\ last_ci_column c x cols
      | None => find_col candidates cols = None
      end
  end.
Proof.
  unfold exact_candidate, find_col.
  destruct (find _ candidates); [reflexivity|].
  apply first_lower_match_spec.
Qed.

(** C6, as amended.  Resolution is a total function of the candidates and the
    columns.  It returns the first candidate that names a column exactly;
    when no candidate does, the last column whose lower-case form is that of
    the first candidate present when letter case is ignored; when no
    candidate is present either way, absent.  A name it returns is always one
    of the columns.  [pick] is the same function. *)
Theorem find_col_resolution (candidates cols : list string) :
  (match exact_candidate candidates cols with
   | Some c => find_col candidates cols = Some c
   | None =>
       match ci_candidate candidates cols with
       | Some c => exists x, find_col candidates cols = Some x /\ last_ci_column c x cols
       | None => find_col candidates cols = None
       end
   end)
  /\ (forall r, find_col candidates cols = Some r -> In r cols)
  /\ pick candidates cols = find_col candidates cols.
Proof.
  split; [|split].
  - apply find_col_cases.
  - apply find_col_in.
  - reflexivity.
Qed.

(** C6, as stated, fails: with the state candidates of the executor and the
    columns [state] and [STATE/UT], the first candidate present when letter
    case is ignored is [STATE], and resolution returns [STATE/UT], which is
    not that candidate in any letter case. *)
Lemma find_col_prefers_exact_match :
  ci_candidate state_candidates ["state"; "STATE/UT"] = Some "STATE"
  /\ find_col state_candidates ["state"; "STATE/UT"] = Some "STATE/UT"
  /\ lower "STATE/UT" <> lower "STATE".
Proof.
  split; [reflexivity|]. split; [reflexivity|]. discriminate.
Qed.

(** ** The monad *)

Lemma bind_ok {A B} (m : M A) (f : A -> M B) (st st' : Store) (a : A) :
  m st = (Ok a, st') -> bind m f st = f a st'.
Proof. intro H. unfold bind. now rewrite H. Qed.

Lemma bind_raise {A B} (m : M A) (f : A -> M B) (st st' : Store) (e : exn) :
  m st = (Raise e, st') -> bind m f st = (Raise e, st').
Proof. intro H. unfold bind. now rewrite H. Qed.

(** ** Text and roles *)

Lemma lower_empty (s : string) : lower s = "" -> s = "".
Proof. destruct s; simpl; [reflexivity | discriminate]. Qed.

Lemma find_col_nonempty (candidates cols : list string) (r : string) :
  Forall (fun c => c <> "") candidates ->
  find_col candidates cols = Some r -> r <> "".
Proof.
  intros Hne H.
  rewrite Forall_forall in Hne.
  pose proof (find_col_cases candidates cols) as S.
  destruct (exact_candidate candidates cols) as [c|] eqn:E.
  - rewrite S in H. inversion H; subst r.
    apply find_some in E. now apply Hne.
  - destruct (ci_candidate candidates cols) as [c|] eqn:E2.
    + destruct S as (x & Hx & b & a & _ & Hl & _).
      rewrite Hx in H. inversion H; subst r.
      apply find_some in E2. destruct E2 as [Hc _].
      intro Hr. subst x. simpl in Hl. symmetry in Hl.
      apply lower_empty in Hl. now apply (Hne c).
    + congruence.
Qed.

Lemma find_col_truthy (candidates cols : list string) :
  Forall (fun c => c <> "") candidates ->
  truthy_str (find_col candidates cols)
  = match find_col candidates cols with Some _ => true | None => false end.
Proof.
  intro Hne. destruct (find_col candidates cols) as [r|] eqn:E; [|reflexivity].
  simpl. apply negb_true_iff. apply String.eqb_neq.
  eapply find_col_nonempty; eauto.
Qed.

Lemma find_col_none_absent (candidates cols : list string) (c : string) :
  find_col candidates cols = None -> In c candidates ->
  existsb (String.eqb c) cols = false.
Proof.
  unfold find_col. intros H Hin.
  destruct (find _ candidates) eqn:E; [discriminate|].
  now apply find_none with (x := c) in E.
Qed.

Ltac nonempty_list :=
  repeat (apply Forall_cons; [discriminate|]); apply Forall_nil.

Lemma state_candidates_nonempty : Forall (fun c => c <> "") state_candidates.
Proof. unfold state_candidates. nonempty_list. Qed.

Lemma crop_candidates_nonempty : Forall (fun c => c <> "") crop_candidates.
Proof. unfold crop_candidates. nonempty_list. Qed.

Lemma year_candidates_nonempty : Forall (fun c => c <> "") (year_candidates ++ ["_year"]).
Proof. simpl. nonempty_list. Qed.

(** ** The store is only read by the table preference chain *)

Lemma top_crops_state_table_reads (env : Env) (st : Store) :
  snd (top_crops_state_table env st) = st.
Proof.
  unfold top_crops_state_table, bind, read_dataset, ret, lift.
  destruct (usable (get_dataset district_dataset st)); [reflexivity|].
  destruct (usable (get_dataset major_dataset st)); [reflexivity|].
  destruct (_load_crop_production env); reflexivity.
Qed.

(** ** Steps of [execute] *)

Lemma run_if_miss (d : pydict) (name key : string) (args : list string)
  (compute : list pyval -> M pyval) (results : pydict) (st : Store) :
  py_eq_str (dict_get "type" d) name = false ->
  run_if (PDict d) name key args compute results st = (Ok results, st).
Proof.
  intro H. unfold run_if, bind, lift, step_type. now rewrite H.
Qed.

Lemma execute_step_skipped rt env (step : pyval) (results : pydict) (st : Store) :
  skipped step = true -> execute_step rt env step results st = (Ok results, st).
Proof.
  destruct step; simpl; try discriminate; [reflexivity|].
  intro H. apply negb_true_iff in H. simpl in H.
  repeat (apply orb_false_elim in H; destruct H as [? H]).
  unfold execute_step.
  repeat (erewrite bind_ok; [|apply run_if_miss; assumption]).
  apply run_if_miss; assumption.
Qed.

Lemma execute_steps_skipped rt env (steps : list pyval) (results : pydict) (st : Store) :
  forallb skipped steps = true -> execute_steps rt env steps results st = (Ok results, st).
Proof.
  induction steps as [|s t IH]; simpl; intro H.
  - reflexivity.
  - apply andb_true_iff in H. destruct H as [Hs Ht].
    erewrite bind_ok; [|apply execute_step_skipped; exact Hs].
    now apply IH.
Qed.

Lemma execute_steps_app rt env (s1 s2 : list pyval) (results : pydict) (st : Store) :
  execute_steps rt env (s1 ++ s2) results st
  = match execute_steps rt env s1 results st with
    | (Ok r, st') => execute_steps rt env s2 r st'
    | (Raise e, st') => (Raise e, st')
    end.
Proof.
  revert results st. induction s1 as [|s t IH]; intros results st; simpl.
  - reflexivity.
  - unfold bind.
    destruct (execute_step rt env s results st) as [[r|e] st']; [apply IH | reflexivity].
Qed.

Lemma execute_plan rt env (intent : pyval) (steps : list pyval) (st : Store) :
  execute rt env (make_plan intent steps) st
  = match execute_steps rt env steps [] st with
    | (Ok results, st') => (Ok (response (make_plan intent steps) results), st')
    | (Raise e, st') => (Raise e, st')
    end.
Proof.
  unfold execute, bind, lift, ret. simpl.
  destruct (execute_steps rt env steps [] st) as [[r|e] st']; reflexivity.
Qed.

Lemma step_args_fold (d : pydict) (args : list string) :
  fold_right (fun k acc => ebind (step_item (PDict d) k)
                             (fun v => ebind acc (fun vs => Ok (v :: vs))))
             (Ok []) args
  = match first_missing args d with
    | Some k => Raise (KeyError k)
    | None => Ok (map (fun k => get_or_none k d) args)
    end.
Proof.
  unfold first_missing.
  induction args as [|k t IH]; cbn [fold_right map find].
  - reflexivity.
  - rewrite IH. unfold step_item, dict_item, get_or_none, ebind.
    destruct (dict_get k d); [|reflexivity].
    destruct (find _ t); reflexivity.
Qed.

Lemma run_if_hit (d : pydict) (name key : string) (args : list string)
  (compute : list pyval -> M pyval) (results : pydict) (st : Store) :
  py_eq_str (dict_get "type" d) name = true ->
  run_if (PDict d) name key args compute results st
  = match first_missing args d with
    | Some k => (Raise (KeyError k), st)
    | None =>
        match compute (map (fun k => get_or_none k d) args) st with
        | (Ok payload, st') => (Ok (dict_set key payload results), st')
        | (Raise e, st') => (Raise e, st')
        end
    end.
Proof.
  intros H. unfold run_if, bind, lift, step_type. rewrite H, step_args_fold.
  destruct (first_missing args d); [reflexivity|].
  destruct (compute _ st) as [[p|e] st']; reflexivity.
Qed.

Ltac skip_misses Ht :=
  repeat (erewrite bind_ok; [|apply run_if_miss; rewrite Ht; reflexivity]);
  try (rewrite run_if_miss by (rewrite Ht; reflexivity)).

Lemma execute_step_recognized rt env (d : pydict) (t : string) (results : pydict) (st : Store) :
  dict_get "type" d = Some (PStr t) ->
  In t step_types ->
  execute_step rt env (PDict d) results st
  = match first_missing (step_args t) d with
    | Some k => (Raise (KeyError k), st)
    | None =>
        match computation rt env t d st with
        | (Ok payload, st') => (Ok (dict_set (step_key t) payload results), st')
        | (Raise e, st') => (Raise e, st')
        end
    end.
Proof.
  intros Ht Hin.
  unfold execute_step.
  simpl in Hin.
  repeat (destruct Hin as [<- | Hin]); try contradiction.
  all: skip_misses Ht.
  all: try unfold bind at 1.
  all: rewrite run_if_hit by (rewrite Ht; reflexivity).
  all: match goal with
       | T : dict_get "type" _ = Some (PStr ?t') |- context [first_missing ?a ?d'] =>
           change (first_missing a d') with (first_missing (step_args t') d');
           destruct (first_missing (step_args t') d'); [reflexivity|]
       end.
  all: match goal with
       | T : dict_get "type" ?d' = Some (PStr ?t') |- context [match ?c with _ => _ end] =>
           match c with
           | ?f ?s =>
               change c with (computation rt env t' d' s);
               destruct (computation rt env t' d' s) as [[p|e] st']; [|reflexivity]
           end
       end.
  all: skip_misses Ht.
  all: reflexivity.
Qed.

Lemma top_crops_state_no_production rt env st df o state top_n years :
  fst (top_crops_state_table env st) = Ok (df, o) ->
  df_empty df = false ->
  find_col state_candidates (columns df) <> None ->
  find_col crop_candidates (columns df) <> None ->
  find_col (year_candidates ++ ["_year"]) (columns df) <> None ->
  find_col production_candidates (columns df) = None ->
  _compute_top_crops_state rt env state top_n years st = (Raise (KeyError "Production"), st).
Proof.
  intros Ht He Hs Hc Hy Hp.
  unfold _compute_top_crops_state.
  pose proof (top_crops_state_table_reads env st) as Hst.
  destruct (top_crops_state_table env st) as [r st'] eqn:E. simpl in Ht, Hst. subst r st'.
  erewrite bind_ok; [|exact E]. simpl.
  rewrite He, Hp.
  rewrite (find_col_truthy _ _ state_candidates_nonempty).
  rewrite (find_col_truthy _ _ crop_candidates_nonempty).
  rewrite (find_col_truthy _ _ year_candidates_nonempty).
  destruct (find_col state_candidates (columns df)); [|congruence].
  destruct (find_col crop_candidates (columns df)); [|congruence].
  destruct (find_col (year_candidates ++ ["_year"]) (columns df)); [|congruence].
  simpl. unfold top_crops_state_long.
  assert (Hh : has_col "Production" df = false).
  { unfold has_col. eapply find_col_none_absent; [exact Hp|]. now left. }
  rewrite Hh. reflexivity.
Qed.

(** ** C1: what [execute] does with a step list *)

(** C1, as amended.  [execute] goes through the step list in order.  A step
    that is a bare string, or a dict whose type is none of the six, is passed
    over: it adds no key and raises nothing, so a list of such steps yields an
    empty answer and leaves the store alone.  A dict step of one of the six
    types stores under its key what its computation returns (an error payload
    included, when the computation reports the failure itself); it raises
    [KeyError] when it lacks an entry, and what its computation raises.  A
    step that is neither a string nor a dict raises [AttributeError].
    Nothing catches an exception: what a step raises comes out of [execute]
    and the steps after it are not run. *)
Theorem execute_step_list rt env :
  (forall intent steps st,
      forallb skipped steps = true ->
      execute rt env (make_plan intent steps) st
      = (Ok (response (make_plan intent steps) []), st))
  /\ (forall step results st,
         skipped step = true -> execute_step rt env step results st = (Ok results, st))
  /\ (forall d t results st,
         dict_get "type" d = Some (PStr t) ->
         In t step_types ->
         execute_step rt env (PDict d) results st
         = match first_missing (step_args t) d with
           | Some k => (Raise (KeyError k), st)
           | None =>
               match computation rt env t d st with
               | (Ok payload, st') => (Ok (dict_set (step_key t) payload results), st')
               | (Raise e, st') => (Raise e, st')
               end
           end)
  /\ (forall step results st,
         match step with PStr _ | PDict _ => False | _ => True end ->
         execute_step rt env step results st
         = (Raise (AttributeError "object has no attribute 'get'"), st))
  /\ (forall step rest results st r st1,
         execute_step rt env step results st = (Ok r, st1) ->
         execute_steps rt env (step :: rest) results st = execute_steps rt env rest r st1)
  /\ (forall before step rest results st r st1 e st2 intent,
         execute_steps rt env before results st = (Ok r, st1) ->
         execute_step rt env step r st1 = (Raise e, st2) ->
         execute_steps rt env (before ++ step :: rest) results st = (Raise e, st2)
         /\ (results = [] ->
             execute rt env (make_plan intent (before ++ step :: rest)) st = (Raise e, st2))).
Proof.
  repeat split.
  - intros intent steps st H.
    rewrite execute_plan, execute_steps_skipped by exact H. reflexivity.
  - intros. now apply execute_step_skipped.
  - intros. now apply execute_step_recognized.
  - intros step results st H. destruct step; try contradiction; reflexivity.
  - intros step rest results st r st1 H. simpl. now apply bind_ok.
  - rewrite execute_steps_app, H. simpl. now apply bind_raise.
  - intros ->. rewrite execute_plan, execute_steps_app, H. simpl.
    erewrite bind_raise; [reflexivity | eassumption].
Qed.

(** C1, as stated, fails.  A step of a recognized type that lacks an entry
    makes [execute] raise [KeyError]; and with a rainfall resource configured
    but no API key, the rainfall computation raises [RuntimeError], which
    comes out of [execute] before the sibling step is run. *)
Lemma execute_raises :
  fst (execute digits_runtime (offline no_config)
         (make_plan PNone [PDict [("type", PStr "compute_top_crops_state")]]) empty_store)
  = Raise (KeyError "state")
  /\ fst (execute digits_runtime (offline keyless_config)
            (make_plan PNone [PDict rainfall_step; PDict top_crops_state_step])
            no_production_store)
     = Raise (RuntimeError "DATA_GOV_IN_API_KEY not set or is placeholder. Create .env with DATA_GOV_IN_API_KEY=<your_key>.").
Proof. split; reflexivity. Qed.

(** ** C10: a table without a production column *)

(** C10.  [_compute_top_crops_state] takes ["Production"] for the production
    role when no production candidate names a column.  So when the table the
    preference chain settles on (never an empty one) has a state, a crop and
    a year column and no production column, the long-format branch is entered
    and the coercion of the absent column raises [KeyError]; and [execute],
    reaching such a step, raises it too. *)
Theorem missing_production_escapes_execute rt env st df o d intent rest state top_n years :
  fst (top_crops_state_table env st) = Ok (df, o) ->
  df_empty df = false ->
  find_col state_candidates (columns df) <> None ->
  find_col crop_candidates (columns df) <> None ->
  find_col (year_candidates ++ ["_year"]) (columns df) <> None ->
  find_col production_candidates (columns df) = None ->
  dict_get "type" d = Some (PStr "compute_top_crops_state") ->
  dict_get "state" d = Some state ->
  dict_get "top_n" d = Some top_n ->
  dict_get "years" d = Some years ->
  or_default (find_col production_candidates (columns df)) "Production" = "Production"
  /\ _compute_top_crops_state rt env state top_n years st
     = (Raise (KeyError "Production"), st)
  /\ execute rt env (make_plan intent (PDict d :: rest)) st
     = (Raise (KeyError "Production"), st).
Proof.
  intros Ht He Hs Hc Hy Hp Hty Hst Htn Hyr.
  assert (R : _compute_top_crops_state rt env state top_n years st
              = (Raise (KeyError "Production"), st))
    by (now apply top_crops_state_no_production with (df := df) (o := o)).
  split; [now rewrite Hp|]. split; [exact R|].
  rewrite execute_plan. cbn [execute_steps].
  erewrite bind_raise; [reflexivity|].
  rewrite execute_step_recognized with (t := "compute_top_crops_state");
    [|exact Hty|simpl; tauto].
  unfold first_missing, computation, get_or_none. simpl.
  rewrite Hst, Htn, Hyr, R. reflexivity.
Qed.

Lemma missing_production_escapes_execute_witness :
  or_default (find_col production_candidates (columns no_production_table)) "Production"
  = "Production"
  /\ _compute_top_crops_state digits_runtime (offline no_config)
       (PStr "punjab") (PInt 5) (PInt 5) no_production_store
     = (Raise (KeyError "Production"), no_production_store)
  /\ execute digits_runtime (offline no_config)
       (make_plan (PStr "top_crops_state") [PDict top_crops_state_step]) no_production_store
     = (Raise (KeyError "Production"), no_production_store).
Proof.
  apply (missing_production_escapes_execute digits_runtime (offline no_config)
           no_production_store no_production_table (Stored district_dataset)
           top_crops_state_step (PStr "top_crops_state") [] (PStr "punjab") (PInt 5) (PInt 5));
    try reflexivity; vm_compute; discriminate.
Defined.

(** ** C2 and C3: what the parser hands to the planner *)

Lemma call_normalize_out_of_scope (state : string) :
  call_normalize_state_name (keywords_locals ++ module_names) state
  = Raise (NameError "name 'normalize_state_name' is not defined").
Proof. reflexivity. Qed.

Ltac break_any :=
  match goal with
  | H : context [match ?x with _ => _ end] |- _ => destruct x eqn:?
  end.

Ltac invert_results :=
  repeat match goal with
         | H : Some _ = Some _ |- _ => inversion H; clear H; subst
         | H : Ok _ = Ok _ |- _ => inversion H; clear H; subst
         end.

(** The keyword extractor returns a rainfall comparison or a top-crops
    intent, or raises: its district branch never returns. *)
Lemma parse_with_keywords_intents (question : string) (available : pyval) (parsed : pydict) :
  _parse_with_keywords question available = Ok parsed ->
  (exists s1 s2 y,
      parsed = [("intent", PStr "rainfall_compare"); ("state1", PStr s1);
                ("state2", PStr s2); ("years", PInt y)])
  \/ (exists s n y,
         parsed = [("intent", PStr "top_crops_state"); ("state", PStr s);
                   ("top_n", PInt n); ("years", PInt y)]).
Proof.
  unfold _parse_with_keywords. intro H.
  repeat rewrite call_normalize_out_of_scope in H.
  cbn [ebind] in H.
  repeat (break_any; try discriminate).
  all: invert_results.
  all: eauto 10.
Qed.

Ltac planned_two :=
  let H := fresh in
  intro H; cbn in H; try discriminate H;
  eexists _, _; repeat split; reflexivity.

Ltac planned_one :=
  let H1 := fresh in
  let H2 := fresh in
  intros H1 H2; cbn in H1, H2;
  first [now elim H1 | eexists; split; [reflexivity|cbn; tauto]].

Ltac planned_none :=
  let H := fresh in intro H; cbn in H; discriminate H.

Ltac planned_steps :=
  eexists; split; [reflexivity|];
  split; [cbn; tauto|];
  split; [planned_two|];
  split; [planned_one|planned_none].

Lemma planned_patterns rt env (question : string) (parsed : pydict) :
  parse_with_patterns question = Some parsed -> planned rt env parsed.
Proof.
  unfold parse_with_patterns. intro H.
  repeat (break_any; try discriminate).
  all: inversion H; subst; clear H.
  all: planned_steps.
Qed.

Lemma planned_unknown rt env (question : string) (available : pyval) :
  planned rt env (unknown_intent question available).
Proof.
  eexists; split; [reflexivity|]. split; [cbn; tauto|].
  split; [intro; discriminate|]. split; [intros _ H; now elim H|].
  intros _. split; [reflexivity|].
  intro st. rewrite execute_plan, execute_steps_skipped by reflexivity. reflexivity.
Qed.

(** C2, as amended.  For the dict the parser returns for any question, the
    planner builds a plan that carries the intent; the plan holds exactly two
    steps (rainfall compare, then top crops) when the intent is
    [rainfall_vs_top_crops], exactly one step for every other recognized
    intent, and for the unknown intent not an empty plan but one step, the
    bare string [demo-step], which the executor passes over: it runs the plan
    without error and the answer data is empty. *)
Theorem plan_step_count rt env (question : string) (available : pyval) :
  let parsed := parse_query question available in
  exists steps,
    plan_of parsed = Ok (make_plan (PStr (intent_name parsed)) steps)
    /\ In (intent_name parsed) intents
    /\ (intent_name parsed = "rainfall_vs_top_crops" ->
        exists s1 s2,
          steps = [PDict s1; PDict s2]
          /\ dict_get "type" s1 = Some (PStr "compute_rainfall_compare")
          /\ dict_get "type" s2 = Some (PStr "compute_top_crops"))
    /\ (intent_name parsed <> "rainfall_vs_top_crops" ->
        intent_name parsed <> "unknown" ->
        exists s1, steps = [PDict s1]
                   /\ In (dict_get "type" s1) (map (fun t => Some (PStr t)) step_types))
    /\ (intent_name parsed = "unknown" ->
        steps = [PStr "demo-step"]
        /\ forall st,
            execute rt env (make_plan (PStr "unknown") steps) st
            = (Ok (response (make_plan (PStr "unknown") steps) []), st)).
Proof.
  cbv zeta. change (planned rt env (parse_query question available)).
  unfold parse_query.
  destruct (parse_with_patterns question) as [parsed|] eqn:E.
  - now apply planned_patterns with (question := question).
  - destruct (_parse_with_keywords question available) as [parsed|e] eqn:K.
    + destruct (parse_with_keywords_intents _ _ _ K)
        as [(s1 & s2 & y & ->) | (s & n & y & ->)]; planned_steps.
    + apply planned_unknown.
Qed.

(** C2, as stated, fails for the unknown intent: the plan built for an
    unrecognized question is not empty, it holds one step. *)
Lemma unknown_plan_not_empty :
  intent_name (parse_query "hello" PNone) = "unknown"
  /\ plan_of (parse_query "hello" PNone)
     = Ok (make_plan (PStr "unknown") [PStr "demo-step"])
  /\ [PStr "demo-step"] <> [].
Proof. split; [reflexivity|]. split; [reflexivity|]. discriminate. Qed.

(** C3.  The keyword extractor finds the district keywords, a known state,
    a known crop and a year in a question that no pattern matches, and yet
    [parse_query] returns the unknown intent: the extractor calls
    [normalize_state_name], a name local to [parse_query], and the
    [NameError] is caught as a failure to parse.  The same happens without a
    year, where [district_crop_comparison] was to be returned. *)
Theorem district_keywords_yield_unknown :
  parse_with_patterns district_question = None
  /\ positions district_states (lower district_question) = [(24, "punjab")]
  /\ positions crops (lower district_question) = [(48, "wheat")]
  /\ option_map (group "1") (search calendar_year_pattern district_question) = Some "2020"
  /\ _parse_with_keywords district_question PNone
     = Raise (NameError "name 'normalize_state_name' is not defined")
  /\ parse_query district_question PNone = unknown_intent district_question PNone
  /\ parse_with_patterns district_question_no_year = None
  /\ positions district_states (lower district_question_no_year) = [(3, "punjab")]
  /\ positions crops (lower district_question_no_year) = [(38, "wheat")]
  /\ parse_query district_question_no_year PNone
     = unknown_intent district_question_no_year PNone.
Proof. repeat split; vm_compute; reflexivity. Qed.

(** No question reaches a district intent through the keyword extractor. *)
Lemma keywords_never_reach_district (question : string) (available : pyval) :
  parse_with_patterns question = None ->
  In (intent_name (parse_query question available))
     ["rainfall_compare"; "top_crops_state"; "unknown"].
Proof.
  intro H. unfold parse_query. rewrite H.
  destruct (_parse_with_keywords question available) as [parsed|e] eqn:K.
  - destruct (parse_with_keywords_intents _ _ _ K)
      as [(s1 & s2 & y & ->) | (s & n & y & ->)]; cbn; tauto.
  - cbn. tauto.
Qed.

(** ** C4, C5, C7: the window of recent years at [years = 0] *)

(** C4 at [years = 0].  The parser reads a year count of 0 from a question,
    and the rainfall comparison then selects not the 0 most recent years but
    every year of the table, 2018 to 2022, and averages over all of them. *)
Theorem rainfall_window_zero_years :
  parse_query zero_years_question PNone
  = rainfall_compare_intent (PStr "Karnataka") (PStr "Kerala") (PInt 0)
  /\ fst (_compute_rainfall_compare digits_runtime rainfall_env
            (PStr "Karnataka") (PStr "Kerala") (PInt 0) empty_store)
     = Ok (rainfall_answer "Karnataka" "Kerala" [2018; 2019; 2020; 2021; 2022] 1200 3140)%Z.
Proof. split; vm_compute; reflexivity. Qed.

(** The example of the specification: with [years = 3] the window is 2020 to
    2022 and the means are those of the rows of each state in it. *)
Lemma rainfall_window_three_years :
  fst (_compute_rainfall_compare digits_runtime rainfall_env
         (PStr "karnataka") (PStr "kerala") (PInt 3) empty_store)
  = Ok (rainfall_answer "karnataka" "kerala" [2020; 2021; 2022] 1300 3200)%Z.
Proof. vm_compute; reflexivity. Qed.

(** C5 at [years = 0].  The top crops of a state over the last 0 years are
    computed over every year the state has: both years of the table. *)
Theorem top_crops_state_zero_years :
  let answer := fst (_compute_top_crops_state digits_runtime (offline no_config)
                       (PStr "punjab") (PInt 2) (PInt 0) punjab_store) in
  field "year_range" answer = Some (PList [PInt 2019; PInt 2020])
  /\ field "crops" answer = Some (PList [crop_record "Wheat" 220; crop_record "Rice" 90])
  /\ field "error" answer = None.
Proof. repeat split; vm_compute; reflexivity. Qed.

(** The example of the specification: two years of Punjab, [top_n = 2],
    [years = 2]. *)
Lemma top_crops_state_example :
  fst (_compute_top_crops_state digits_runtime (offline no_config)
         (PStr "punjab") (PInt 2) (PInt 2) punjab_store)
  = Ok (PDict [("state", PStr "punjab"); ("top_n", PInt 2); ("years", PInt 2);
               ("crops", PList [crop_record "Wheat" 220; crop_record "Rice" 90]);
               ("year_range", PList [PInt 2019; PInt 2020])]).
Proof. vm_compute; reflexivity. Qed.

(** C7 at [years = 0].  The comparison across districts over the last 0 years
    covers every year of the table.  With [years = 1] the window is the last
    year of the whole table, 2021, in which Punjab has no row. *)
Theorem district_comparison_zero_years :
  let answer := fst (_compute_district_crop_comparison digits_runtime (offline no_config)
                       (PStr "punjab") (PStr "wheat") (PInt 0) district_store) in
  field "year_range" answer = Some (PList [PInt 2019; PInt 2020; PInt 2021])
  /\ field "districts" answer
     = Some (PList [district_record "Ludhiana" 220; district_record "Amritsar" 170])
  /\ field "district_by_year" answer
     = Some (PList [district_year_record "Amritsar" 2019 80;
                    district_year_record "Amritsar" 2020 90;
                    district_year_record "Ludhiana" 2019 100;
                    district_year_record "Ludhiana" 2020 120])
  /\ field "error" answer = None
  /\ field "error" (fst (_compute_district_crop_comparison digits_runtime (offline no_config)
                           (PStr "punjab") (PStr "wheat") (PInt 1) district_store))
     = Some (PStr "No data found for punjab, wheat").
Proof. repeat split; vm_compute; reflexivity. Qed.

(** ** C8: the state-level fallback on a table of strings *)

(** C8 on a major-crops table whose cells are text.  The table has two rows
    for Punjab, wheat and 2020, with productions 100 and 200.  The fallback
    filters before it coerces: on the first request no row matches the year
    and the error payload is returned; the request has coerced the stored
    year column, so the second request finds the rows and returns as their
    total the number read from the two productions joined as text; the third
    returns their sum. *)
Theorem fallback_on_text_table :
  let run := _compute_district_highest_crop_year digits_runtime (offline no_config)
               (PStr "punjab") (PStr "wheat") (PInt 2020) in
  let first := run text_store in
  let second := run (snd first) in
  let third := run (snd second) in
  field "error" (fst first)
  = Some (PStr "District crop production dataset not available. Resource ID: not configured")
  /\ field "total_production" (fst first) = None
  /\ field "total_production" (fst second) = Some (fnum 100200)
  /\ field "total_production" (fst third) = Some (fnum 300).
Proof. repeat split; vm_compute; reflexivity. Qed.

(** ** C9: the payloads of the computations *)

Ltac break_in H :=
  match type of H with
  | context [match ?x with _ => _ end] => destruct x eqn:?
  end.

Ltac run_to_end H :=
  unfold bind, lift, ret, commit, read_dataset, try_except in H;
  repeat (first [discriminate H | break_in H]).

Ltac as_str_inv :=
  repeat match goal with
         | E : as_str ?v = Ok _ |- _ =>
             destruct v; try discriminate E; inversion E; clear E; subst
         end.

Ltac error_payload := left; cbn; discriminate.

Lemma rainfall_compare_payload rt env state1 state2 years st payload st' :
  _compute_rainfall_compare rt env state1 state2 years st = (Ok payload, st') ->
  exists m, payload = PDict m /\
    (dict_get "error" m <> None
     \/ m = [("note", PStr "No rainfall dataset configured")]
     \/ exists s1 s2 e1 e2,
          state1 = PStr s1 /\ state2 = PStr s2 /\ m = dict_set s2 e2 [(s1, e1)]).
Proof.
  unfold _compute_rainfall_compare. intro H.
  run_to_end H.
  all: inversion H; subst; clear H.
  all: eexists; split; [reflexivity|].
  all: try error_payload.
  all: try (right; left; reflexivity).
  as_str_inv. right; right. eexists _, _, _, _. repeat split; reflexivity.
Qed.

Lemma top_crops_payload rt env state1 state2 top_m crop_type st payload st' :
  _compute_top_crops rt env state1 state2 top_m crop_type st = (Ok payload, st') ->
  exists m, payload = PDict m /\
    (dict_get "error" m <> None
     \/ m = [("note", PStr "Crop production dataset empty")]
     \/ exists s1 s2 e1 e2,
          state1 = PStr s1 /\ state2 = PStr s2 /\ m = dict_set s2 e2 [(s1, e1)]).
Proof.
  unfold _compute_top_crops. intro H.
  run_to_end H.
  all: inversion H; subst; clear H.
  all: eexists; split; [reflexivity|].
  all: try error_payload.
  all: try (right; left; reflexivity).
  unfold top_crops_entry, ebind in *.
  repeat match goal with
         | E : match ?x with _ => _ end = Ok _ |- _ => destruct x eqn:?; try discriminate E
         end.
  all: as_str_inv.
  all: repeat match goal with E : Ok _ = Ok _ |- _ => inversion E; clear E; subst end.
  all: right; right; eexists _, _, _, _; repeat split; reflexivity.
Qed.

Lemma district_crop_extrema_payload rt env state_max crop_max state_min crop_min st payload st' :
  _compute_district_crop_extrema rt env state_max crop_max state_min crop_min st
  = (Ok payload, st') ->
  exists m, payload = PDict m /\
    (dict_get "error" m <> None \/ dict_keys m = ["max"; "min"]).
Proof.
  unfold _compute_district_crop_extrema. intro H.
  run_to_end H.
  all: inversion H; subst; clear H.
  all: eexists; split; [reflexivity|].
  all: try error_payload.
  all: right; reflexivity.
Qed.

Lemma district_crop_comparison_payload rt env state crop years st payload st' :
  _compute_district_crop_comparison rt env state crop years st = (Ok payload, st') ->
  exists m, payload = PDict m /\
    (dict_get "error" m <> None
     \/ dict_keys m = ["state"; "crop"; "years"; "year_range"; "districts";
                       "district_by_year"]).
Proof.
  unfold _compute_district_crop_comparison. intro H.
  run_to_end H.
  all: inversion H; subst; clear H.
  all: eexists; split; [reflexivity|].
  all: try error_payload.
  all: right; reflexivity.
Qed.

Lemma fallback_shape rt env state crop year st fb st' :
  _try_state_level_fallback rt env state crop year st = (Ok (Some fb), st') ->
  exists total,
    fb = [("state", state); ("crop", crop); ("year", year);
          ("total_production", PFloat total); ("note", PStr fallback_note)].
Proof.
  unfold _try_state_level_fallback, try_except. intro H.
  match type of H with
  | match ?m st with _ => _ end = _ => destruct (m st) as [[r|e] st1] eqn:B
  end; [|discriminate H].
  inversion H; subst; clear H.
  run_to_end B.
  all: inversion B; subst; clear B.
  all: eexists; reflexivity.
Qed.

Lemma fallback_never_raises rt env state crop year st :
  exists r st', _try_state_level_fallback rt env state crop year st = (Ok r, st').
Proof.
  unfold _try_state_level_fallback, try_except.
  match goal with |- context [match ?m st with _ => _ end] => destruct (m st) as [[r|e] st'] end;
    eexists _, _; reflexivity.
Qed.

Lemma district_highest_payload rt env state crop year st payload st' :
  _compute_district_highest_crop_year rt env state crop year st = (Ok payload, st') ->
  exists m, payload = PDict m /\
    (dict_get "error" m <> None
     \/ dict_keys m = ["state"; "crop"; "year"; "district"; "production"]
     \/ dict_keys m = ["state"; "crop"; "year"; "total_production"; "note"; "warning";
                       "suggestion"]).
Proof.
  unfold _compute_district_highest_crop_year. intro H.
  unfold bind at 1 in H.
  destruct (_load_district_crop_production env st) as [[[df o]|e] st1]; [|discriminate].
  destruct (df_empty df).
  - unfold bind at 1 in H.
    destruct (_try_state_level_fallback rt env state crop year st1) as [[[fb|]|e] st2] eqn:F;
      [| |discriminate].
    + destruct (fallback_shape _ _ _ _ _ _ _ _ F) as [total ->].
      cbn in H. inversion H; subst; clear H.
      eexists; split; [reflexivity|]. right; right; reflexivity.
    + run_to_end H. inversion H; subst; clear H.
      eexists; split; [reflexivity|]. error_payload.
  - run_to_end H.
    all: inversion H; subst; clear H.
    all: eexists; split; [reflexivity|].
    all: try error_payload.
    all: right; left; reflexivity.
Qed.

Lemma top_crops_state_payload rt env state top_n years st payload st' :
  _compute_top_crops_state rt env state top_n years st = (Ok payload, st') ->
  payload <> PNone ->
  exists m, payload = PDict m /\
    (dict_get "error" m <> None
     \/ dict_keys m = ["state"; "top_n"; "years"; "crops"; "year_range"]
     \/ dict_keys m = ["state"; "top_n"; "years"; "crops"; "year_range"; "debug_info"]).
Proof.
  unfold _compute_top_crops_state, top_crops_state_long, top_crops_state_wide.
  intros H Hn.
  run_to_end H.
  all: inversion H; subst; clear H.
  all: try (now elim Hn).
  all: eexists; split; [reflexivity|].
  all: try error_payload.
  all: try (right; left; reflexivity).
  all: right; right; reflexivity.
Qed.

Lemma computation_payload rt env t d st payload st' :
  In t step_types ->
  computation rt env t d st = (Ok payload, st') ->
  (t <> "compute_top_crops_state" -> payload <> PNone)
  /\ (payload <> PNone ->
      exists m, payload = PDict m
                /\ (dict_get "error" m <> None \/ note_payload t m \/ success_payload t d m)).
Proof.
  intros Hin H. simpl in Hin.
  repeat (destruct Hin as [<- | Hin]); try contradiction.
  all: unfold computation in H; cbn [String.eqb Ascii.eqb Bool.eqb] in H.
  - apply rainfall_compare_payload in H.
    destruct H as (m & -> & [E | [N | S]]); (split; [discriminate|]); intros _;
      exists m; (split; [reflexivity|]); unfold note_payload, success_payload; tauto.
  - apply top_crops_payload in H.
    destruct H as (m & -> & [E | [N | S]]); (split; [discriminate|]); intros _;
      exists m; (split; [reflexivity|]); unfold note_payload, success_payload; tauto.
  - apply district_crop_extrema_payload in H.
    destruct H as (m & -> & [E | S]); (split; [discriminate|]); intros _;
      exists m; (split; [reflexivity|]); unfold success_payload; tauto.
  - split; [intro C; now elim C|]. intro Hn.
    destruct (top_crops_state_payload _ _ _ _ _ _ _ _ H Hn) as (m & -> & [E | S]);
      exists m; (split; [reflexivity|]); unfold success_payload; tauto.
  - apply district_highest_payload in H.
    destruct H as (m & -> & [E | S]); (split; [discriminate|]); intros _;
      exists m; (split; [reflexivity|]); unfold success_payload; tauto.
  - apply district_crop_comparison_payload in H.
    destruct H as (m & -> & [E | S]); (split; [discriminate|]); intros _;
      exists m; (split; [reflexivity|]); unfold success_payload; tauto.
Qed.

(** C9, as amended.  When [execute] runs a step of one of the six types and
    the step returns, the value stored under the step's key is the value its
    computation returned.  That value is a mapping of one of three kinds: an
    error payload, which carries an [error] field; the note that the rainfall
    comparison and the top-crops comparison return for an empty table; or the
    success payload of the computation, with its fields.  No computation
    other than [_compute_top_crops_state] returns [None]; of the [None] that
    [_compute_top_crops_state] can return nothing is said. *)
Theorem stored_payload_shape rt env d t results st results' st' :
  dict_get "type" d = Some (PStr t) ->
  In t step_types ->
  execute_step rt env (PDict d) results st = (Ok results', st') ->
  exists payload,
    computation rt env t d st = (Ok payload, st')
    /\ results' = dict_set (step_key t) payload results
    /\ (t <> "compute_top_crops_state" -> payload <> PNone)
    /\ (payload <> PNone ->
        exists m, payload = PDict m
                  /\ (dict_get "error" m <> None \/ note_payload t m
                      \/ success_payload t d m)).
Proof.
  intros Ht Hin H.
  rewrite (execute_step_recognized rt env d t results st Ht Hin) in H.
  destruct (first_missing (step_args t) d); [discriminate|].
  destruct (computation rt env t d st) as [[payload|e] st1] eqn:C; [|discriminate].
  inversion H; subst; clear H.
  exists payload. split; [reflexivity|]. split; [reflexivity|].
  now apply computation_payload with (rt := rt) (env := env) (st := st) (st' := st').
Qed.

Lemma stored_payload_shape_witness :
  exists payload,
    computation digits_runtime (offline no_config) "compute_top_crops_state"
      punjab_step punjab_store
    = (Ok payload, punjab_store)
    /\ [("top_crops_state", punjab_answer)]
       = dict_set (step_key "compute_top_crops_state") payload []
    /\ ("compute_top_crops_state" <> "compute_top_crops_state" -> payload <> PNone)
    /\ (payload <> PNone ->
        exists m, payload = PDict m
                  /\ (dict_get "error" m <> None
                      \/ note_payload "compute_top_crops_state" m
                      \/ success_payload "compute_top_crops_state" punjab_step m)).
Proof.
  apply (stored_payload_shape digits_runtime (offline no_config) punjab_step
           "compute_top_crops_state" [] punjab_store
           [("top_crops_state", punjab_answer)] punjab_store);
    [reflexivity | simpl; tauto | vm_compute; reflexivity].
Defined.

(** C9, as stated, fails.  With no rainfall resource configured the payload
    stored for a rainfall comparison is a note: it carries no [error] field
    and no entry for either state.  And for a table with a state column, a
    column per crop and no year column, the payload stored for the top crops
    of the state is [None]. *)
Lemma stored_payload_note_and_none :
  fst (execute digits_runtime (offline no_config)
         (make_plan PNone [PDict rainfall_step]) empty_store)
  = Ok (response (make_plan PNone [PDict rainfall_step])
          [("rainfall_compare", PDict [("note", PStr "No rainfall dataset configured")])])
  /\ dict_get "error" [("note", PStr "No rainfall dataset configured")] = None
  /\ dict_get "Punjab" [("note", PStr "No rainfall dataset configured")] = None
  /\ dict_get "Kerala" [("note", PStr "No rainfall dataset configured")] = None
  /\ fst (execute digits_runtime (offline no_config)
            (make_plan PNone [PDict top_crops_state_step]) layoutless_store)
     = Ok (response (make_plan PNone [PDict top_crops_state_step])
             [("top_crops_state", PNone)]).
Proof. repeat split; vm_compute; reflexivity. Qed.

(** ** Sorting, distinct values, and the tail of a list *)

Section SortFacts.
Context {A : Type} (le : A -> A -> bool).

Lemma insert_sorted_perm (x : A) (l : list A) : Permutation (x :: l) (insert_sorted le x l).
Proof.
  induction l as [|y t IH]; simpl.
  - apply Permutation_refl.
  - destruct (le x y).
    + apply Permutation_refl.
    + apply perm_trans with (y :: x :: t); [apply perm_swap|].
      now apply perm_skip.
Qed.

Lemma sort_by_perm (l : list A) : Permutation l (sort_by le l).
Proof.
  induction l as [|x t IH]; simpl.
  - apply perm_nil.
  - apply perm_trans with (x :: sort_by le t); [now apply perm_skip|].
    apply insert_sorted_perm.
Qed.

Lemma sort_by_in (l : list A) (x : A) : In x (sort_by le l) <-> In x l.
Proof.
  split; intro H.
  - eapply Permutation_in; [apply Permutation_sym, sort_by_perm | exact H].
  - eapply Permutation_in; [apply sort_by_perm | exact H].
Qed.

Lemma sort_by_length (l : list A) : List.length (sort_by le l) = List.length l.
Proof. symmetry. apply Permutation_length, sort_by_perm. Qed.

Hypothesis le_total : forall x y, le x y = false -> le y x = true.
Hypothesis le_trans : forall x y z, le x y = true -> le y z = true -> le x z = true.


End SortFacts.

Section DedupFacts.
Context {A : Type} (eqb : A -> A -> bool).

Lemma dedup_by_in (l : list A) (x : A) : In x (dedup_by eqb l) -> In x l.
Proof.
  induction l as [|y t IH]; simpl; [tauto|].
  intros [<- | H]; [now left|].
  apply filter_In in H. right. now apply IH.
Qed.

Hypothesis eqb_refl : forall x, eqb x x = true.
Hypothesis eqb_sym : forall x y, eqb x y = eqb y x.
Hypothesis eqb_trans : forall x y z, eqb x y = true -> eqb y z = true -> eqb x z = true.

(** Every element has a representative among the distinct ones. *)
Lemma dedup_by_covers (l : list A) (x : A) :
  In x l -> exists y, In y (dedup_by eqb l) /\ eqb y x = true.
Proof.
  induction l as [|a t IH]; simpl; [tauto|].
  intros [<- | H].
  - exists a. split; [now left | apply eqb_refl].
  - destruct (IH H) as (y & Hy & Hyx).
    destruct (eqb a y) eqn:E.
    + exists a. split; [now left | now apply eqb_trans with y].
    + exists y. split; [|exact Hyx].
      right. apply filter_In. split; [exact Hy | now rewrite E].
Qed.

(** The distinct elements are pairwise different. *)
Lemma dedup_by_distinct (l : list A) :
  ForallOrdPairs (fun a b => eqb a b = false) (dedup_by eqb l).
Proof.
  induction l as [|a t IH]; simpl.
  - constructor.
  - constructor.
    + rewrite Forall_forall. intros y Hy. apply filter_In in Hy.
      now apply negb_true_iff.
    + clear - IH. induction IH as [|b r Hb _ IHr]; simpl.
      * constructor.
      * destruct (negb (eqb a b)); [|exact IHr].
        constructor; [|exact IHr].
        rewrite Forall_forall in *. intros y Hy. apply filter_In in Hy. now apply Hb.
Qed.
End DedupFacts.

(** ** Years as rationals *)




Lemma Qeq_bool_false (x y : Q) : Qeq_bool x y = false -> ~ Qeq x y.
Proof. intros H C. apply Qeq_bool_iff in C. congruence. Qed.

Lemma insert_sorted_strict (x : Q) (l : list Q) :
  StronglySorted Qlt l ->
  Forall (fun y => Qeq_bool x y = false) l ->
  StronglySorted Qlt (insert_sorted Qle_bool x l).
Proof.
  induction l as [|y t IH]; simpl; intros S D.
  - constructor; constructor.
  - inversion S as [|? ? St Hy]; subst.
    inversion D as [|? ? Dy Dt]; subst.
    apply Qeq_bool_false in Dy.
    destruct (Qle_bool x y) eqn:E.
    + assert (Hxy : Qlt x y).
      { apply Qle_bool_iff in E. apply Qle_lt_or_eq in E. tauto. }
      constructor; [exact S|].
      constructor; [exact Hxy|].
      rewrite Forall_forall in *. intros z Hz. apply Qlt_trans with y; auto.
    + assert (Hyx : Qlt y x).
      { apply Qnot_le_lt. intro C. apply Qle_bool_iff in C. congruence. }
      constructor; [now apply IH|].
      rewrite Forall_forall in *. intros z Hz.
      apply (Permutation_in _ (Permutation_sym (insert_sorted_perm Qle_bool x t))) in Hz.
      destruct Hz as [<- | Hz]; [exact Hyx | now apply Hy].
Qed.

Lemma sort_distinct_strict (l : list Q) :
  ForallOrdPairs (fun a b => Qeq_bool a b = false) l ->
  StronglySorted Qlt (sort_by Qle_bool l).
Proof.
  induction 1 as [|x t Hx _ IH]; simpl.
  - constructor.
  - apply insert_sorted_strict; [exact IH|].
    rewrite Forall_forall in *. intros y Hy. apply Hx. now apply sort_by_in in Hy.
Qed.

(** The distinct year values of a column, in ascending order. *)
Lemma sorted_unique_strict (cs : list cell) : StronglySorted Qlt (sorted_unique cs).
Proof.
  unfold sorted_unique, unique_nums. apply sort_distinct_strict.
  apply dedup_by_distinct.
Qed.

Lemma sorted_unique_in (cs : list cell) (y : Q) : In y (sorted_unique cs) -> In y (nums cs).
Proof.
  unfold sorted_unique, unique_nums. intro H.
  apply sort_by_in in H. now apply dedup_by_in in H.
Qed.

Lemma sorted_unique_covers (cs : list cell) (v : Q) :
  In v (nums cs) -> exists y, In y (sorted_unique cs) /\ Qeq v y.
Proof.
  intro H.
  destruct (dedup_by_covers Qeq_bool Qeq_bool_refl
              (fun x y z Hxy Hyz => proj2 (Qeq_bool_iff x z)
                 (Qeq_trans _ _ _ (proj1 (Qeq_bool_iff x y) Hxy)
                                  (proj1 (Qeq_bool_iff y z) Hyz)))
              (nums cs) v H) as (y & Hy & E).
  exists y. split.
  - unfold sorted_unique, unique_nums. now apply sort_by_in.
  - apply Qeq_bool_iff in E. now symmetry.
Qed.

(** ** The tail of a list *)

Lemma slice_from_tail {A} (n : Z) (l : list A) :
  (1 <= n)%Z -> slice_from (- n) l = skipn (List.length l - Z.to_nat n) l.
Proof.
  intro H. unfold slice_from.
  replace (- n <? 0)%Z with true by (symmetry; apply Z.ltb_lt; lia).
  f_equal. lia.
Qed.

Lemma slice_from_zero {A} (l : list A) : slice_from (- 0) l = l.
Proof. unfold slice_from. simpl. replace (Z.to_nat (Z.min 0 (Z.of_nat (List.length l)))) with 0 by lia. reflexivity. Qed.

Lemma sorted_app_below {A} (R : A -> A -> Prop) (a b : list A) :
  StronglySorted R (a ++ b) ->
  StronglySorted R b /\ forall x y, In x a -> In y b -> R x y.
Proof.
  induction a as [|h t IH]; simpl; intro S.
  - split; [exact S | intros x y []].
  - inversion S as [|? ? St Hh]; subst.
    destruct (IH St) as [Sb Hb]. split; [exact Sb|].
    intros x y [<- | Hx] Hy.
    + rewrite Forall_forall in Hh. apply Hh. apply in_or_app. now right.
    + now apply Hb.
Qed.

(** The window the computations take, [sorted(...)[-n:]] with [n] at least 1,
    holds the [n] most recent year values of the column. *)
Lemma recent_window_most_recent (cs : list cell) (n : Z) :
  (1 <= n)%Z ->
  most_recent (Z.to_nat n) (nums cs) (slice_from (- n) (sorted_unique cs)).
Proof.
  intro Hn. rewrite slice_from_tail by exact Hn.
  set (l := sorted_unique cs). set (k := (List.length l - Z.to_nat n)%nat).
  pose proof (sorted_unique_strict cs) as S. fold l in S.
  rewrite <- (firstn_skipn k l) in S.
  destruct (sorted_app_below _ _ _ S) as [Sw Hbelow].
  assert (Hin : forall w, In w (skipn k l) -> In w l).
  { intros w Hw. rewrite <- (firstn_skipn k l). apply in_or_app. now right. }
  repeat split.
  - exact Sw.
  - intros w Hw. apply sorted_unique_in. now apply Hin.
  - rewrite length_skipn. unfold k.
    destruct (Nat.le_gt_cases (Z.to_nat n) (List.length l)) as [Hle | Hgt].
    + left. lia.
    + right. split; [lia|].
      intros v Hv. destruct (sorted_unique_covers cs v Hv) as (y & Hy & E).
      exists y. split; [|exact E].
      replace (List.length l - Z.to_nat n)%nat with 0%nat by lia. exact Hy.
  - intros v w Hv Hw Hout.
    destruct (sorted_unique_covers cs v Hv) as (y & Hy & E).
    fold l in Hy. rewrite <- (firstn_skipn k l) in Hy.
    apply in_app_or in Hy. destruct Hy as [Hy | Hy].
    + rewrite E. now apply Hbelow.
    + exfalso. now apply (Hout y).
Qed.

(** ** Dicts and columns *)

Lemma dict_get_set_same {V} (k : string) (v : V) (d : list (string * V)) :
  dict_get k (dict_set k v d) = Some v.
Proof.
  induction d as [|[k' v'] t IH]; simpl.
  - now rewrite String.eqb_refl.
  - destruct (String.eqb k k') eqn:E; simpl; rewrite ?E, ?String.eqb_refl; auto.
Qed.

Lemma dict_get_set_other {V} (k k' : string) (v : V) (d : list (string * V)) :
  k <> k' -> dict_get k (dict_set k' v d) = dict_get k d.
Proof.
  intro H. apply String.eqb_neq in H.
  induction d as [|[k'' v''] t IH]; simpl.
  - now rewrite H.
  - destruct (String.eqb k' k'') eqn:E; simpl.
    + apply String.eqb_eq in E. subst k''. now rewrite H.
    + destruct (String.eqb k k''); auto.
Qed.

Lemma col_coerce_other rt (c c' : string) (df : DataFrame) :
  c <> c' -> col c (coerce_col rt c' df) = col c df.
Proof.
  intro H. unfold col, coerce_col, df_assign. simpl.
  rewrite map_map. apply map_ext. intro r.
  unfold row_get. now rewrite dict_get_set_other.
Qed.

Lemma rows_coerce rt (c : string) (df : DataFrame) :
  rows (coerce_col rt c df) = map (fun r => dict_set c (to_numeric rt (row_get c r)) r) (rows df).
Proof. reflexivity. Qed.

Lemma find_col_lower_in (candidates cols : list string) (r : string) :
  find_col candidates cols = Some r -> In (lower r) (map lower candidates).
Proof.
  intro H.
  pose proof (find_col_cases candidates cols) as S.
  destruct (exact_candidate candidates cols) as [c|] eqn:E.
  - rewrite S in H. inversion H; subst r.
    apply find_some in E. apply in_map. tauto.
  - destruct (ci_candidate candidates cols) as [c|] eqn:E2.
    + destruct S as (x & Hx & b & a & _ & Hl & _).
      rewrite Hx in H. inversion H; subst r. rewrite Hl.
      apply find_some in E2. apply in_map. tauto.
    + congruence.
Qed.

(** Two roles whose candidates differ in every letter case resolve to
    different columns. *)
Lemma find_col_distinct (c1 c2 cols : list string) (r1 r2 : string) :
  (forall x, In x (map lower c1) -> In x (map lower c2) -> False) ->
  find_col c1 cols = Some r1 -> find_col c2 cols = Some r2 -> r1 <> r2.
Proof.
  intros D H1 H2 E. subst r2.
  apply find_col_lower_in in H1. apply find_col_lower_in in H2.
  exact (D _ H1 H2).
Qed.

Ltac disjoint_candidates :=
  let x := fresh in
  let H1 := fresh in
  let H2 := fresh in
  intros x H1 H2; simpl in H1, H2;
  repeat (destruct H1 as [H1 | H1]; [subst x; clear - H2;
            repeat (destruct H2 as [H2 | H2]; [discriminate H2|]); exact H2|]);
  exact H1.

Lemma filter_filter {A} (p q : A -> bool) (l : list A) :
  filter p (filter q l) = filter (fun x => p x && q x) l.
Proof.
  induction l as [|x t IH]; simpl; [reflexivity|].
  destruct (q x); simpl; rewrite ?andb_true_r, ?andb_false_r.
  - destruct (p x); now rewrite IH.
  - exact IH.
Qed.

Lemma series_mean_reports (cs : list cell) :
  reports_mean (nums cs) (PFloat (series_mean cs)).
Proof.
  unfold reports_mean, series_mean.
  destruct (nums cs) as [|q t]; [reflexivity|].
  eexists. split; [reflexivity|]. apply Qred_correct.
Qed.

(** ** The rainfall comparison for a count of years of at least 1 *)

Lemma rainfall_entry_reports (sc yc ac s : string) (window : list Q) (table : DataFrame) :
  columns table <> [] ->
  reports_rainfall sc yc ac s window table
    (rainfall_entry sc ac window
       (df_filter (fun r => isin (row_get yc r) window) table) s).
Proof.
  intro Hc. unfold reports_rainfall, rainfall_entry, state_rows, rainfall_rows.
  eexists. split; [reflexivity|].
  unfold df_filter, df_empty, col. simpl.
  rewrite filter_filter.
  destruct (columns table) as [|c0 cs]; [congruence|].
  destruct (filter _ (rows table)) as [|r rs] eqn:F; simpl; [reflexivity|].
  apply (series_mean_reports (map (row_get ac) (r :: rs))).
Qed.

Lemma df_empty_columns (df : DataFrame) : df_empty df = false -> columns df <> [].
Proof. unfold df_empty. destruct (columns df); [discriminate | discriminate]. Qed.

Lemma coerce_col_columns rt (c : string) (df : DataFrame) :
  columns df <> [] -> columns (coerce_col rt c df) <> [].
Proof.
  unfold coerce_col, df_assign. simpl. intro H.
  destruct (has_col c df); [exact H|].
  destruct (columns df); [congruence | discriminate].
Qed.

Lemma rainfall_candidates_nonempty :
  Forall (fun c => c <> "") state_col_candidates
  /\ Forall (fun c => c <> "") year_col_candidates
  /\ Forall (fun c => c <> "") annual_col_candidates.
Proof. repeat split; nonempty_list. Qed.

(** The rainfall comparison, for state names that [re] reads literally and a
    count of years of at least 1, on a rainfall table that is loaded, not
    empty, with its three roles resolved and text in its state column: the
    window holds the [n] most recent distinct year values of the table, and
    each state is reported with the window and the arithmetic mean of its
    annual rainfall over its rows in the window, [None] when it has no such
    row. *)
Theorem rainfall_compare_recent_years rt env st df sc yc ac s1 s2 n :
  _load_rainfall env = Ok df ->
  df_empty df = false ->
  pick state_col_candidates (columns df) = Some sc ->
  pick year_col_candidates (columns df) = Some yc ->
  pick annual_col_candidates (columns df) = Some ac ->
  numeric_column (col sc df) = false ->
  regex_literal s1 = true ->
  regex_literal s2 = true ->
  (1 <= n)%Z ->
  let table := coerce_col rt ac (coerce_col rt yc df) in
  exists window e1 e2,
    most_recent (Z.to_nat n) (nums (col yc table)) window
    /\ reports_rainfall sc yc ac s1 window table e1
    /\ reports_rainfall sc yc ac s2 window table e2
    /\ _compute_rainfall_compare rt env (PStr s1) (PStr s2) (PInt n) st
       = (Ok (PDict (dict_set s2 e2 [(s1, e1)])), st).
Proof.
  intros Hl He Hsc Hyc Hac Hobj _ _ Hn table.
  destruct rainfall_candidates_nonempty as (Ns & Ny & Na).
  assert (Tsc : truthy_str (Some sc) = true).
  { simpl. apply negb_true_iff, String.eqb_neq. eapply find_col_nonempty; [exact Ns | exact Hsc]. }
  assert (Tyc : truthy_str (Some yc) = true).
  { simpl. apply negb_true_iff, String.eqb_neq. eapply find_col_nonempty; [exact Ny | exact Hyc]. }
  assert (Tac : truthy_str (Some ac) = true).
  { simpl. apply negb_true_iff, String.eqb_neq. eapply find_col_nonempty; [exact Na | exact Hac]. }
  assert (Dy : sc <> yc).
  { eapply find_col_distinct; [|exact Hsc|exact Hyc]. disjoint_candidates. }
  assert (Da : sc <> ac).
  { eapply find_col_distinct; [|exact Hsc|exact Hac]. disjoint_candidates. }
  assert (Hcols : columns table <> []).
  { unfold table. now apply coerce_col_columns, coerce_col_columns, df_empty_columns. }
  set (window := slice_from (- n) (sorted_unique (col yc table))).
  exists window.
  exists (rainfall_entry sc ac window
            (df_filter (fun r => isin (row_get yc r) window) table) s1).
  exists (rainfall_entry sc ac window
            (df_filter (fun r => isin (row_get yc r) window) table) s2).
  split; [now apply recent_window_most_recent|].
  split; [now apply rainfall_entry_reports|].
  split; [now apply rainfall_entry_reports|].
  unfold _compute_rainfall_compare, bind, lift, ret.
  rewrite Hl, He, Hsc, Hyc, Hac, Tsc, Tyc, Tac. cbn [andb negb the_col as_index].
  fold table.
  assert (Hacc : str_accessor (col sc table) = Ok tt).
  { unfold str_accessor, table. rewrite !col_coerce_other by assumption. now rewrite Hobj. }
  rewrite Hacc. reflexivity.
Qed.

Lemma rainfall_compare_recent_years_witness :
  let table := coerce_col digits_runtime "ANNUAL" (coerce_col digits_runtime "YEAR" rainfall_table) in
  exists window e1 e2,
    most_recent (Z.to_nat 3) (nums (col "YEAR" table)) window
    /\ reports_rainfall "STATE" "YEAR" "ANNUAL" "karnataka" window table e1
    /\ reports_rainfall "STATE" "YEAR" "ANNUAL" "kerala" window table e2
    /\ _compute_rainfall_compare digits_runtime rainfall_env
         (PStr "karnataka") (PStr "kerala") (PInt 3) empty_store
       = (Ok (PDict (dict_set "kerala" e2 [("karnataka", e1)])), empty_store).
Proof.
  apply (rainfall_compare_recent_years digits_runtime rainfall_env empty_store
           rainfall_table "STATE" "YEAR" "ANNUAL" "karnataka" "kerala" 3);
    try reflexivity. lia.
Defined.

(** ** The district table unavailable *)

(** The highest-district request for a state given as text, when no district
    table can be loaded: the state-level fallback is attempted first and
    never raises; when it produces a summary, the answer is that summary
    returned as a degraded answer, with the warning; when it produces
    nothing, the answer is the error payload, with the five required columns
    and two alternative queries. *)
Theorem district_unavailable_flow rt env (s : string) (crop year : pyval) st df o st1 :
  _load_district_crop_production env st = (Ok (df, o), st1) ->
  df_empty df = true ->
  exists fb st2,
    _try_state_level_fallback rt env (PStr s) crop year st1 = (Ok fb, st2)
    /\ snd (_compute_district_highest_crop_year rt env (PStr s) crop year st) = st2
    /\ let answer := fst (_compute_district_highest_crop_year rt env (PStr s) crop year st) in
       match fb with
       | Some summary => degraded_answer (PStr s) crop year summary answer
       | None => unavailable_answer answer
       end.
Proof.
  intros Hl He.
  destruct (fallback_never_raises rt env (PStr s) crop year st1) as (fb & st2 & F).
  exists fb, st2. split; [exact F|].
  assert (R : _compute_district_highest_crop_year rt env (PStr s) crop year st
              = (Ok match fb with
                    | Some summary => PDict (dict_merge summary degraded_extras)
                    | None => district_unavailable_error rt env (title s) crop
                    end, st2)).
  { unfold _compute_district_highest_crop_year.
    unfold bind at 1. rewrite Hl, He.
    unfold bind at 1. rewrite F.
    destruct fb as [summary|]; [|reflexivity].
    destruct (fallback_shape _ _ _ _ _ _ _ _ F) as [total ->]. reflexivity. }
  rewrite R. split; [reflexivity|].
  destruct fb as [summary|].
  - destruct (fallback_shape _ _ _ _ _ _ _ _ F) as [total ->].
    cbn. split; [exists total; split; reflexivity|].
    repeat split; reflexivity.
  - cbn. split; [eexists; reflexivity|]. split; [reflexivity|].
    eexists _, _. reflexivity.
Qed.

Lemma district_unavailable_flow_witness :
  let request := _compute_district_highest_crop_year digits_runtime (offline no_config)
                   (PStr "punjab") (PStr "wheat") (PInt 2020) in
  exists fb st2,
    _try_state_level_fallback digits_runtime (offline no_config)
      (PStr "punjab") (PStr "wheat") (PInt 2020) punjab_store = (Ok fb, st2)
    /\ snd (request punjab_store) = st2
    /\ let answer := fst (request punjab_store) in
       match fb with
       | Some summary => degraded_answer (PStr "punjab") (PStr "wheat") (PInt 2020) summary answer
       | None => unavailable_answer answer
       end.
Proof.
  apply (district_unavailable_flow digits_runtime (offline no_config) "punjab"
           (PStr "wheat") (PInt 2020) punjab_store (mkFrame [] []) Fresh punjab_store);
    reflexivity.
Defined.

(** ** Orders on group keys *)















(** ** Sorting under an order that is transitive on the elements at hand *)

Section SortOn.
Context {A : Type} (le : A -> A -> bool) (P : A -> Prop).
Hypothesis le_total : forall x y, le x y = false -> le y x = true.
Hypothesis le_trans :
  forall x y z, P x -> P y -> P z -> le x y = true -> le y z = true -> le x z = true.


End SortOn.

(** ** Grouped sums *)

Section GroupByFacts.
Context {K : Type} (keqb kleb : K -> K -> bool) (knull : K -> bool).
Context (key : row -> K) (val : row -> cell).



Hypothesis keqb_refl : forall x, keqb x x = true.
Hypothesis keqb_trans : forall x y z, keqb x y = true -> keqb y z = true -> keqb x z = true.

End GroupByFacts.

(** ** Distinct keys through sorting *)

Section PairsFacts.
Context {A : Type} (le : A -> A -> bool) (R : A -> A -> Prop).
Hypothesis R_sym : forall x y, R x y -> R y x.


End PairsFacts.


Section TotalsFacts.
Context {K : Type} (keqb kleb : K -> K -> bool) (knull : K -> bool).
Context (key : row -> K) (val : row -> cell).
Hypothesis keqb_refl : forall x, keqb x x = true.
Hypothesis keqb_sym : forall x y, keqb x y = keqb y x.
Hypothesis keqb_trans : forall x y z, keqb x y = true -> keqb y z = true -> keqb x z = true.


End TotalsFacts.






(** ** District comparison for a count of years of at least 1 *)






(** ** Top crops of a state for a count of years of at least 1 *)








Lemma keywords_never_reach_district_witness :
  parse_with_patterns district_question = None
  /\ In (intent_name (parse_query district_question PNone))
        ["rainfall_compare"; "top_crops_state"; "unknown"].
Proof.
  split; [vm_compute; reflexivity|].
  apply (keywords_never_reach_district district_question PNone).
  vm_compute; reflexivity.
Defined.

(** ** The state-level fallback on numbers *)



(** * Further properties *)

(** ** The data store *)

Lemma dict_get_in_keys {V} (k : string) (d : list (string * V)) :
  dict_get k d <> None <-> In k (dict_keys d).
Proof.
  induction d as [|[k' v] t IH]; simpl.
  - split; [congruence | tauto].
  - destruct (String.eqb k k') eqn:E.
    + apply String.eqb_eq in E. subst k'. split; [now left | discriminate].
    + apply String.eqb_neq in E. rewrite IH. split; [now right|].
      intros [H | H]; [congruence | exact H].
Qed.

Lemma dict_set_keys {V} (k : string) (v : V) (d : list (string * V)) :
  dict_keys (dict_set k v d)
  = if existsb (String.eqb k) (dict_keys d) then dict_keys d else dict_keys d ++ [k].
Proof.
  induction d as [|[k' v'] t IH]; simpl; [reflexivity|].
  destruct (String.eqb k k') eqn:E; simpl.
  - apply String.eqb_eq in E. now subst k'.
  - rewrite IH. now destruct (existsb (String.eqb k) (dict_keys t)).
Qed.

(** Adding a dataset and reading it back.  A dataset added under
    [agriculture] is what [get_dataset] returns for its name; one added under
    [climate] is returned unless an agriculture dataset has the same name,
    which is then returned; under any other category the dataset is not
    stored and the name reads as before.  Other names read as before, and
    the metadata is recorded under the name whatever the category. *)
Theorem get_after_add (category name : string) (df : DataFrame) (meta : pydict) (st : Store) :
  let st' := add_dataset category name df meta st in
  get_dataset name st'
  = (if String.eqb category "agriculture" then Some df
     else match dict_get name (agriculture_data st) with
          | Some old => Some old
          | None => if String.eqb category "climate" then Some df
                    else get_dataset name st
          end)
  /\ (forall other, other <> name -> get_dataset other st' = get_dataset other st)
  /\ dict_get name (metadata st') = Some meta.
Proof.
  unfold add_dataset, get_dataset; simpl.
  split; [|split].
  - destruct (String.eqb category "agriculture") eqn:A.
    + now rewrite dict_get_set_same.
    + destruct (dict_get name (agriculture_data st)) as [old|]; [reflexivity|].
      destruct (String.eqb category "climate"); [now rewrite dict_get_set_same | reflexivity].
  - intros other H.
    destruct (String.eqb category "agriculture").
    + now rewrite dict_get_set_other.
    + destruct (String.eqb category "climate"); [|reflexivity].
      now rewrite dict_get_set_other.
  - apply dict_get_set_same.
Qed.

(** [get_dataset] finds a dataset exactly for the names [list_datasets]
    lists, under either category. *)
Theorem get_dataset_listed (name : string) (st : Store) :
  get_dataset name st <> None <-> listed "agriculture" name st \/ listed "climate" name st.
Proof.
  unfold get_dataset, listed, list_datasets. simpl.
  split.
  - destruct (dict_get name (agriculture_data st)) as [df|] eqn:A.
    + intros _. left. eexists; split; [reflexivity|].
      apply in_map. apply dict_get_in_keys. congruence.
    + intro H. right. eexists; split; [reflexivity|].
      apply in_map. now apply dict_get_in_keys.
  - intros [(names & E & H) | (names & E & H)]; inversion E; subst names; clear E;
      apply in_map_iff in H; destruct H as (k & E & H); inversion E; subst k;
      apply dict_get_in_keys in H.
    + destruct (dict_get name (agriculture_data st)); congruence.
    + destruct (dict_get name (agriculture_data st)); [congruence | exact H].
Qed.

Lemma dict_set_nodup {V} (k : string) (v : V) (d : list (string * V)) :
  NoDup (dict_keys d) -> NoDup (dict_keys (dict_set k v d)).
Proof.
  intro H. rewrite dict_set_keys.
  destruct (existsb (String.eqb k) (dict_keys d)) eqn:E; [exact H|].
  apply NoDup_app; [exact H | repeat constructor; simpl; tauto |].
  intros x Hx [<- | []].
  assert (C : existsb (String.eqb k) (dict_keys d) = true).
  { apply existsb_exists. exists k. split; [exact Hx | apply String.eqb_refl]. }
  congruence.
Qed.

(** [add_dataset] keeps the store free of repeated names within a category;
    the empty store is free of them. *)
Theorem add_dataset_no_repeats (category name : string) (df : DataFrame) (meta : pydict)
  (st : Store) :
  no_repeats st -> no_repeats (add_dataset category name df meta st).
Proof.
  intros [Ha Hc]. unfold no_repeats, add_dataset. simpl.
  destruct (String.eqb category "agriculture").
  - split; [now apply dict_set_nodup | exact Hc].
  - destruct (String.eqb category "climate").
    + split; [exact Ha | now apply dict_set_nodup].
    + now split.
Qed.

Lemma add_dataset_no_repeats_witness :
  no_repeats new_store
  /\ no_repeats (add_dataset "climate" "rainfall" rainfall_table [] new_store).
Proof.
  assert (E : no_repeats new_store) by (split; constructor).
  split; [exact E|].
  apply (add_dataset_no_repeats "climate" "rainfall" rainfall_table [] new_store E).
Defined.

(** ** Loading the district table *)

Lemma try_resource_ids_result env (ids : list string) (st : Store) :
  exists df o st',
    try_resource_ids env ids st = (Ok (df, o), st')
    /\ ((df = empty_frame /\ o = Fresh /\ st' = st)
        \/ (_validate_crop_production_schema df = true
            /\ o = Stored district_dataset
            /\ get_dataset district_dataset st' = Some df)).
Proof.
  induction ids as [|rid rest IH]; cbn [try_resource_ids].
  - exists empty_frame, Fresh, st. split; [reflexivity | now left].
  - assert (C : forall df, _validate_crop_production_schema df = true ->
              exists df' o st',
                (cache_district rid df ;;; ret (df, Stored district_dataset))%m st
                = (Ok (df', o), st')
                /\ ((df' = empty_frame /\ o = Fresh /\ st' = st)
                    \/ (_validate_crop_production_schema df' = true
                        /\ o = Stored district_dataset
                        /\ get_dataset district_dataset st' = Some df'))).
    { intros df V. eexists _, _, _. split; [reflexivity|]. right.
      split; [exact V|]. split; [reflexivity|].
      unfold get_dataset, add_dataset. simpl. now rewrite dict_get_set_same. }
    assert (S : exists df o st',
              match fetch_dataset env (Some rid) false with
              | Ok df_fetched =>
                  if _validate_crop_production_schema df_fetched
                  then (cache_district rid df_fetched ;;;
                        ret (df_fetched, Stored district_dataset))%m
                  else try_resource_ids env rest
              | Raise _ => try_resource_ids env rest
              end st = (Ok (df, o), st')
              /\ ((df = empty_frame /\ o = Fresh /\ st' = st)
                  \/ (_validate_crop_production_schema df = true
                      /\ o = Stored district_dataset
                      /\ get_dataset district_dataset st' = Some df))).
    { destruct (fetch_dataset env (Some rid) false) as [d|e]; [|exact IH].
      destruct (_validate_crop_production_schema d) eqn:V; [now apply C | exact IH]. }
    destruct (fetch_dataset env (Some rid) true) as [d|e]; [|exact S].
    destruct (_validate_crop_production_schema d) eqn:V; [now apply C | exact S].
Qed.

Lemma load_district_cases env (st : Store) :
  exists df o st',
    _load_district_crop_production env st = (Ok (df, o), st')
    /\ ((df = empty_frame /\ o = Fresh /\ st' = st)
        \/ (_validate_crop_production_schema df = true
            /\ o = Stored district_dataset
            /\ get_dataset district_dataset st' = Some df)).
Proof.
  unfold _load_district_crop_production, bind, read_dataset.
  destruct (get_dataset district_dataset st) as [df|] eqn:G;
    [|apply try_resource_ids_result].
  destruct (negb (df_empty df) && _validate_crop_production_schema df) eqn:V;
    [|apply try_resource_ids_result].
  apply andb_true_iff in V. destruct V as [_ V].
  exists df, (Stored district_dataset), st. split; [reflexivity|]. right. auto.
Qed.

(** Loading the district table never raises.  It returns either the empty
    frame, leaving the store as it was, or a frame that passes the schema
    validation and that the store holds under the district name when the
    load returns. *)
Theorem load_district_result env (st : Store) :
  exists df o st',
    _load_district_crop_production env st = (Ok (df, o), st')
    /\ ((df = empty_frame /\ o = Fresh /\ st' = st)
        \/ (_validate_crop_production_schema df = true
            /\ o = Stored district_dataset
            /\ get_dataset district_dataset st' = Some df)).
Proof.
  destruct (load_district_cases env st) as (df & o & st' & E & H).
  exists df, o, st'. split; [exact E | exact H].
Qed.

(** A table that was loaded is served from the store from then on: whatever
    the configuration and the network have become, the next load returns the
    same frame and leaves the store as it is. *)
Theorem load_district_cached env env' (st st' : Store) (df : DataFrame) (o : origin) :
  _load_district_crop_production env st = (Ok (df, o), st') ->
  df <> empty_frame ->
  _load_district_crop_production env' st' = (Ok (df, Stored district_dataset), st').
Proof.
  intros H Hne.
  destruct (load_district_cases env st) as (df1 & o1 & st1 & E & [(-> & _) | (V & _ & G)]);
    rewrite E in H; inversion H; subst; clear H; [congruence|].
  unfold _load_district_crop_production, bind, read_dataset. rewrite G.
  assert (N : df_empty df = false).
  { unfold _validate_crop_production_schema in V. now destruct (df_empty df). }
  now rewrite N, V.
Qed.

Lemma load_district_cached_witness :
  _load_district_crop_production district_env empty_store
  = (Ok (district_table, Stored district_dataset), cached_store)
  /\ _load_district_crop_production (offline no_config) cached_store
     = (Ok (district_table, Stored district_dataset), cached_store).
Proof.
  assert (E : _load_district_crop_production district_env empty_store
              = (Ok (district_table, Stored district_dataset), cached_store))
    by (vm_compute; reflexivity).
  split; [exact E|].
  apply (load_district_cached district_env (offline no_config) empty_store cached_store
           district_table (Stored district_dataset) E).
  discriminate.
Defined.

(** ** Schema validation and the roles of the district computations *)

(** A role resolves exactly when some column is a candidate up to letter
    case. *)
Lemma find_col_resolves_iff (candidates cols : list string) :
  find_col candidates cols <> None
  <-> exists c x, In c candidates /\ In x cols /\ lower x = lower c.
Proof.
  split.
  - destruct (find_col candidates cols) as [r|] eqn:E; [intros _ | congruence].
    pose proof (find_col_in _ _ _ E) as Hin.
    apply find_col_lower_in in E. apply in_map_iff in E. destruct E as (c & Hc & Hin').
    exists c, r. auto.
  - intros (c & x & Hc & Hx & Hl) E.
    pose proof (find_col_cases candidates cols) as S.
    destruct (exact_candidate candidates cols) as [c'|]; [congruence|].
    destruct (ci_candidate candidates cols) as [c'|] eqn:C.
    + destruct S as (y & Hy & _). congruence.
    + unfold ci_candidate in C. apply find_none with (x := c) in C; [|exact Hc].
      assert (T : existsb (fun x => String.eqb (lower x) (lower c)) cols = true).
      { apply existsb_exists. exists x. split; [exact Hx | now apply String.eqb_eq]. }
      congruence.
Qed.

(** A candidate that repeats another one up to letter case adds nothing. *)
Lemma find_col_redundant (candidates cols : list string) (extra : string) :
  In (lower extra) (map lower candidates) ->
  (find_col (candidates ++ [extra]) cols <> None <-> find_col candidates cols <> None).
Proof.
  intro H. rewrite !find_col_resolves_iff. split.
  - intros (c & x & Hc & Hx & Hl). apply in_app_or in Hc. destruct Hc as [Hc | [<- | []]].
    + exists c, x. auto.
    + apply in_map_iff in H. destruct H as (c' & E & Hc'). exists c', x.
      split; [exact Hc'|]. split; [exact Hx | congruence].
  - intros (c & x & Hc & Hx & Hl). exists c, x. split; [|auto].
    apply in_or_app. now left.
Qed.

Lemma truthy_resolved (candidates cols : list string) :
  Forall (fun c => c <> "") candidates ->
  (truthy_str (find_col candidates cols) = true <-> find_col candidates cols <> None).
Proof.
  intro H. rewrite (find_col_truthy _ _ H).
  destruct (find_col candidates cols); split; congruence.
Qed.

Lemma validated_roles_iff (df : DataFrame) :
  _validate_crop_production_schema df = true
  <-> df_empty df = false
      /\ find_col state_candidates (columns df) <> None
      /\ find_col district_candidates (columns df) <> None
      /\ find_col crop_candidates (columns df) <> None
      /\ find_col production_candidates_prod (columns df) <> None.
Proof.
  unfold _validate_crop_production_schema.
  destruct (df_empty df); [split; [discriminate | intros [? _]; discriminate]|].
  rewrite !andb_true_iff.
  rewrite !truthy_resolved
    by (unfold state_candidates, district_candidates, crop_candidates,
          production_candidates_prod; simpl; nonempty_list).
  rewrite !find_col_redundant by (vm_compute; tauto).
  tauto.
Qed.

(** A table passes the schema validation exactly when it is not empty and
    the state, district, crop and production roles resolve as the district
    computations resolve them. *)
Theorem validated_roles (df : DataFrame) :
  _validate_crop_production_schema df = true
  <-> df_empty df = false
      /\ find_col state_candidates (columns df) <> None
      /\ find_col district_candidates (columns df) <> None
      /\ find_col crop_candidates (columns df) <> None
      /\ find_col production_candidates_prod (columns df) <> None.
Proof.
  split; intro H.
  - now apply validated_roles_iff.
  - now apply validated_roles_iff.
Qed.

(** On a table that was loaded, the schema test of the district computations
    can fail on the year column only: with a year column they accept the
    table; without one the district comparison answers with the schema
    error, whatever its arguments. *)
Theorem loaded_table_schema rt env (st st' : Store) (df : DataFrame) (o : origin)
  (state crop years : pyval) :
  _load_district_crop_production env st = (Ok (df, o), st') ->
  df <> empty_frame ->
  (find_col year_candidates (columns df) <> None -> all_cols (district_cols df) = true)
  /\ (find_col year_candidates (columns df) = None ->
      _compute_district_crop_comparison rt env state crop years st
      = (Ok (PDict [("error", PStr "District dataset schema unexpected");
                    ("columns", columns_list df)]), st')).
Proof.
  intros H Hne.
  destruct (load_district_cases env st) as (df1 & o1 & st1 & E & [(-> & _) | (V & _ & _)]);
    rewrite E in H; inversion H; subst; clear H; [congruence|].
  apply validated_roles_iff in V. destruct V as (Eempty & Hs & Hd & Hc & Hp).
  assert (A' : all_cols (district_cols df)
               = truthy_str (find_col year_candidates (columns df))).
  { unfold all_cols, district_cols. simpl.
    apply truthy_resolved in Hs; [|exact state_candidates_nonempty].
    apply truthy_resolved in Hd; [|unfold district_candidates; nonempty_list].
    apply truthy_resolved in Hc; [|exact crop_candidates_nonempty].
    apply truthy_resolved in Hp; [|unfold production_candidates_prod; nonempty_list].
    now rewrite Hs, Hd, Hc, Hp. }
  split.
  - intro Hy. rewrite A'. apply truthy_resolved; [unfold year_candidates; nonempty_list | exact Hy].
  - intro Hy. unfold _compute_district_crop_comparison. unfold bind at 1.
    rewrite E, Eempty. cbv zeta. rewrite A', Hy. reflexivity.
Qed.

Lemma loaded_table_schema_witness :
  (find_col year_candidates (columns yearless_table) <> None ->
   all_cols (district_cols yearless_table) = true)
  /\ (find_col year_candidates (columns yearless_table) = None ->
      _compute_district_crop_comparison digits_runtime (offline no_config)
        (PStr "punjab") (PStr "wheat") (PInt 5) yearless_store
      = (Ok (PDict [("error", PStr "District dataset schema unexpected");
                    ("columns", columns_list yearless_table)]), yearless_store)).
Proof.
  apply (loaded_table_schema digits_runtime (offline no_config) yearless_store yearless_store
           yearless_table (Stored district_dataset));
    [reflexivity | discriminate].
Defined.

(** ** The top-crops comparison of two states *)





(** ** The district extrema *)

Lemma last_opt_app {A} (l : list A) (x : A) : last_opt (l ++ [x]) = Some x.
Proof. unfold last_opt. now rewrite rev_app_distr. Qed.









(** ** The district of the highest production *)




(** ** Planning and execution together *)

Lemma make_step_fields (parsed : pydict) (keys : list string) :
  fold_right (fun k acc => ebind (dict_item k parsed)
                             (fun v => ebind acc (fun vs => Ok ((k, v) :: vs))))
             (Ok []) keys
  = match first_missing keys parsed with
    | Some k => Raise (KeyError k)
    | None => Ok (map (fun k => (k, get_or_none k parsed)) keys)
    end.
Proof.
  unfold first_missing.
  induction keys as [|k t IH]; cbn [fold_right map find].
  - reflexivity.
  - rewrite IH. unfold dict_item, get_or_none, ebind.
    destruct (dict_get k parsed); [|reflexivity].
    destruct (find _ t); reflexivity.
Qed.

Lemma make_step_spec (parsed : pydict) (t : string) (keys : list string) :
  make_step parsed t keys
  = match first_missing keys parsed with
    | Some k => Raise (KeyError k)
    | None => Ok (PDict (("type", PStr t) :: map (fun k => (k, get_or_none k parsed)) keys))
    end.
Proof.
  unfold make_step. rewrite make_step_fields.
  destruct (first_missing keys parsed); reflexivity.
Qed.

Lemma first_missing_app (a b : list string) (d : pydict) :
  first_missing (a ++ b) d
  = match first_missing a d with
    | Some k => Some k
    | None => first_missing b d
    end.
Proof.
  unfold first_missing. induction a as [|k t IH]; simpl; [reflexivity|].
  destruct (dict_get k d); [exact IH | reflexivity].
Qed.

Lemma execute_step_of rt env (parsed : pydict) (t : string) (results : pydict) (st : Store) :
  In t step_types ->
  execute_step rt env (step_of parsed t) results st
  = match computation rt env t parsed st with
    | (Ok payload, st') => (Ok (dict_set (step_key t) payload results), st')
    | (Raise e, st') => (Raise e, st')
    end.
Proof.
  intro Hin. unfold step_of.
  rewrite (execute_step_recognized rt env
             (("type", PStr t) :: map (fun k => (k, get_or_none k parsed)) (step_args t))
             t results st eq_refl Hin).
  simpl in Hin.
  repeat (destruct Hin as [<- | Hin]); try contradiction; reflexivity.
Qed.

Lemma execute_steps_of rt env (parsed : pydict) (types : list string) (results : pydict)
  (st : Store) :
  Forall (fun t => In t step_types) types ->
  execute_steps rt env (map (step_of parsed) types) results st
  = run_computations rt env types parsed results st.
Proof.
  intro H. revert results st.
  induction H as [|t rest Ht _ IH]; intros results st; cbn [map execute_steps run_computations].
  - reflexivity.
  - unfold bind. rewrite (execute_step_of rt env parsed t results st Ht).
    destruct (computation rt env t parsed st) as [[payload|e] st']; [apply IH | reflexivity].
Qed.

Lemma plan_of_recognized (parsed : pydict) (intent : string) :
  dict_get "intent" parsed = Some (PStr intent) ->
  In intent recognized_intents ->
  plan_of parsed
  = match first_missing (intent_keys intent) parsed with
    | Some k => Raise (KeyError k)
    | None => Ok (make_plan (PStr intent) (map (step_of parsed) (intent_step_types intent)))
    end.
Proof.
  intros Hi Hin. unfold plan_of, get_or_none. rewrite Hi.
  simpl in Hin.
  repeat (destruct Hin as [<- | Hin]); try contradiction;
    cbn [py_eq_str String.eqb Ascii.eqb Bool.eqb];
    rewrite ?make_step_spec; unfold intent_keys;
    cbn [intent_step_types String.eqb Ascii.eqb Bool.eqb flat_map app];
    rewrite ?first_missing_app; unfold step_of.
  all: repeat match goal with
         | |- context [first_missing (step_args ?t) _] =>
             let l := eval cbv in (step_args t) in change (step_args t) with l
         end.
  all: repeat match goal with
         | |- context [first_missing ?l ?p] =>
             destruct (first_missing l p); cbn [ebind]; try reflexivity
         end.
Qed.

Lemma intent_step_types_known (intent : string) :
  Forall (fun t => In t step_types) (intent_step_types intent).
Proof.
  unfold intent_step_types, step_types.
  repeat match goal with
         | |- context [if ?b then _ else _] => destruct b
         end;
    repeat (apply Forall_cons; [simpl; tauto|]); apply Forall_nil.
Qed.

(** The planner and the executor together, on a parsed dict that carries one
    of the six intents.  When the dict lacks an entry the planner reads, the
    request raises [KeyError] for the first such entry before anything is
    computed, and the store is as it was.  Otherwise the computations of the
    steps of the intent run in order on the entries of the dict, each on the
    store the one before has left; the response carries the plan and, under
    the key of each step, its payload; an exception of a computation ends
    the request. *)
Theorem plan_and_execute_recognized rt env (parsed : pydict) (intent : string) (st : Store) :
  dict_get "intent" parsed = Some (PStr intent) ->
  In intent recognized_intents ->
  plan_and_execute rt env parsed st
  = match first_missing (intent_keys intent) parsed with
    | Some k => (Raise (KeyError k), st)
    | None =>
        match run_computations rt env (intent_step_types intent) parsed [] st with
        | (Ok results, st') =>
            (Ok (response (make_plan (PStr intent)
                             (map (step_of parsed) (intent_step_types intent)))
                          results), st')
        | (Raise e, st') => (Raise e, st')
        end
    end.
Proof.
  intros Hi Hin. unfold plan_and_execute. unfold bind at 1, lift at 1.
  rewrite (plan_of_recognized parsed intent Hi Hin).
  destruct (first_missing (intent_keys intent) parsed); [reflexivity|].
  rewrite execute_plan.
  now rewrite (execute_steps_of rt env parsed _ [] st (intent_step_types_known intent)).
Qed.

Lemma plan_and_execute_recognized_witness :
  let parsed := [("intent", PStr "top_crops_state"); ("state", PStr "punjab");
                 ("top_n", PInt 2)] in
  plan_and_execute digits_runtime (offline no_config) parsed punjab_store
  = match first_missing (intent_keys "top_crops_state") parsed with
    | Some k => (Raise (KeyError k), punjab_store)
    | None =>
        match run_computations digits_runtime (offline no_config)
                (intent_step_types "top_crops_state") parsed [] punjab_store with
        | (Ok results, st') =>
            (Ok (response (make_plan (PStr "top_crops_state")
                             (map (step_of parsed) (intent_step_types "top_crops_state")))
                          results), st')
        | (Raise e, st') => (Raise e, st')
        end
    end.
Proof.
  apply (plan_and_execute_recognized digits_runtime (offline no_config)
           [("intent", PStr "top_crops_state"); ("state", PStr "punjab"); ("top_n", PInt 2)]
           "top_crops_state" punjab_store);
    [reflexivity | simpl; tauto].
Defined.

(** ** A table that is neither long nor wide *)



(** ** Where the rainfall comparison gets its table *)

(** The rainfall comparison and its source, whatever its arguments.  With no
    rainfall resource configured, or one whose id starts with [sample_], it
    answers with a note, without key and without network.  With another
    resource and no API key, or the placeholder key, it raises
    [RuntimeError]: nothing catches the exception of the fetcher.  The store
    is as it was in both cases. *)
Theorem rainfall_compare_source rt env (state1 state2 years : pyval) (st : Store) :
  let rid := rainfall_resource_id (config env) in
  let key := data_gov_in_api_key (config env) in
  (truthy_str rid = false \/ startswith (the_col rid) "sample_" = true ->
   _compute_rainfall_compare rt env state1 state2 years st
   = (Ok (PDict [("note", PStr "No rainfall dataset configured")]), st))
  /\ (truthy_str rid = true ->
      startswith (the_col rid) "sample_" = false ->
      truthy_str key = false \/ key = Some "YOUR_KEY_HERE" ->
      _compute_rainfall_compare rt env state1 state2 years st
      = (Raise (RuntimeError "DATA_GOV_IN_API_KEY not set or is placeholder. Create .env with DATA_GOV_IN_API_KEY=<your_key>."), st)).
Proof.
  intros rid key. unfold _compute_rainfall_compare, _load_rainfall, bind, lift.
  fold rid. split.
  - intros [H | H].
    + now rewrite H.
    + destruct (truthy_str rid) eqn:T; [|reflexivity]. cbn [negb].
      destruct rid as [r|]; [|discriminate T]. cbn [the_col] in H.
      unfold fetch_dataset. now rewrite H.
  - intros T S K. rewrite T. cbn [negb].
    destruct rid as [r|]; [|discriminate T]. cbn [the_col] in S.
    unfold fetch_dataset. rewrite S. fold key.
    destruct K as [K | K]; [now rewrite K|].
    rewrite K. cbn. reflexivity.
Qed.

(** The top-crops comparison and its source, whatever its arguments.  With a
    crop resource whose id starts with [sample_] it answers with a note.
    With no crop resource configured it raises [AttributeError], the id
    being [None] where a string is expected; with a resource and no API
    key, or the placeholder key, it raises [RuntimeError]. *)
Theorem top_crops_source rt env (state1 state2 top_m crop_type : pyval) (st : Store) :
  let rid := crop_production_resource_id (config env) in
  let key := data_gov_in_api_key (config env) in
  (forall r, rid = Some r -> startswith r "sample_" = true ->
   _compute_top_crops rt env state1 state2 top_m crop_type st
   = (Ok (PDict [("note", PStr "Crop production dataset empty")]), st))
  /\ (rid = None ->
      _compute_top_crops rt env state1 state2 top_m crop_type st
      = (Raise (AttributeError "'NoneType' object has no attribute 'startswith'"), st))
  /\ (forall r, rid = Some r -> startswith r "sample_" = false ->
      truthy_str key = false \/ key = Some "YOUR_KEY_HERE" ->
      _compute_top_crops rt env state1 state2 top_m crop_type st
      = (Raise (RuntimeError "DATA_GOV_IN_API_KEY not set or is placeholder. Create .env with DATA_GOV_IN_API_KEY=<your_key>."), st)).
Proof.
  intros rid key. unfold _compute_top_crops, _load_crop_production, bind, lift.
  fold rid. split; [|split].
  - intros r -> S. unfold fetch_dataset. now rewrite S.
  - intros ->. reflexivity.
  - intros r -> S K. unfold fetch_dataset. rewrite S. fold key.
    destruct K as [K | K]; [now rewrite K|].
    rewrite K. cbn. reflexivity.
Qed.

(** ** Discovery of resources *)

Lemma first_in_some {A} (f : A -> Exc (option pyval)) (l : list A) (v : pyval) :
  first_in f l = Ok (Some v) -> exists x, In x l /\ f x = Ok (Some v).
Proof.
  induction l as [|x t IH]; simpl; [discriminate|].
  destruct (f x) as [[w|]|e] eqn:E; try discriminate.
  - intro H. inversion H; subst w. exists x. auto.
  - intro H. destruct (IH H) as (y & Hy & Ey). exists y. auto.
Qed.

Lemma first_in_found {A} (f : A -> Exc (option pyval)) (l : list A) (x : A) (v : pyval) :
  In x l -> f x = Ok (Some v) -> first_in f l <> Ok None.
Proof.
  induction l as [|y t IH]; simpl; [tauto|].
  intros [-> | Hin] Hx.
  - now rewrite Hx.
  - destruct (f y) as [[w|]|e]; try discriminate. now apply IH.
Qed.

Lemma py_get_dict (v : pyval) (k : string) (default r : pyval) :
  py_get v k default = Ok r ->
  exists d, v = PDict d /\ r = match dict_get k d with Some x => x | None => default end.
Proof.
  destruct v; simpl; try discriminate. intro H. inversion H. eauto.
Qed.

Lemma usable_id_sound (res rid : pyval) :
  usable_id res = Ok (Some rid) -> data_resource res rid.
Proof.
  unfold usable_id. destruct res as [| | | | | |d]; try discriminate.
  cbn [py_get ebind].
  destruct (dict_get "format" d) as [f|] eqn:F; [|discriminate].
  unfold py_or at 1. destruct (truthy f) eqn:Tf; [|discriminate].
  destruct f as [| | | |s| |]; try discriminate. cbn [py_lower ebind].
  destruct (existsb (String.eqb (lower s)) data_formats) eqn:E; [|discriminate].
  intro H. exists d, s. split; [reflexivity|]. split; [exact F|].
  split.
  { apply existsb_exists in E. destruct E as (x & Hx & E).
    apply String.eqb_eq in E. now subst x. }
  unfold py_or in H.
  destruct (dict_get "id" d) as [a|] eqn:A.
  - destruct (truthy a) eqn:Ta.
    + rewrite Ta in H. inversion H; subst rid. auto.
    + destruct (dict_get "resource_id" d) as [b|] eqn:B.
      * destruct (truthy b) eqn:Tb; [|discriminate]. inversion H; subst rid. auto.
      * discriminate.
  - cbn [truthy] in H.
    destruct (dict_get "resource_id" d) as [b|] eqn:B.
    + destruct (truthy b) eqn:Tb; [|discriminate]. inversion H; subst rid. auto.
    + discriminate.
Qed.

Lemma package_resource_sound (pkg rid : pyval) :
  package_resource pkg = Ok (Some rid) ->
  exists ress l res,
    py_get pkg "resources" (PList []) = Ok ress /\ iterate ress = Ok l /\ In res l
    /\ data_resource res rid.
Proof.
  unfold package_resource.
  destruct (py_get pkg "resources" (PList [])) as [ress|e] eqn:P; [|discriminate].
  cbn [ebind]. destruct (iterate ress) as [l|e] eqn:I; [|discriminate]. cbn [ebind].
  intro H. apply first_in_some in H. destruct H as (res & Hin & H).
  exists ress, l, res. split; [reflexivity|]. split; [exact I|].
  split; [exact Hin | now apply usable_id_sound].
Qed.

Lemma first_resource_sound (rs rid : pyval) :
  first_resource rs = Ok (Some rid) ->
  exists pkgs pkg ress l res,
    iterate rs = Ok pkgs /\ In pkg pkgs
    /\ py_get pkg "resources" (PList []) = Ok ress /\ iterate ress = Ok l /\ In res l
    /\ data_resource res rid.
Proof.
  unfold first_resource. destruct (iterate rs) as [pkgs|e]; [|discriminate]. cbn [ebind].
  intro H. apply first_in_some in H. destruct H as (pkg & Hin & H).
  apply package_resource_sound in H. destruct H as (ress & l & res & H).
  exists pkgs, pkg, ress, l, res. tauto.
Qed.

Lemma succeeded_some (data : option pyval) (d : pyval) :
  succeeded data = Ok (Some d) -> data = Some d.
Proof.
  unfold succeeded. destruct data as [x|]; [|discriminate].
  destruct (truthy x); [|discriminate]. cbn [negb].
  destruct (py_get x "success" PNone) as [s|e]; [|discriminate]. cbn [ebind].
  destruct (truthy s); [|discriminate]. congruence.
Qed.

Section DiscoveryFacts.
Variable _ckan_action : string -> pydict -> option pyval.

Lemma discover_sound (params : pydict) (rid : pyval) :
  discover _ckan_action params = Ok (Some rid) ->
  exists data,
    _ckan_action "package_search" params = Some data /\ listed_resource data rid.
Proof.
  unfold discover.
  destruct (succeeded (_ckan_action "package_search" params)) as [[data|]|e] eqn:S;
    try discriminate.
  cbn [ebind]. apply succeeded_some in S.
  destruct (search_results data) as [rs|e] eqn:R; [|discriminate]. cbn [ebind].
  intro H. apply first_resource_sound in H.
  destruct H as (pkgs & pkg & ress & l & res & H).
  exists data. split; [exact S|]. exists rs, pkgs, pkg, ress, l, res. tauto.
Qed.

Lemma discover_failed (params : pydict) :
  _ckan_action "package_search" params = None -> discover _ckan_action params = Ok None.
Proof. intro H. unfold discover. now rewrite H. Qed.

(** The discovery of the rainfall resource and of the crop resource.  Each
    returns [None] when its search fails.  An id either returns is not
    falsy and is the [id], or the [resource_id], of a JSON or CSV resource
    of a package of the result of its search. *)
Theorem discovery_sound (rid : pyval) :
  (_ckan_action "package_search" rainfall_search = None ->
   discover_rainfall_resource_id _ckan_action = Ok None)
  /\ (_ckan_action "package_search" crop_search = None ->
      discover_crop_production_resource_id _ckan_action = Ok None)
  /\ (discover_rainfall_resource_id _ckan_action = Ok (Some rid) ->
      exists data,
        _ckan_action "package_search" rainfall_search = Some data
        /\ listed_resource data rid)
  /\ (discover_crop_production_resource_id _ckan_action = Ok (Some rid) ->
      exists data,
        _ckan_action "package_search" crop_search = Some data
        /\ listed_resource data rid).
Proof.
  split; [apply discover_failed|]. split; [apply discover_failed|].
  split; apply discover_sound.
Qed.

Lemma district_package_resource_sound (pkg rid : pyval) :
  district_package_resource pkg = Ok (Some rid) ->
  exists ress l res,
    py_get pkg "resources" (PList []) = Ok ress /\ iterate ress = Ok l /\ In res l
    /\ data_resource res rid.
Proof.
  unfold district_package_resource.
  repeat match goal with
         | |- context [ebind ?m _] =>
             match m with
             | py_get _ "resources" _ => fail 1
             | _ => destruct m; [cbn [ebind] | discriminate]
             end
         end.
  destruct (_ || _); [|discriminate].
  destruct (py_get pkg "resources" (PList [])) as [ress|e] eqn:P; [|discriminate].
  cbn [ebind]. destruct (iterate ress) as [l|e] eqn:I; [|discriminate]. cbn [ebind].
  intro H. apply first_in_some in H. destruct H as (res & Hin & H).
  exists ress, l, res. split; [reflexivity|]. split; [exact I|]. split; [exact Hin|].
  destruct (py_get res "name" PNone); [cbn [ebind] in H | discriminate].
  destruct (py_lower _); [cbn [ebind] in H | discriminate].
  destruct (usable_id res) as [[r|]|e] eqn:U; try discriminate. cbn [ebind] in H.
  destruct (_ && _); [|discriminate]. inversion H; subst r.
  now apply usable_id_sound.
Qed.

Lemma district_resource_sound (data rid : pyval) :
  district_resource data = Ok (Some rid) -> listed_resource data rid.
Proof.
  unfold district_resource.
  destruct (search_results data) as [rs|e] eqn:R; [|discriminate]. cbn [ebind].
  destruct (iterate rs) as [pkgs|e] eqn:I; [|discriminate]. cbn [ebind].
  destruct (first_in district_package_resource pkgs) as [[r|]|e] eqn:F;
    try discriminate; cbn [ebind].
  - intro H. inversion H; subst r.
    apply first_in_some in F. destruct F as (pkg & Hin & F).
    apply district_package_resource_sound in F. destruct F as (ress & l & res & F).
    exists rs, pkgs, pkg, ress, l, res. tauto.
  - intro H. apply first_resource_sound in H.
    destruct H as (pkgs' & pkg & ress & l & res & H).
    exists rs, pkgs', pkg, ress, l, res. tauto.
Qed.

Lemma discover_district_in_sound (terms : list (string * option string)) (rid : pyval) :
  discover_district_in _ckan_action terms = Ok (Some rid) ->
  exists term data,
    In term terms
    /\ _ckan_action "package_search" (district_search term) = Some data
    /\ listed_resource data rid.
Proof.
  induction terms as [|term rest IH]; cbn [discover_district_in]; [discriminate|].
  destruct (succeeded (_ckan_action "package_search" (district_search term)))
    as [[data|]|e] eqn:S; try discriminate; cbn [ebind].
  - apply succeeded_some in S.
    destruct (district_resource data) as [[r|]|e] eqn:D; try discriminate; cbn [ebind].
    + intro H. inversion H; subst r. exists term, data.
      split; [now left|]. split; [exact S | now apply district_resource_sound].
    + intro H. destruct (IH H) as (t & d & Ht & Hd). exists t, d. split; [now right | exact Hd].
  - intro H. destruct (IH H) as (t & d & Ht & Hd). exists t, d. split; [now right | exact Hd].
Qed.

Lemma discover_district_in_found (terms : list (string * option string))
  (term : string * option string) (data rs r : pyval) :
  In term terms ->
  succeeded (_ckan_action "package_search" (district_search term)) = Ok (Some data) ->
  search_results data = Ok rs ->
  first_resource rs = Ok (Some r) ->
  discover_district_in _ckan_action terms <> Ok None.
Proof.
  intros Hin S R F.
  induction terms as [|t rest IH]; [destruct Hin|].
  cbn [discover_district_in].
  destruct Hin as [-> | Hin].
  - rewrite S. cbn [ebind]. unfold district_resource. rewrite R. cbn [ebind].
    destruct (iterate rs) as [l|e]; [cbn [ebind] | discriminate].
    destruct (first_in district_package_resource l) as [[x|]|e']; cbn [ebind];
      try discriminate.
    rewrite F. discriminate.
  - destruct (succeeded (_ckan_action "package_search" (district_search t)))
      as [[d|]|e]; cbn [ebind]; try discriminate; [|now apply IH].
    destruct (district_resource d) as [[x|]|e]; cbn [ebind]; try discriminate.
    now apply IH.
Qed.

(** The discovery of the district resource.  An id it returns is not falsy
    and is the id of a JSON or CSV resource of a package of the result of
    one of the four searches.  It returns [None] only when no search that
    succeeded lists such a resource: the test on [pollutant] and [air] in the
    first pass over the packages never keeps an id from being returned,
    since the second pass takes any resource. *)
Theorem district_discovery (rid : pyval) :
  (discover_district_crop_production_resource_id _ckan_action = Ok (Some rid) ->
   exists term data,
     In term search_terms
     /\ _ckan_action "package_search" (district_search term) = Some data
     /\ listed_resource data rid)
  /\ (forall term data rs r,
        In term search_terms ->
        succeeded (_ckan_action "package_search" (district_search term)) = Ok (Some data) ->
        search_results data = Ok rs ->
        first_resource rs = Ok (Some r) ->
        discover_district_crop_production_resource_id _ckan_action <> Ok None).
Proof.
  split.
  - apply discover_district_in_sound.
  - intros term data rs r. apply discover_district_in_found.
Qed.
End DiscoveryFacts.

(** On a portal that lists a district package on air quality only, the first
    pass over the packages passes over its resource and the second pass
    returns it. *)
Lemma district_discovery_of_air_package :
  first_in district_package_resource [air_package] = Ok None
  /\ discover_district_crop_production_resource_id air_portal = Ok (Some (PStr "air-1")).
Proof. split; vm_compute; reflexivity. Qed.

(** ** The catalog *)

Lemma data_resource_truthy (res rid : pyval) : data_resource res rid -> truthy rid = true.
Proof. intros (d & f & _ & _ & _ & T & _). exact T. Qed.

Lemma resource_ids_entry (discovered : option pyval) (configured_id : option string)
  (name : string) :
  (forall rid, discovered = Some rid -> truthy rid = true) ->
  resource_ids (py_or match discovered with Some v => v | None => PNone end
                      (configured configured_id)) name
  = catalog_entry discovered configured_id name.
Proof.
  intro H. unfold resource_ids, catalog_entry, py_or.
  destruct discovered as [rid|].
  - now rewrite (H rid eq_refl), (H rid eq_refl).
  - cbn [truthy]. destruct configured_id as [s|]; [|reflexivity].
    cbn [configured truthy]. now destruct (String.eqb s "").
Qed.

(** The catalog after discovery, when no discovery raises: for each of the
    three kinds of dataset it lists at most one resource, the discovered one
    when discovery found one, else the configured one when it is set. *)
Theorem catalog_contents (_ckan_action : string -> pydict -> option pyval) (cfg : Config)
  (r c d : option pyval) :
  discover_rainfall_resource_id _ckan_action = Ok r ->
  discover_crop_production_resource_id _ckan_action = Ok c ->
  discover_district_crop_production_resource_id _ckan_action = Ok d ->
  discover_datasets _ckan_action cfg
  = Ok (PDict
          [("agriculture",
            PDict [("crop_production",
                    catalog_entry c (crop_production_resource_id cfg) "Crop Production");
                   ("district_crop_production",
                    catalog_entry d (district_crop_production_resource_id cfg)
                      "District Crop Production")]);
           ("climate",
            PDict [("rainfall",
                    catalog_entry r (rainfall_resource_id cfg) "Rainfall")])]).
Proof.
  intros Hr Hc Hd. unfold discover_datasets. rewrite Hr, Hc, Hd. cbn [ebind].
  rewrite !resource_ids_entry; [reflexivity| | |].
  - intros rid ->. apply discover_sound in Hr.
    destruct Hr as (data & _ & (rs & pkgs & pkg & ress & l & res & H)).
    apply (data_resource_truthy res). tauto.
  - intros rid ->. apply discover_district_in_sound in Hd.
    destruct Hd as (term & data & _ & _ & (rs & pkgs & pkg & ress & l & res & H)).
    apply (data_resource_truthy res). tauto.
  - intros rid ->. apply discover_sound in Hc.
    destruct Hc as (data & _ & (rs & pkgs & pkg & ress & l & res & H)).
    apply (data_resource_truthy res). tauto.
Qed.

Lemma catalog_contents_witness :
  discover_datasets air_portal full_config
  = Ok (PDict
          [("agriculture",
            PDict [("crop_production",
                    catalog_entry (Some (PStr "air-1"))
                      (crop_production_resource_id full_config) "Crop Production");
                   ("district_crop_production",
                    catalog_entry (Some (PStr "air-1"))
                      (district_crop_production_resource_id full_config)
                      "District Crop Production")]);
           ("climate",
            PDict [("rainfall",
                    catalog_entry (Some (PStr "air-1"))
                      (rainfall_resource_id full_config) "Rainfall")])]).
Proof.
  apply (catalog_contents air_portal full_config
           (Some (PStr "air-1")) (Some (PStr "air-1")) (Some (PStr "air-1")));
    vm_compute; reflexivity.
Defined.

(** ** The wording of answers *)

(** The degraded answer of the highest-district request is worded as a plain
    success.  The branch of [_format_answer_from_results] that words the
    state-level total is entered for a payload with an [error] entry only,
    and the degraded answer has none. *)
Theorem degraded_answer_wording rt thousands env (st st1 st2 : Store) (df : DataFrame)
  (o : origin) (s : string) (crop year plan : pyval) (summary : pydict) :
  _load_district_crop_production env st = (Ok (df, o), st1) ->
  df_empty df = true ->
  _try_state_level_fallback rt env (PStr s) crop year st1 = (Ok (Some summary), st2) ->
  exists answer,
    _compute_district_highest_crop_year rt env (PStr s) crop year st = (Ok answer, st2)
    /\ field "warning" (Ok answer)
       = Some (PStr "District-level data not available. Showing state-level summary instead.")
    /\ field "total_production" (Ok answer) <> None
    /\ _format_answer_from_results rt thousands
         (response plan [("district_highest_crop_year", answer)])
       = Ok generic_answer.
Proof.
  intros Hl He F.
  destruct (fallback_shape _ _ _ _ _ _ _ _ F) as [total ->].
  eexists. split.
  { unfold _compute_district_highest_crop_year.
    unfold bind at 1. rewrite Hl, He.
    unfold bind at 1. rewrite F. reflexivity. }
  split; [reflexivity|]. split; [discriminate|]. reflexivity.
Qed.

Lemma degraded_answer_wording_witness :
  exists answer,
    _compute_district_highest_crop_year digits_runtime (offline no_config)
      (PStr "punjab") (PStr "wheat") (PInt 2020) punjab_store = (Ok answer, punjab_store)
    /\ field "warning" (Ok answer)
       = Some (PStr "District-level data not available. Showing state-level summary instead.")
    /\ field "total_production" (Ok answer) <> None
    /\ _format_answer_from_results digits_runtime (fun q => int_str (Qtrunc q))
         (response PNone [("district_highest_crop_year", answer)])
       = Ok generic_answer.
Proof.
  apply (degraded_answer_wording digits_runtime (fun q => int_str (Qtrunc q))
           (offline no_config) punjab_store punjab_store punjab_store
           (mkFrame [] []) Fresh "punjab" (PStr "wheat") (PInt 2020) PNone
           [("state", PStr "punjab"); ("crop", PStr "wheat"); ("year", PInt 2020);
            ("total_production", PFloat (Fin (inject_Z 120)));
            ("note", PStr fallback_note)]);
    vm_compute; reflexivity.
Defined.

(** A payload [None] under [top_crops_state], which is what
    [_compute_top_crops_state] returns on a table that is neither long nor
    wide, makes the wording raise [TypeError], unless a block on an earlier
    key has returned. *)
Theorem none_payload_wording rt thousands (plan : pyval) (answer_data : pydict) :
  dict_get "top_crops_state" answer_data = Some PNone ->
  dict_get "district_highest_crop_year" answer_data = None ->
  dict_get "district_crop_comparison" answer_data = None ->
  dict_get "rainfall_compare" answer_data = None ->
  _format_answer_from_results rt thousands (response plan answer_data)
  = Raise (TypeError "argument is not iterable").
Proof.
  intros Ht Hh Hc Hr.
  unfold _format_answer_from_results, response. cbn [py_get dict_get String.eqb Ascii.eqb Bool.eqb ebind].
  unfold py_or. destruct answer_data as [|kv rest]; [discriminate Ht|]. cbn [truthy].
  unfold on_key, py_in, py_item, dict_item. rewrite Ht, Hh, Hc, Hr. reflexivity.
Qed.

Lemma none_payload_wording_witness :
  _format_answer_from_results digits_runtime (fun q => int_str (Qtrunc q))
    (response PNone [("top_crops_state", PNone)])
  = Raise (TypeError "argument is not iterable").
Proof.
  apply (none_payload_wording digits_runtime (fun q => int_str (Qtrunc q)) PNone
           [("top_crops_state", PNone)]); reflexivity.
Defined.

(** ** Requests repeated on the stored table *)

Lemma dict_set_set {V} (k : string) (v1 v2 : V) (d : list (string * V)) :
  dict_set k v2 (dict_set k v1 d) = dict_set k v2 d.
Proof.
  induction d as [|[k' v'] t IH]; simpl.
  - now rewrite String.eqb_refl.
  - destruct (String.eqb k k') eqn:E; simpl.
    + now rewrite String.eqb_refl.
    + now rewrite E, IH.
Qed.

Lemma dict_set_same {V} (k : string) (v : V) (d : list (string * V)) :
  dict_get k d = Some v -> dict_set k v d = d.
Proof.
  induction d as [|[k' v'] t IH]; simpl; [discriminate|].
  destruct (String.eqb k k') eqn:E.
  - apply String.eqb_eq in E. subst k'. intro H. now inversion H.
  - intro H. now rewrite IH.
Qed.

Lemma to_numeric_settled rt (v : cell) :
  is_num v = true \/ v = CNaN -> to_numeric rt v = v.
Proof. intros [H | ->]; [now destruct v | reflexivity]. Qed.

Lemma coerce_col_settled rt (c : string) (df : DataFrame) :
  settled c df -> coerce_col rt c df = df.
Proof.
  intros [Hc Hr]. unfold coerce_col, df_assign. rewrite Hc.
  destruct df as [cols rs]. simpl in *. f_equal.
  rewrite <- (map_id rs) at 2. apply map_ext_in. intros r Hin.
  destruct (Hr r Hin) as (v & Hv & Hn).
  unfold row_get. rewrite Hv, (to_numeric_settled rt v Hn).
  now apply dict_set_same.
Qed.

Lemma has_col_coerce rt (c c' : string) (df : DataFrame) :
  has_col c df = true -> has_col c (coerce_col rt c' df) = true.
Proof.
  intro H. unfold has_col, coerce_col, df_assign. simpl.
  destruct (has_col c' df); [exact H|].
  rewrite existsb_app. unfold has_col in H. now rewrite H.
Qed.

Lemma coerce_col_settles rt (c : string) (df : DataFrame) :
  has_col c df = true -> settled c (coerce_col rt c df).
Proof.
  intro H. split; [now apply has_col_coerce|].
  intros r Hin. unfold coerce_col, df_assign in Hin. simpl in Hin.
  apply in_map_iff in Hin. destruct Hin as (r0 & <- & _).
  exists (to_numeric rt (row_get c r0)). split; [apply dict_get_set_same|].
  unfold to_numeric. destruct (row_get c r0) as [s|q| |]; auto.
  destruct (to_num rt s); auto.
Qed.

Lemma coerce_col_keeps_settled rt (c c' : string) (df : DataFrame) :
  c <> c' -> settled c df -> settled c (coerce_col rt c' df).
Proof.
  intros Hne [Hc Hr]. split; [now apply has_col_coerce|].
  intros r Hin. unfold coerce_col, df_assign in Hin. simpl in Hin.
  apply in_map_iff in Hin. destruct Hin as (r0 & <- & Hin).
  destruct (Hr r0 Hin) as (v & Hv & Hn). exists v.
  split; [|exact Hn]. now rewrite dict_get_set_other.
Qed.

Lemma coerce_col_same_columns rt (c : string) (df : DataFrame) :
  has_col c df = true -> columns (coerce_col rt c df) = columns df.
Proof. intro H. unfold coerce_col, df_assign. simpl. now rewrite H. Qed.

Lemma coerce_col_empty rt (c : string) (df : DataFrame) :
  has_col c df = true -> df_empty (coerce_col rt c df) = df_empty df.
Proof.
  intro H. unfold df_empty. rewrite (coerce_col_same_columns rt c df H).
  unfold coerce_col, df_assign. simpl.
  destruct (columns df); [reflexivity|]. now destruct (rows df).
Qed.

Lemma replace_dataset_again (name : string) (df : DataFrame) (st : Store) :
  replace_dataset name df (replace_dataset name df st) = replace_dataset name df st.
Proof.
  unfold replace_dataset.
  destruct (dict_get name (agriculture_data st)) eqn:A; simpl.
  - now rewrite dict_get_set_same, dict_set_set.
  - destruct (dict_get name (climate_data st)) eqn:C; simpl.
    + now rewrite A, dict_get_set_same, dict_set_set.
    + now rewrite A, C.
Qed.

Lemma get_replaced (name : string) (df old : DataFrame) (st : Store) :
  get_dataset name st = Some old -> get_dataset name (replace_dataset name df st) = Some df.
Proof.
  unfold get_dataset, replace_dataset.
  destruct (dict_get name (agriculture_data st)) eqn:A; simpl.
  - intros _. now rewrite dict_get_set_same.
  - intro C. rewrite C. simpl. now rewrite A, dict_get_set_same.
Qed.

Lemma validate_by_columns (df df' : DataFrame) :
  columns df' = columns df -> df_empty df' = df_empty df ->
  _validate_crop_production_schema df' = _validate_crop_production_schema df.
Proof. intros Hc He. unfold _validate_crop_production_schema. now rewrite Hc, He. Qed.

(** The district comparison repeated.  The first request coerces the stored
    table in place; the same request made again, whatever the configuration
    and the network have become, returns what the first returned, exception
    included, and leaves the store as the first left it. *)
Theorem district_comparison_repeated rt env env' (st st1 : Store) (df : DataFrame)
  (o : origin) (state crop years : pyval) :
  _load_district_crop_production env st = (Ok (df, o), st1) ->
  df_empty df = false ->
  all_cols (district_cols df) = true ->
  let first := _compute_district_crop_comparison rt env state crop years st in
  _compute_district_crop_comparison rt env' state crop years (snd first) = first.
Proof.
  intros Hl He Hall.
  destruct (load_district_cases env st) as (df1 & o1 & st1' & E & [(-> & _) | (V & -> & G)]);
    rewrite E in Hl; inversion Hl; subst; clear Hl; [discriminate He|].
  set (c := district_cols df) in *.
  set (pc := the_col (dc_prod c)). set (yc := the_col (dc_year c)).
  set (table := coerce_col rt yc (coerce_col rt pc df)).
  assert (Hroles : exists p y, dc_prod c = Some p /\ dc_year c = Some y
                               /\ In p (columns df) /\ In y (columns df) /\ p <> y).
  { unfold all_cols in Hall. repeat (apply andb_true_iff in Hall; destruct Hall as [Hall ?]).
    unfold c, district_cols in *. simpl in *.
    destruct (find_col production_candidates_prod (columns df)) as [p|] eqn:Ep;
      [|discriminate].
    destruct (find_col year_candidates (columns df)) as [y|] eqn:Ey; [|discriminate].
    exists p, y. split; [reflexivity|]. split; [reflexivity|].
    split; [now apply find_col_in in Ep|]. split; [now apply find_col_in in Ey|].
    eapply find_col_distinct; [|exact Ep|exact Ey]. disjoint_candidates. }
  destruct Hroles as (p & y & Ep & Ey & Hp & Hy & Hne).
  assert (Hpc : pc = p) by (unfold pc; now rewrite Ep).
  assert (Hyc : yc = y) by (unfold yc; now rewrite Ey).
  assert (Cp : has_col pc df = true).
  { rewrite Hpc. unfold has_col. apply existsb_exists. exists p.
    split; [exact Hp | apply String.eqb_refl]. }
  assert (Cy : has_col yc df = true).
  { rewrite Hyc. unfold has_col. apply existsb_exists. exists y.
    split; [exact Hy | apply String.eqb_refl]. }
  assert (Cy' : has_col yc (coerce_col rt pc df) = true) by now apply has_col_coerce.
  assert (Hcols : columns table = columns df).
  { unfold table. rewrite coerce_col_same_columns by exact Cy'.
    now apply coerce_col_same_columns. }
  assert (Hempty : df_empty table = false).
  { unfold table. rewrite coerce_col_empty by exact Cy'.
    rewrite coerce_col_empty by exact Cp. exact He. }
  assert (Sp : settled pc table).
  { unfold table. apply coerce_col_keeps_settled; [congruence|].
    now apply coerce_col_settles. }
  assert (Sy : settled yc table) by (unfold table; now apply coerce_col_settles).
  assert (Hagain : coerce_col rt yc (coerce_col rt pc table) = table).
  { rewrite (coerce_col_settled rt pc table Sp). now apply coerce_col_settled. }
  set (st2 := replace_dataset district_dataset table st1).
  assert (Hload : _load_district_crop_production env' st2
                  = (Ok (table, Stored district_dataset), st2)).
  { unfold _load_district_crop_production, bind, read_dataset.
    unfold st2. rewrite (get_replaced _ table df st1 G). fold st2.
    now rewrite Hempty, (validate_by_columns df table Hcols (eq_trans Hempty (eq_sym He))), V. }
  assert (Hc' : district_cols table = c).
  { unfold c, district_cols. now rewrite Hcols. }
  intro first.
  assert (F : first = first) by reflexivity. unfold first at 2 in F. clearbody first.
  unfold _compute_district_crop_comparison in F.
  unfold bind at 1 in F. rewrite E, He in F. cbv zeta in F. fold c in F.
  rewrite Hall in F. cbn [negb] in F. fold pc yc in F. fold table in F.
  unfold bind at 1, commit at 1 in F. fold st2 in F.
  assert (S2 : snd first = st2).
  { rewrite F. unfold bind, lift, ret.
    repeat match goal with
           | |- context [match ?x with _ => _ end] => destruct x
           end; reflexivity. }
  rewrite S2.
  unfold _compute_district_crop_comparison.
  unfold bind at 1. rewrite Hload, Hempty. cbv zeta. rewrite Hc', Hall. cbn [negb].
  fold pc yc. rewrite Hagain.
  unfold bind at 1, commit at 1. unfold st2 at 1. rewrite replace_dataset_again. fold st2.
  now rewrite F.
Qed.

Lemma district_comparison_repeated_witness :
  let first := _compute_district_crop_comparison digits_runtime district_env
                 (PStr "punjab") (PStr "wheat") (PInt 2) empty_store in
  _compute_district_crop_comparison digits_runtime (offline no_config)
    (PStr "punjab") (PStr "wheat") (PInt 2) (snd first) = first.
Proof.
  apply (district_comparison_repeated digits_runtime district_env (offline no_config)
           empty_store cached_store district_table (Stored district_dataset)
           (PStr "punjab") (PStr "wheat") (PInt 2));
    vm_compute; reflexivity.
Defined.

(** ** State names *)

Lemma rstrip_head (c : ascii) (t : string) :
  is_space c = false -> exists t', rstrip (String c t) = String c t'.
Proof.
  intro H. simpl. destruct (rstrip t); [rewrite H|]; eauto.
Qed.

Lemma lstrip_head (s : string) :
  match lstrip s with
  | EmptyString => True
  | String c _ => is_space c = false
  end.
Proof.
  induction s as [|c t IH]; simpl; [exact I|].
  destruct (is_space c) eqn:E; [exact IH | exact E].
Qed.

Lemma lstrip_fixed (c : ascii) (t : string) :
  is_space c = false -> lstrip (String c t) = String c t.
Proof. intro H. simpl. now rewrite H. Qed.

Lemma rstrip_idempotent (s : string) : rstrip (rstrip s) = rstrip s.
Proof.
  induction s as [|c t IH]; simpl; [reflexivity|].
  destruct (rstrip t) as [|c' t'] eqn:E.
  - destruct (is_space c) eqn:S; simpl; [reflexivity | now rewrite S].
  - simpl in *. now rewrite IH.
Qed.

Lemma strip_idempotent (s : string) : strip (strip s) = strip s.
Proof.
  unfold strip.
  pose proof (lstrip_head s) as H.
  destruct (lstrip s) as [|c t]; [reflexivity|].
  destruct (rstrip_head c t H) as (t' & E). rewrite E.
  rewrite (lstrip_fixed c t' H). rewrite <- E. apply rstrip_idempotent.
Qed.

Lemma normalize_state_name_cases (name : string) :
  normalize_state_name name = "karnataka"
  \/ normalize_state_name name = "odisha"
  \/ (normalize_state_name name = strip name
      /\ String.eqb (lower (strip name)) "karnatak" = false
      /\ String.eqb (lower (strip name)) "odisha" = false
      /\ endswith (lower (strip name)) "karnatak" = false).
Proof.
  unfold normalize_state_name. cbn [dict_get].
  destruct (String.eqb (lower (strip name)) "karnatak") eqn:K; [now left|].
  destruct (String.eqb (lower (strip name)) "odisha") eqn:O; [right; now left|].
  destruct (endswith (lower (strip name)) "karnatak") eqn:E; [now left|].
  right; right. auto.
Qed.

Lemma normalize_state_name_fixed (name : string) :
  normalize_state_name (normalize_state_name name) = normalize_state_name name
  /\ strip (normalize_state_name name) = normalize_state_name name.
Proof.
  destruct (normalize_state_name_cases name) as [-> | [-> | (-> & K & O & E)]];
    [split; reflexivity | split; reflexivity |].
  split; [|apply strip_idempotent].
  unfold normalize_state_name. cbn [dict_get].
  now rewrite strip_idempotent, K, O, E.
Qed.

(** Normalization of a state name, on the name stripped of the space around
    it and read in lower case: a name that ends with [karnatak] becomes
    [karnataka], the name [odisha] becomes [odisha], and any other name is
    the stripped name, letter case kept.  A name that was normalized is left
    as it is by a further normalization. *)
Theorem normalize_state_name_idempotent (name : string) :
  (if endswith (lower (strip name)) "karnatak"
   then normalize_state_name name = "karnataka"
   else if String.eqb (lower (strip name)) "odisha"
        then normalize_state_name name = "odisha"
        else normalize_state_name name = strip name)
  /\ normalize_state_name (normalize_state_name name) = normalize_state_name name.
Proof.
  split; [|apply normalize_state_name_fixed].
  unfold normalize_state_name. cbn [dict_get].
  destruct (String.eqb (lower (strip name)) "karnatak") eqn:K.
  - apply String.eqb_eq in K. now rewrite K.
  - destruct (String.eqb (lower (strip name)) "odisha") eqn:O.
    + apply String.eqb_eq in O. now rewrite O.
    + now destruct (endswith (lower (strip name)) "karnatak").
Qed.

Lemma rstrip_no_space (s : string) :
  forallb (fun c => negb (is_space c)) (list_ascii_of_string s) = true -> rstrip s = s.
Proof.
  induction s as [|c t IH]; simpl; [reflexivity|].
  intro H. apply andb_true_iff in H. destruct H as [Hc Ht].
  rewrite (IH Ht). apply negb_true_iff in Hc.
  destruct t; [now rewrite Hc | reflexivity].
Qed.

Lemma take_word_no_space (s : string) :
  forallb (fun c => negb (is_space c)) (list_ascii_of_string (take_word s)) = true.
Proof.
  induction s as [|c t IH]; simpl; [reflexivity|].
  destruct (is_space c) eqn:E; simpl; [reflexivity|]. now rewrite E, IH.
Qed.

Lemma strip_no_space (s : string) :
  forallb (fun c => negb (is_space c)) (list_ascii_of_string s) = true -> strip s = s.
Proof.
  intro H. unfold strip.
  assert (L : lstrip s = s).
  { destruct s as [|c t]; [reflexivity|]. simpl in H.
    apply andb_true_iff in H. destruct H as [Hc _]. apply negb_true_iff in Hc.
    simpl. now rewrite Hc. }
  rewrite L. now apply rstrip_no_space.
Qed.

Lemma lstrip_empty_strip (s : string) : lstrip s = "" -> strip s = "".
Proof. intro H. unfold strip. now rewrite H. Qed.

Lemma first_word_stripped (s : string) : strip (first_word (strip s)) = first_word (strip s).
Proof.
  unfold first_word.
  destruct (lstrip (strip s)) as [|c t] eqn:E.
  - apply lstrip_empty_strip in E. rewrite strip_idempotent in E. rewrite E. reflexivity.
  - apply strip_no_space. apply take_word_no_space.
Qed.

(** The text the pattern rules take from the question.  Every state name and
    crop name in the dict of a pattern rule is stripped of the space around
    it; outside the two rainfall intents, every state name is normalized. *)
Theorem pattern_arguments_stripped (question : string) (parsed : pydict) (k s : string) :
  parse_with_patterns question = Some parsed ->
  In k text_keys ->
  dict_get k parsed = Some (PStr s) ->
  strip s = s
  /\ (In k state_keys ->
      intent_name parsed <> "rainfall_vs_top_crops" ->
      intent_name parsed <> "rainfall_compare" ->
      normalize_state_name s = s).
Proof.
  unfold parse_with_patterns. intros H Hk Hs.
  repeat (break_any; try discriminate).
  all: inversion H; subst; clear H.
  all: simpl in Hk.
  all: repeat (destruct Hk as [<- | Hk]; [cbn in Hs; try discriminate Hs|]);
    try contradiction.
  all: inversion Hs; subst; clear Hs.
  all: split;
    [ first [ apply strip_idempotent
            | apply (proj2 (normalize_state_name_fixed _))
            | apply first_word_stripped ]
    | let Hin := fresh in
      let H1 := fresh in
      let H2 := fresh in
      intros Hin H1 H2;
      first [ now elim H1
            | now elim H2
            | apply (proj1 (normalize_state_name_fixed _))
            | simpl in Hin; repeat (destruct Hin as [Hin | Hin]; try discriminate Hin);
              contradiction ] ].
Qed.

Lemma pattern_arguments_stripped_witness :
  parse_with_patterns highest_question = Some highest_parsed
  /\ strip "Punjab" = "Punjab"
  /\ (In "state" state_keys ->
      intent_name highest_parsed <> "rainfall_vs_top_crops" ->
      intent_name highest_parsed <> "rainfall_compare" ->
      normalize_state_name "Punjab" = "Punjab").
Proof.
  assert (E : parse_with_patterns highest_question = Some highest_parsed)
    by (vm_compute; reflexivity).
  split; [exact E|].
  apply (pattern_arguments_stripped highest_question highest_parsed "state" "Punjab" E);
    [simpl; tauto | reflexivity].
Defined.

(** ** The keyword extractor on rainfall questions *)

Lemma filter_first_two {A} (p : A -> bool) (l : list A) (a b : A) (rest : list A) :
  filter p l = a :: b :: rest -> first_two_of l p a b.
Proof.
  induction l as [|x t IH]; simpl; [discriminate|].
  destruct (p x) eqn:Px.
  - intro H. inversion H; subst x. clear H.
    assert (G : forall (t : list A), filter p t = b :: rest ->
                  exists between after,
                    t = between ++ b :: after /\ p b = true
                    /\ forallb (fun x => negb (p x)) between = true).
    { clear. induction t as [|y u IHu]; simpl; [discriminate|].
      destruct (p y) eqn:Py.
      - intro H. inversion H; subst y. exists [], u. auto.
      - intro H. destruct (IHu H) as (bt & af & -> & Pb & F).
        exists (y :: bt), af. simpl. rewrite Py. auto. }
    destruct (G t H2) as (bt & af & -> & Pb & F).
    exists [], bt, af. simpl. auto.
  - intro H. destruct (IH H) as (bf & bt & af & -> & Pa & Pb & F).
    exists (x :: bf), bt, af. simpl. rewrite Px. auto.
Qed.

(** The rainfall comparison of the keyword extractor.  When the extractor
    returns a rainfall comparison, the question holds one of the rainfall
    keywords, and the two states are the first two states of the fixed list
    that occur in the question in lower case, in the order of that list and
    not in the order of the question; the count of years is the number
    before [year], or 5. *)
Theorem keyword_rainfall_states (question : string) (available : pyval) (parsed : pydict) :
  _parse_with_keywords question available = Ok parsed ->
  intent_name parsed = "rainfall_compare" ->
  exists s1 s2,
    parsed = rainfall_compare_intent (PStr s1) (PStr s2)
               (PInt (int_or (search years_pattern (lower question)) 5))
    /\ first_two_of rainfall_states (fun s => str_in s (lower question)) s1 s2
    /\ existsb (fun kw => str_in kw (lower question)) rainfall_keywords = true.
Proof.
  unfold _parse_with_keywords. intros H Hi.
  repeat rewrite call_normalize_out_of_scope in H.
  cbn [ebind] in H.
  destruct (existsb (fun kw => str_in kw (lower question)) rainfall_keywords) eqn:K.
  - destruct (filter (fun state => str_in state (lower question)) rainfall_states)
      as [|s1 [|s2 rest]] eqn:F.
    1, 2: repeat (break_any; try discriminate); invert_results; cbn in Hi; discriminate.
    inversion H; subst parsed. exists s1, s2. split; [reflexivity|].
    split; [now apply filter_first_two with rest | reflexivity].
  - repeat (break_any; try discriminate); invert_results; cbn in Hi; discriminate.
Qed.

Lemma keyword_rainfall_states_witness :
  exists s1 s2,
    [("intent", PStr "rainfall_compare"); ("state1", PStr "karnataka");
     ("state2", PStr "punjab"); ("years", PInt 5)]
    = rainfall_compare_intent (PStr s1) (PStr s2)
        (PInt (int_or (search years_pattern (lower rainfall_order_question)) 5))
    /\ first_two_of rainfall_states
         (fun s => str_in s (lower rainfall_order_question)) s1 s2
    /\ existsb (fun kw => str_in kw (lower rainfall_order_question)) rainfall_keywords = true.
Proof.
  apply (keyword_rainfall_states rainfall_order_question PNone
           [("intent", PStr "rainfall_compare"); ("state1", PStr "karnataka");
            ("state2", PStr "punjab"); ("years", PInt 5)]);
    vm_compute; reflexivity.
Defined.

(** ** The wide format *)
















(** On the table of seasons, the best crop of Punjab over the last two
    seasons is wheat, with 220. *)
Example top_crops_state_wide_example :
  field "crops" (fst (_compute_top_crops_state digits_runtime (offline no_config)
                        (PStr "punjab") (PInt 1) (PInt 2) season_store))
  = Some (PList [PDict [("Crop", PStr "Wheat"); ("Production", PFloat (Fin (220 # 1)))]]).
Proof. vm_compute. reflexivity. Qed.
